(** * GITxR agent: intent resolution, parameter completion and dispatch

    A shallow embedding of [src/cli.py] (class [GitXRCLI]) and of the part of
    [src/github_api.py] it relies on, together with the properties of the
    intent classifier, the parameter completion loop and the dispatch table.

    Conventions.
    - A Python [str] is a [string]; a character is a code point below 256, so
      the text covered is the Latin-1 range, on which [str.lower],
      [str.isspace] and [repr] are written out exactly.
    - A Python value that travels through the pipeline (JSON-shaped data) is a
      [pyval]; JSON numbers are integers. A [dict] keeps its insertion order
      and has string keys, hence an association list without repeated keys.
    - Statements that print, read a line, append to the conversation history
      or call a collaborator are computations in the monad [M]: a state
      transformer that ends either in a value or in a raised exception. *)

From Stdlib Require Import String Ascii List ZArith Bool Lia DecimalString DecimalPos.
Import ListNotations.
Local Open Scope string_scope.

(* ================================================================= *)
(** ** Python strings *)

Module PyStr.

(** Code point of a character. *)
Definition ord (c : ascii) : nat := nat_of_ascii c.

(** [str.lower] on one code point: A-Z and the Latin-1 capitals
    (U+00C0..U+00DE, the multiplication sign U+00D7 apart) move up by 32. *)
Definition lower_char (c : ascii) : ascii :=
  let n := ord c in
  if (((65 <=? n) && (n <=? 90))
      || ((192 <=? n) && (n <=? 222) && negb (n =? 215)))%nat
  then ascii_of_nat (n + 32) else c.

Fixpoint lower (s : string) : string :=
  match s with
  | EmptyString => EmptyString
  | String c s' => String (lower_char c) (lower s')
  end.

(** [str.isspace] on one code point: TAB..CR, FS..US, SPACE, NEL, NBSP. *)
Definition isspace (c : ascii) : bool :=
  let n := ord c in
  (((9 <=? n) && (n <=? 13)) || ((28 <=? n) && (n <=? 32))
   || (n =? 133) || (n =? 160))%nat.

Fixpoint lstrip (s : string) : string :=
  match s with
  | EmptyString => EmptyString
  | String c s' => if isspace c then lstrip s' else s
  end.

Fixpoint rstrip (s : string) : string :=
  match s with
  | EmptyString => EmptyString
  | String c s' =>
      match rstrip s' with
      | EmptyString => if isspace c then EmptyString else String c EmptyString
      | r => String c r
      end
  end.

(** [s.strip()] *)
Definition strip (s : string) : string := rstrip (lstrip s).

(** [sub in s] *)
Fixpoint isin (sub s : string) : bool :=
  if prefix sub s then true
  else match s with
       | EmptyString => false
       | String _ s' => isin sub s'
       end.

(** [s[:n]] *)
Fixpoint take (n : nat) (s : string) : string :=
  match n, s with
  | S k, String c s' => String c (take k s')
  | _, _ => EmptyString
  end.

(** [s[n:]] *)
Fixpoint drop (n : nat) (s : string) : string :=
  match n, s with
  | O, _ => s
  | S _, EmptyString => EmptyString
  | S k, String _ s' => drop k s'
  end.

(** [s.split(sep, 1)] for a non-empty [sep]: the text before the leftmost
    occurrence and the text after it, or [s] alone. *)
Fixpoint split_1 (sep s : string) : list string :=
  if prefix sep s then [EmptyString; drop (String.length sep) s]
  else match s with
       | EmptyString => [EmptyString]
       | String c s' =>
           match split_1 sep s' with
           | [a] => [String c a]
           | a :: rest => String c a :: rest
           | [] => []
           end
       end.

(** Scan for [s.replace(old, new)] with a non-empty [old]: [skip] counts
    the characters of a match that are still to be passed over. *)
Fixpoint replace_from (old new : string) (skip : nat) (s : string) : string :=
  match s with
  | EmptyString => EmptyString
  | String c s' =>
      match skip with
      | S k => replace_from old new k s'
      | O => if prefix old s
             then (new ++ replace_from old new (String.length old - 1) s')%string
             else String c (replace_from old new 0 s')
      end
  end.

Fixpoint interleave (new s : string) : string :=
  match s with
  | EmptyString => new
  | String c s' => (new ++ String c (interleave new s'))%string
  end.

(** [s.replace(old, new)]: every non-overlapping occurrence, leftmost
    first. *)
Definition replace (old new s : string) : string :=
  match old with
  | EmptyString => interleave new s
  | _ => replace_from old new 0 s
  end.

(** [any(term in s for term in terms)] *)
Definition any_in (terms : list string) (s : string) : bool :=
  existsb (fun term => isin term s) terms.

End PyStr.

(* ================================================================= *)
(** ** Python values *)

#[warnings="-register-all"]
Inductive pyval : Type :=
| PNone
| PBool (b : bool)
| PInt (z : Z)
| PStr (s : string)
| PList (l : list pyval)
| PDict (d : list (string * pyval)).

(** A [dict] with string keys, in insertion order. *)
Definition dict : Type := list (string * pyval).

Module PyVal.

(** [bool(v)] *)
Definition truthy (v : pyval) : bool :=
  match v with
  | PNone => false
  | PBool b => b
  | PInt z => negb (Z.eqb z 0)
  | PStr s => negb (String.eqb s "")
  | PList l => match l with [] => false | _ => true end
  | PDict d => match d with [] => false | _ => true end
  end.

(** [isinstance(v, dict)] *)
Definition is_dict (v : pyval) : bool :=
  match v with PDict _ => true | _ => false end.

(** [isinstance(v, list)] *)
Definition is_list (v : pyval) : bool :=
  match v with PList _ => true | _ => false end.

(** [v == s] for a string literal [s] *)
Definition eq_str (v : pyval) (s : string) : bool :=
  match v with PStr t => String.eqb t s | _ => false end.

(** [type(v).__name__] *)
Definition type_name (v : pyval) : string :=
  match v with
  | PNone => "NoneType"
  | PBool _ => "bool"
  | PInt _ => "int"
  | PStr _ => "str"
  | PList _ => "list"
  | PDict _ => "dict"
  end.

(** [str(type(v))] *)
Definition type_str (v : pyval) : string := "<class '" ++ type_name v ++ "'>".

(** *** Dictionaries *)

(** [d[k]] when present *)
Fixpoint lookup (k : string) (d : dict) : option pyval :=
  match d with
  | [] => None
  | (k', v) :: d' => if String.eqb k k' then Some v else lookup k d'
  end.

(** [k in d] *)
Definition mem (k : string) (d : dict) : bool :=
  match lookup k d with Some _ => true | None => false end.

(** [d.get(k, default)] *)
Definition get_default (k : string) (default : pyval) (d : dict) : pyval :=
  match lookup k d with Some v => v | None => default end.

(** [d.get(k)] *)
Definition get (k : string) (d : dict) : pyval := get_default k PNone d.

(** [d[k] = v]: an existing key keeps its place, a new one goes last. *)
Fixpoint set (k : string) (v : pyval) (d : dict) : dict :=
  match d with
  | [] => [(k, v)]
  | (k', v') :: d' =>
      if String.eqb k k' then (k', v) :: d' else (k', v') :: set k v d'
  end.

(** *** [repr] and [str] *)

Definition hex_digit (n : nat) : ascii :=
  ascii_of_nat (if (n <? 10)%nat then 48 + n else 87 + n).

(** [\xhh] *)
Definition hex_escape (n : nat) : string :=
  String "\" (String "x" (String (hex_digit (n / 16))
                           (String (hex_digit (n mod 16)) EmptyString))).

(** [str.isprintable] on one code point of the Latin-1 range. *)
Definition isprintable (n : nat) : bool :=
  (((32 <=? n) && (n <? 127)) || ((161 <=? n) && negb (n =? 173)))%nat.

Definition repr_char (quote : ascii) (c : ascii) : string :=
  let n := PyStr.ord c in
  if Ascii.eqb c quote || Ascii.eqb c "\" then String "\" (String c EmptyString)
  else if (n =? 9)%nat then "\t"
  else if (n =? 10)%nat then "\n"
  else if (n =? 13)%nat then "\r"
  else if isprintable n then String c EmptyString
  else hex_escape n.

Fixpoint repr_chars (quote : ascii) (s : string) : string :=
  match s with
  | EmptyString => EmptyString
  | String c s' => repr_char quote c ++ repr_chars quote s'
  end.

(** The character U+0022. *)
Definition double_quote : ascii := ascii_of_nat 34.

(** [repr(s)] for a string: single quotes, unless the text has a single
    quote and no double quote. *)
Definition repr_str (s : string) : string :=
  let quote : ascii :=
    if PyStr.isin "'" s && negb (PyStr.isin (String double_quote EmptyString) s)
    then double_quote else "'"%char in
  String quote (repr_chars quote s ++ String quote EmptyString).

Definition repr_Z (z : Z) : string := NilZero.string_of_int (Z.to_int z).

(** [repr(v)] *)
Fixpoint repr (v : pyval) : string :=
  match v with
  | PNone => "None"
  | PBool true => "True"
  | PBool false => "False"
  | PInt z => repr_Z z
  | PStr s => repr_str s
  | PList l =>
      "[" ++ (fix items (l : list pyval) : string :=
                match l with
                | [] => ""
                | x :: [] => repr x
                | x :: r => repr x ++ ", " ++ items r
                end) l ++ "]"
  | PDict d =>
      "{" ++ (fix items (d : list (string * pyval)) : string :=
                match d with
                | [] => ""
                | (k, x) :: [] => repr_str k ++ ": " ++ repr x
                | (k, x) :: r => repr_str k ++ ": " ++ repr x ++ ", " ++ items r
                end) d ++ "}"
  end.

(** [str(v)], as an f-string field renders it *)
Definition str (v : pyval) : string :=
  match v with
  | PStr s => s
  | _ => repr v
  end.

End PyVal.

(* ================================================================= *)
(** ** Exceptions, state and the monad of effects *)

(** An exception derived from [Exception]: its class and [str(e)]. *)
Inductive exn : Type := Exn (cls : string) (msg : string).

Definition exn_str (e : exn) : string := let 'Exn _ msg := e in msg.

(** How a call ends. *)
Inductive outcome (A : Type) : Type :=
| Ret (a : A)
| Raise (e : exn).
Arguments Ret {A} a.
Arguments Raise {A} e.

(** One entry of [conversation_history]. *)
Record turn : Type := Turn { role : string; content : string }.

(** What reaches the terminal, oldest first. *)
Inductive event : Type :=
| Print (text : string)      (* console.print(text) *)
| Input (prompt : string)    (* console.input(prompt) *)
| Traceback                  (* traceback.print_exc() *)
| Table (title : string).    (* the visualizer's table *)

(** A GET request of [GitHubAPIClient._get]. *)
Record request : Type := Request { endpoint : string; params : dict }.

Record State : Type := mkState {
  console : list event;
  stdin : list string;                  (* the lines the user will enter *)
  conversation_history : list turn;
  http_log : list request               (* requests sent so far, oldest first *)
}.

(** A [pandas.DataFrame] is opaque to the CLI: a handle. *)
Definition DataFrame : Type := pyval.

(** The collaborators outside the core: the HTTP transport with status check
    and JSON decoding, the completion client, the tabular transforms and the
    table renderer. Each answers with a value or raises. The last two belong
    to the console library: [style_normalize] is rich's [Style.normalize] on
    a style the CLI does not write itself (it may raise: the colour
    [rgb(1,,2)] ends in a [ValueError]), and [meta_parameters_error] gives
    the message of the [MarkupError] for the parameters of an [@] tag that
    [ast.literal_eval] rejects. *)
Record World : Type := mkWorld {
  http_get : list request -> request -> outcome pyval;
  llm_process_query : string -> list turn -> outcome pyval;
  llm_generate_response : dict -> string -> outcome string;
  contributors_to_dataframe : pyval -> outcome DataFrame;
  commits_to_dataframe : pyval -> outcome DataFrame;
  pull_requests_to_dataframe : pyval -> outcome DataFrame;
  search_results_to_dataframe : pyval -> string -> outcome DataFrame;
  pd_DataFrame : list dict -> outcome DataFrame;
  render_table : DataFrame -> string -> outcome unit;
  style_normalize : string -> outcome string;
  meta_parameters_error : string -> option string
}.

(** A computation over a state [S]: it ends in a value or in a raised
    exception, and what it did to the state stays done either way. *)
Definition ST (S A : Type) : Type := S -> outcome A * S.

Definition ret {S A} (a : A) : ST S A := fun s => (Ret a, s).

Definition raise {S A} (e : exn) : ST S A := fun s => (Raise e, s).

Definition bind {S A B} (m : ST S A) (k : A -> ST S B) : ST S B :=
  fun s => match m s with
           | (Ret a, s') => k a s'
           | (Raise e, s') => (Raise e, s')
           end.

(** [try: m  except Exception as e: handler(e)] *)
Definition try_except {S A} (m : ST S A) (handler : exn -> ST S A) : ST S A :=
  fun s => match m s with
           | (Ret a, s') => (Ret a, s')
           | (Raise e, s') => handler e s'
           end.

(** A collaborator's answer, as a computation. *)
Definition lift {S A} (o : outcome A) : ST S A := fun s => (o, s).

(** The computations of the CLI. *)
Definition M (A : Type) : Type := ST State A.

Declare Scope py_scope.
Delimit Scope py_scope with py.
Notation "x <- m ;; k" := (bind m (fun x => k))
  (at level 100, m at next level, right associativity) : py_scope.
Notation "m ;; k" := (bind m (fun _ => k))
  (at level 100, right associativity) : py_scope.
Local Open Scope py_scope.

Definition emit (e : event) : M unit :=
  fun s => (Ret tt, mkState (console s ++ [e]) (stdin s)
                            (conversation_history s) (http_log s)).

(** *** Console markup

    [Console.print] and [Console.input] of rich render their text as console
    markup before anything is written: [rich.markup.render] finds the tags
    [[name]], [[name=parameters]] and [[/name]] and raises [MarkupError] on a
    closing tag that closes nothing. Only what decides whether the call
    raises, and with what, is kept here; the styled text is not. The stream
    written to is taken to accept every text. *)

Module Markup.

(** [Tag(name, parameters)] *)
Record tag : Type := Tag { name : string; parameters : option string }.

(** [tag.markup] *)
Definition markup (t : tag) : string :=
  match parameters t with
  | None => "[" ++ name t ++ "]"
  | Some p => "[" ++ name t ++ "=" ++ p ++ "]"
  end.

(** The class [[a-z#/@]] of [RE_TAGS]: what the text of a tag begins with. *)
Definition tag_start (c : ascii) : bool :=
  let n := PyStr.ord c in
  (((97 <=? n) && (n <=? 122)) || (n =? 35) || (n =? 47) || (n =? 64))%nat.

(** The text up to the first "]", when no "[" comes before it: what the lazy
    [[^[]*?] of [RE_TAGS] matches, followed by the closing bracket. *)
Fixpoint until_bracket (s : string) : option string :=
  match s with
  | EmptyString => None
  | String c s' =>
      if Ascii.eqb c "]" then Some EmptyString
      else if Ascii.eqb c "[" then None
      else option_map (String c) (until_bracket s')
  end.

(** The text of the tag whose opening bracket stands just before [s]. *)
Definition tag_text (s : string) : option string :=
  match s with
  | String c _ => if tag_start c then until_bracket s else None
  | EmptyString => None
  end.

(** [text.partition("=")]: the name, and the parameters when there is an
    equals sign. *)
Fixpoint partition_equals (text : string) : string * option string :=
  match text with
  | EmptyString => (EmptyString, None)
  | String c text' =>
      if Ascii.eqb c "=" then (EmptyString, Some text')
      else let (name, parameters) := partition_equals text' in
           (String c name, parameters)
  end.

Definition make_tag (text : string) : tag :=
  let (name, parameters) := partition_equals text in Tag name parameters.

(** The scan of [RE_TAGS.finditer]: [skip] characters of the tag just matched
    are still to be passed over, [escapes] backslashes stand right before
    the character at [position]. A tag after an odd number of backslashes
    is escaped and yields text. *)
Fixpoint parse_from (skip escapes position : nat) (markup : string)
  : list (nat * tag) :=
  match markup with
  | EmptyString => []
  | String c rest =>
      match skip with
      | S k => parse_from k 0 (S position) rest
      | O =>
          if Ascii.eqb c "\" then parse_from 0 (S escapes) (S position) rest
          else if Ascii.eqb c "[" then
            match tag_text rest with
            | Some text =>
                if Nat.odd escapes
                then parse_from (S (String.length text)) 0 (S position) rest
                else (position, make_tag text)
                     :: parse_from (S (String.length text)) 0 (S position) rest
            | None => parse_from 0 0 (S position) rest
            end
          else parse_from 0 0 (S position) rest
      end
  end.

(** [_parse(markup)], the tags only: each with the position of its opening
    bracket. *)
Definition _parse (markup : string) : list (nat * tag) := parse_from 0 0 0 markup.

(** The styles the markup of cli.py names: the attribute "bold" and standard
    colours of rich, each its own normal form. *)
Definition cli_styles : list string :=
  ["bold blue"; "blue"; "bold yellow"; "bold red"; "bold green"; "green"; "yellow"].

(** [Style.normalize(style)] *)
Definition normalize (w : World) (style : string) : outcome string :=
  if existsb (String.eqb style) cli_styles then Ret style
  else style_normalize w style.

(** [pop_style(style_name)]: the open tag of that name nearest to the top of
    the stack is taken out. The top of the stack comes first. *)
Fixpoint pop_style (style_name : string) (style_stack : list tag)
  : option (tag * list tag) :=
  match style_stack with
  | [] => None
  | t :: below =>
      if String.eqb (name t) style_name then Some (t, below)
      else match pop_style style_name below with
           | Some (found, below') => Some (found, t :: below')
           | None => None
           end
  end.

Definition position_str (position : nat) : string :=
  PyVal.repr_Z (Z.of_nat position).

(** The open tag a closing tag closes, and the stack without it. *)
Definition close_tag (w : World) (style_stack : list tag) (position : nat) (t : tag)
  : outcome (tag * list tag) :=
  let style_name := PyStr.strip (PyStr.drop 1 (name t)) in
  if negb (String.eqb style_name "") then
    match normalize w style_name with
    | Raise e => Raise e
    | Ret style_name =>
        match pop_style style_name style_stack with
        | Some popped => Ret popped
        | None =>
            Raise (Exn "MarkupError"
                       ("closing tag '" ++ markup t ++ "' at position "
                        ++ position_str position ++ " doesn't match any open tag"))
        end
    end
  else
    match style_stack with
    | open_tag :: below => Ret (open_tag, below)
    | [] =>
        Raise (Exn "MarkupError"
                   ("closing tag '[/]' at position " ++ position_str position
                    ++ " has nothing to close"))
    end.

(** The failure, if any, of evaluating the parameters of a closed [@] tag. *)
Definition meta_error (w : World) (open_tag : tag) : option exn :=
  if prefix "@" (name open_tag) then
    match parameters open_tag with
    | Some p =>
        if negb (String.eqb p "") then
          option_map (Exn "MarkupError") (meta_parameters_error w p)
        else None
    | None => None
    end
  else None.

(** The loop of [render] over the tags: the exception it ends in, if any. *)
Fixpoint render_from (w : World) (style_stack : list tag) (tags : list (nat * tag))
  : option exn :=
  match tags with
  | [] => None
  | (position, t) :: rest =>
      if prefix "/" (name t) then
        match close_tag w style_stack position t with
        | Raise e => Some e
        | Ret (open_tag, style_stack) =>
            match meta_error w open_tag with
            | Some e => Some e
            | None => render_from w style_stack rest
            end
        end
      else
        match normalize w (name t) with
        | Raise e => Some e
        | Ret normalized => render_from w (Tag normalized (parameters t) :: style_stack) rest
        end
  end.

(** [render(markup)]: [None] when it returns, the exception when it raises. *)
Definition render (w : World) (markup : string) : option exn :=
  if PyStr.isin "[" markup then render_from w [] (_parse markup) else None.

End Markup.

(** [self.console.print(text)] *)
Definition console_print (w : World) (text : string) : M unit :=
  match Markup.render w text with
  | Some e => raise e
  | None => emit (Print text)
  end.

(** [traceback.print_exc()] *)
Definition print_exc : M unit := emit Traceback.

(** [self.console.input(prompt)]: the prompt is printed as markup, then the
    next line is read, or [EOFError] raised at the end of the input. *)
Definition console_input (w : World) (prompt : string) : M string :=
  match Markup.render w prompt with
  | Some e => raise e
  | None =>
      fun s => match stdin s with
               | line :: rest =>
                   (Ret line, mkState (console s ++ [Input prompt]) rest
                                      (conversation_history s) (http_log s))
               | [] =>
                   (Raise (Exn "EOFError" "EOF when reading a line"),
                    mkState (console s ++ [Input prompt]) []
                            (conversation_history s) (http_log s))
               end
  end.

(** [self.conversation_history.append(t)] *)
Definition history_append (t : turn) : M unit :=
  fun s => (Ret tt, mkState (console s) (stdin s)
                            (conversation_history s ++ [t]) (http_log s)).

Definition get_history : M (list turn) :=
  fun s => (Ret (conversation_history s), s).

(** *** Built-in operations that may raise *)

Module Builtins.

(** [v.get(k, default)]: only a [dict] has the method. *)
Definition get_default (v : pyval) (k : string) (default : pyval) : outcome pyval :=
  match v with
  | PDict d => Ret (PyVal.get_default k default d)
  | _ => Raise (Exn "AttributeError"
                    ("'" ++ PyVal.type_name v ++ "' object has no attribute 'get'"))
  end.

(** [v.get(k)] *)
Definition get (v : pyval) (k : string) : outcome pyval := get_default v k PNone.

(** [v[k]] for a string key *)
Definition getitem (v : pyval) (k : string) : outcome pyval :=
  match v with
  | PDict d =>
      match PyVal.lookup k d with
      | Some x => Ret x
      | None => Raise (Exn "KeyError" (PyVal.repr_str k))
      end
  | PStr _ => Raise (Exn "TypeError" "string indices must be integers, not 'str'")
  | PList _ => Raise (Exn "TypeError" "list indices must be integers or slices, not str")
  | _ => Raise (Exn "TypeError"
                    ("'" ++ PyVal.type_name v ++ "' object is not subscriptable"))
  end.

Fixpoint chars (s : string) : list pyval :=
  match s with
  | EmptyString => []
  | String c s' => PStr (String c EmptyString) :: chars s'
  end.

(** The items a [for] loop over [v] visits. *)
Definition iter (v : pyval) : outcome (list pyval) :=
  match v with
  | PList l => Ret l
  | PDict d => Ret (map (fun kv => PStr (fst kv)) d)
  | PStr s => Ret (chars s)
  | _ => Raise (Exn "TypeError"
                    ("'" ++ PyVal.type_name v ++ "' object is not iterable"))
  end.

(** White space that [int] skips around a literal. *)
Definition int_space (c : ascii) : bool :=
  let n := PyStr.ord c in
  (((9 <=? n) && (n <=? 13)) || (n =? 32) || (n =? 133) || (n =? 160))%nat.

Fixpoint int_lstrip (s : string) : string :=
  match s with
  | EmptyString => EmptyString
  | String c s' => if int_space c then int_lstrip s' else s
  end.

(** Nothing but white space. *)
Fixpoint all_space (s : string) : bool :=
  match s with
  | EmptyString => true
  | String c s' => int_space c && all_space s'
  end.

Definition digit_value (c : ascii) : option Z :=
  let n := PyStr.ord c in
  if ((48 <=? n) && (n <=? 57))%nat then Some (Z.of_nat (n - 48)) else None.

(** The limit of CPython on the digits of a decimal literal
    ([sys.get_int_max_str_digits()], 4300 unless configured). *)
Definition int_max_str_digits : nat := 4300.

(** What a text is as a base-10 literal. *)
Inductive literal : Type :=
| Literal (z : Z)           (* the literal of [z] *)
| Invalid                   (* no literal *)
| TooLong (digits : nat).   (* more digits than the limit *)

(** What the scan of the digits has just passed. *)
Inductive scanned : Type := AtStart | AfterDigit | AfterUnderscore.

(** The scan of the digits, as [PyLong_FromString] makes it: digits with
    single underscores between them are counted up to the first other
    character; an underscore out of place is an error at once, then comes
    the limit on the digits, then the rest of the text, which may only be
    white space. *)
Fixpoint scan_digits (acc : Z) (digits : nat) (prev : scanned) (s : string)
  : literal :=
  let stop (rest : string) : literal :=
    match prev with
    | AfterUnderscore => Invalid
    | _ =>
        if (int_max_str_digits <? digits)%nat then TooLong digits
        else if (digits =? 0)%nat then Invalid
        else if all_space rest then Literal acc else Invalid
    end in
  match s with
  | EmptyString => stop EmptyString
  | String c s' =>
      match digit_value c with
      | Some d => scan_digits (10 * acc + d) (S digits) AfterDigit s'
      | None =>
          if Ascii.eqb c "_" then
            match prev with
            | AfterDigit => scan_digits acc digits AfterUnderscore s'
            | _ => Invalid
            end
          else stop s
      end
  end.

(** A base-10 literal: white space, a sign, digits, white space. *)
Definition parse_int (s : string) : literal :=
  match int_lstrip s with
  | String "-" t =>
      match scan_digits 0 0 AtStart t with
      | Literal z => Literal (- z)
      | other => other
      end
  | String "+" t => scan_digits 0 0 AtStart t
  | t => scan_digits 0 0 AtStart t
  end.

(** [int(v)] *)
Definition int (v : pyval) : outcome Z :=
  match v with
  | PInt z => Ret z
  | PBool b => Ret (if b then 1 else 0)%Z
  | PStr s =>
      match parse_int s with
      | Literal z => Ret z
      | Invalid =>
          Raise (Exn "ValueError"
                     ("invalid literal for int() with base 10: "
                      ++ PyStr.take 200 (PyVal.repr_str s)))
      | TooLong digits =>
          Raise (Exn "ValueError"
                     ("Exceeds the limit ("
                      ++ PyVal.repr_Z (Z.of_nat int_max_str_digits)
                      ++ " digits) for integer string conversion: value has "
                      ++ PyVal.repr_Z (Z.of_nat digits)
                      ++ " digits; use sys.set_int_max_str_digits() to increase the limit"))
      end
  | _ => Raise (Exn "TypeError"
           ("int() argument must be a string, a bytes-like object or a real number, not '"
            ++ PyVal.type_name v ++ "'"))
  end.

End Builtins.

(* ================================================================= *)
(** ** The intent classifier ([GitXRCLI], cli.py) *)

Import PyStr.

Definition repo_terms : list string := ["repo"; "repos"; "repositories"; "repository"].

Definition action_terms : list string :=
  ["list"; "show"; "get"; "find"; "display"; "tell"].

(** [GitXRCLI.is_list_repos_query] *)
Definition is_list_repos_query (query : string) : bool :=
  let query := lower query in
  let has_repo_term := any_in repo_terms query in
  let has_action_term := any_in action_terms query in
  let has_of_pattern := isin "of " query in
  (has_repo_term && has_action_term) || (has_repo_term && has_of_pattern).

(** [GitXRCLI.fallback_intent_detection] *)
Definition fallback_intent_detection (query : string) : dict :=
  let query := lower query in
  let username : pyval :=
    if isin "of " query then
      let parts := split_1 "of " query in
      if (1 <? List.length parts)%nat then PStr (strip (nth 1 parts "")) else PNone
    else PNone in
  if any_in ["list"; "show"; "get"; "find"; "display"; "tell"] query
     && any_in repo_terms query then
    if PyVal.truthy username then
      [("intent", PStr "list_user_repositories");
       ("parameters", PDict [("username", username)])]
    else
      [("intent", PStr "list_user_repositories");
       ("parameters", PDict [])]
  else if any_in ["search"; "find"] query && any_in repo_terms query then
    [("intent", PStr "search_repositories");
     ("parameters",
      PDict [("query",
              PStr (strip (replace "repositories" ""
                             (replace "repos" ""
                                (replace "find" ""
                                   (replace "search" "" query))))))])]
  else
    [("intent", PStr "unknown");
     ("parameters", PDict [])].

(** The classification stage of [GitXRCLI.process_query] (the first [if] of
    its [try] block): the value bound to [intent_data]. *)
Definition classify (w : World) (query : string) : M dict :=
  if is_list_repos_query query then
    let intent_data := fallback_intent_detection query in
    console_print w "[blue]Using direct pattern matching for repository listing query[/blue]" ;;
    ret intent_data
  else
    try_except
      (history <- get_history ;;
       intent_data <- lift (llm_process_query w query history) ;;
       match intent_data with
       | PDict d => ret d
       | _ =>
           console_print w ("[bold yellow]Warning:[/bold yellow] LLM returned non-dictionary: "
                          ++ PyVal.str intent_data) ;;
           let intent_data := fallback_intent_detection query in
           console_print w "[blue]Using fallback pattern matching for intent detection[/blue]" ;;
           ret intent_data
       end)
      (fun e =>
         console_print w ("[bold yellow]LLM processing failed: " ++ exn_str e
                        ++ "[/bold yellow]") ;;
         let intent_data := fallback_intent_detection query in
         console_print w "[blue]Using fallback pattern matching due to LLM failure[/blue]" ;;
         ret intent_data).

(* ================================================================= *)
(** ** The parameter completion loop *)

(** The table [intent_params] of [get_required_params]: parameter names with
    their descriptions, in the order the literal lists them. *)
Definition intent_params : list (string * list (string * string)) :=
  [("get_contributors",
      [("owner", "repository owner/organization"); ("repo", "repository name")]);
   ("get_commit_history",
      [("owner", "repository owner/organization"); ("repo", "repository name")]);
   ("get_recent_merged_prs",
      [("owner", "repository owner/organization"); ("repo", "repository name")]);
   ("list_user_repositories", [("username", "GitHub username")]);
   ("get_user_repositories", [("username", "GitHub username")]);
   ("get_repositories", [("username", "GitHub username")]);
   ("search_repositories", [("query", "search term")]);
   ("unknown", [])].

Fixpoint assoc {A} (k : string) (l : list (string * A)) : option A :=
  match l with
  | [] => None
  | (k', a) :: l' => if String.eqb k k' then Some a else assoc k l'
  end.

(** [GitXRCLI.get_required_params]: [intent_params.get(intent, {})]. A key
    that is no string finds nothing; a list or a dict cannot be hashed. *)
Definition get_required_params (intent : pyval) : outcome (list (string * string)) :=
  match intent with
  | PStr name => Ret (match assoc name intent_params with Some r => r | None => [] end)
  | PList _ | PDict _ =>
      Raise (Exn "TypeError" ("unhashable type: '" ++ PyVal.type_name intent ++ "'"))
  | _ => Ret []
  end.

(** The [for] loop of [validate_and_complete_params] over
    [required_params.items()]. *)
Fixpoint complete_params (w : World) (required : list (string * string))
                         (updated_params : dict) : M dict :=
  match required with
  | [] => ret updated_params
  | (param_name, param_desc) :: rest =>
      if negb (PyVal.mem param_name updated_params)
         || negb (PyVal.truthy (PyVal.get param_name updated_params)) then
        console_print w ("[bold yellow]Missing required parameter:[/bold yellow] "
                       ++ param_desc) ;;
        param_value <- console_input w ("Please provide the " ++ param_name ++ " ("
                                      ++ param_desc ++ "): ") ;;
        let updated_params := PyVal.set param_name (PStr param_value) updated_params in
        history_append (Turn "assistant"
                          ("Could you please provide the " ++ param_name ++ " ("
                           ++ param_desc ++ ")?")) ;;
        history_append (Turn "user" param_value) ;;
        complete_params w rest updated_params
      else complete_params w rest updated_params
  end.

(** [GitXRCLI.validate_and_complete_params] *)
Definition validate_and_complete_params (w : World) (intent : pyval) (params : pyval)
  : M dict :=
  required_params <- lift (get_required_params intent) ;;
  updated_params <-
    match params with
    | PDict d => ret d
    | _ =>
        console_print w ("[bold yellow]Warning:[/bold yellow] Expected parameters as dictionary but got "
                       ++ PyVal.type_str params ++ ". Converting to empty dict.") ;;
        ret []
    end ;;
  complete_params w required_params updated_params.

(* ================================================================= *)
(** ** The data source client ([GitHubAPIClient], github_api.py) *)

(** What [GitXRCLI.execute_intent] calls on [self.github_client]. *)
Record GitHubClient : Type := mkClient {
  get_repository_contributors : pyval -> pyval -> M pyval;
  get_commit_history : pyval -> pyval -> pyval -> Z -> M pyval;
  get_recent_merged_prs : pyval -> pyval -> Z -> M pyval;
  get_user_repositories : pyval -> M pyval;
  search_repositories : pyval -> pyval -> M pyval
}.

Module GitHubAPIClient.

(** [_get(endpoint, params)]: one request, answered by the transport. *)
Definition _get (w : World) (endpoint : string) (params : dict) : M pyval :=
  fun s =>
    let req := Request endpoint params in
    (http_get w (http_log s) req,
     mkState (console s) (stdin s) (conversation_history s) (http_log s ++ [req])).

Definition get_repository_contributors (w : World) (owner repo : pyval) : M pyval :=
  _get w ("/repos/" ++ PyVal.str owner ++ "/" ++ PyVal.str repo ++ "/contributors") [].

Definition get_commit_history (w : World) (owner repo branch : pyval) (count : Z)
  : M pyval :=
  _get w ("/repos/" ++ PyVal.str owner ++ "/" ++ PyVal.str repo ++ "/commits")
       [("sha", branch); ("per_page", PInt count)].

(** The [for pr in prs] loop of [get_recent_merged_prs]. *)
Fixpoint merged_loop (w : World) (owner repo : pyval) (prs merged_prs : list pyval)
  : M (list pyval) :=
  match prs with
  | [] => ret merged_prs
  | pr :: rest =>
      merged_at <- lift (Builtins.get pr "merged_at") ;;
      if PyVal.truthy merged_at then
        number <- lift (Builtins.getitem pr "number") ;;
        pr_details <- _get w ("/repos/" ++ PyVal.str owner ++ "/" ++ PyVal.str repo
                              ++ "/pulls/" ++ PyVal.str number) [] ;;
        merged_loop w owner repo rest (merged_prs ++ [pr_details])
      else merged_loop w owner repo rest merged_prs
  end.

Definition get_recent_merged_prs (w : World) (owner repo : pyval) (count : Z)
  : M pyval :=
  prs <- _get w ("/repos/" ++ PyVal.str owner ++ "/" ++ PyVal.str repo ++ "/pulls")
              [("state", PStr "closed"); ("per_page", PInt count)] ;;
  items <- lift (Builtins.iter prs) ;;
  merged_prs <- merged_loop w owner repo items [] ;;
  ret (PList merged_prs).

(** [search_repositories(query, sort)] with [order="desc"], [count=10]. *)
Definition search_repositories (w : World) (query sort : pyval) : M pyval :=
  _get w "/search/repositories"
       [("q", query); ("sort", sort); ("order", PStr "desc"); ("per_page", PInt 10)].

(** The class defines no [get_user_repositories]: looking the attribute up
    raises. *)
Definition get_user_repositories (username : pyval) : M pyval :=
  raise (Exn "AttributeError"
             "'GitHubAPIClient' object has no attribute 'get_user_repositories'").

(** The client [GitXRCLI.__init__] creates. *)
Definition client (w : World) : GitHubClient :=
  mkClient (get_repository_contributors w) (get_commit_history w)
           (get_recent_merged_prs w) get_user_repositories (search_repositories w).

End GitHubAPIClient.

(* ================================================================= *)
(** ** The dispatch table *)

(** [self.visualizer.show_console_table(df, title)] *)
Definition show_console_table (w : World) (df : DataFrame) (title : string) : M unit :=
  lift (render_table w df title) ;;
  emit (Table title).

(** The dictionary the loop over [data] appends to [repos_data]. *)
Definition repo_row (repo : pyval) : outcome dict :=
  match Builtins.getitem repo "name" with
  | Raise e => Raise e
  | Ret name =>
  match Builtins.get_default repo "description" (PStr "No description") with
  | Raise e => Raise e
  | Ret description =>
  match Builtins.getitem repo "stargazers_count" with
  | Raise e => Raise e
  | Ret stars =>
  match Builtins.getitem repo "forks_count" with
  | Raise e => Raise e
  | Ret forks =>
  match Builtins.getitem repo "updated_at" with
  | Raise e => Raise e
  | Ret updated =>
  match Builtins.getitem repo "html_url" with
  | Raise e => Raise e
  | Ret url =>
      Ret [("Name", name); ("Description", description); ("Stars", stars);
           ("Forks", forks); ("Last Updated", updated); ("URL", url)]
  end end end end end end.

Fixpoint repo_rows (data : list pyval) (repos_data : list dict) : outcome (list dict) :=
  match data with
  | [] => Ret repos_data
  | repo :: rest =>
      match repo_row repo with
      | Ret row => repo_rows rest (repos_data ++ [row])
      | Raise e => Raise e
      end
  end.

(** The branch of [execute_intent] for [list_user_repositories] and
    [get_user_repositories]. *)
Definition list_user_repositories (w : World) (gh : GitHubClient) (params : pyval)
  : M dict :=
  username <- lift (Builtins.get params "username") ;;
  if negb (PyVal.truthy username) then
    console_print w "[bold red]Error: No username provided for repository listing[/bold red]" ;;
    ret [("error", PStr "No username provided")]
  else
    console_print w ("[blue]Fetching repositories for user: " ++ PyVal.str username
                   ++ "[/blue]") ;;
    try_except
      (data <- get_user_repositories gh username ;;
       if negb (PyVal.truthy data) then
         console_print w ("[yellow]No repositories found for user: " ++ PyVal.str username
                        ++ "[/yellow]") ;;
         ret [("repositories", PList []);
              ("message", PStr ("No repositories found for " ++ PyVal.str username))]
       else
         match data with
         | PList l =>
             repos_data <- lift (repo_rows l []) ;;
             df <- lift (pd_DataFrame w repos_data) ;;
             show_console_table w df ("Repositories for user '" ++ PyVal.str username
                                      ++ "'") ;;
             ret [("repositories", data)]
         | _ =>
             console_print w ("[bold yellow]Warning:[/bold yellow] Unexpected data format: "
                            ++ PyVal.type_str data) ;;
             ret [("error", PStr ("Unexpected data format: " ++ PyVal.type_str data))]
         end)
      (fun e =>
         console_print w ("[bold red]Error fetching repositories:[/bold red] "
                        ++ exn_str e) ;;
         ret [("error", PStr (exn_str e))]).

(** [f"... {params.get('owner')}/{params.get('repo')}"] *)
Definition owner_slash_repo (owner repo : pyval) : string :=
  PyVal.str owner ++ "/" ++ PyVal.str repo.

(** [GitXRCLI.execute_intent] *)
Definition execute_intent (w : World) (gh : GitHubClient) (intent_data : dict) : M dict :=
  let intent := PyVal.get "intent" intent_data in
  let params := PyVal.get_default "parameters" (PDict []) intent_data in
  let intent :=
    if PyVal.eq_str intent "get_repositories" || PyVal.eq_str intent "get_repos"
    then PStr "list_user_repositories" else intent in
  try_except
    (if PyVal.eq_str intent "get_contributors" then
       owner <- lift (Builtins.get params "owner") ;;
       repo <- lift (Builtins.get params "repo") ;;
       data <- get_repository_contributors gh owner repo ;;
       df <- lift (contributors_to_dataframe w data) ;;
       show_console_table w df ("Contributors for " ++ owner_slash_repo owner repo) ;;
       ret [("contributors", data)]
     else if PyVal.eq_str intent "get_commit_history" then
       branch <- lift (Builtins.get_default params "branch" (PStr "main")) ;;
       count_value <- lift (Builtins.get_default params "count" (PInt 10)) ;;
       count <- lift (Builtins.int count_value) ;;
       owner <- lift (Builtins.get params "owner") ;;
       repo <- lift (Builtins.get params "repo") ;;
       data <- get_commit_history gh owner repo branch count ;;
       df <- lift (commits_to_dataframe w data) ;;
       show_console_table w df ("Commit history for " ++ owner_slash_repo owner repo) ;;
       ret [("commits", data)]
     else if PyVal.eq_str intent "get_recent_merged_prs" then
       count_value <- lift (Builtins.get_default params "count" (PInt 10)) ;;
       count <- lift (Builtins.int count_value) ;;
       owner <- lift (Builtins.get params "owner") ;;
       repo <- lift (Builtins.get params "repo") ;;
       data <- get_recent_merged_prs gh owner repo count ;;
       df <- lift (pull_requests_to_dataframe w data) ;;
       show_console_table w df ("Recent merged PRs for " ++ owner_slash_repo owner repo) ;;
       ret [("pull_requests", data)]
     else if PyVal.eq_str intent "list_user_repositories"
             || PyVal.eq_str intent "get_user_repositories" then
       list_user_repositories w gh params
     else if PyVal.eq_str intent "search_repositories" then
       query <- lift (Builtins.get params "query") ;;
       sort <- lift (Builtins.get_default params "sort" (PStr "stars")) ;;
       data <- search_repositories gh query sort ;;
       items <- match data with
                | PDict d => ret (PyVal.get_default "items" (PList []) d)
                | _ => ret data
                end ;;
       df <- lift (search_results_to_dataframe w items "repositories") ;;
       show_console_table w df ("Repository search results for '" ++ PyVal.str query
                                ++ "'") ;;
       ret [("search_results", data)]
     else if PyVal.eq_str intent "unknown" then
       console_print w "[bold yellow]Could not determine specific intent. Please try rephrasing your query.[/bold yellow]" ;;
       ret [("error", PStr "Unknown intent");
            ("query", PyVal.get_default "query" (PStr "") intent_data)]
     else
       console_print w ("[bold yellow]Unhandled intent:[/bold yellow] " ++ PyVal.str intent) ;;
       ret [("error", PStr ("Unhandled intent: " ++ PyVal.str intent))])
    (fun e =>
       console_print w ("[bold red]Error executing intent:[/bold red] " ++ exn_str e) ;;
       print_exc ;;
       ret [("error", PStr (exn_str e))]).

(** [GitXRCLI.process_query] *)
Definition process_query (w : World) (gh : GitHubClient) (query : string) : M unit :=
  console_print w ("[bold blue]Processing query:[/bold blue] " ++ query) ;;
  try_except
    (intent_data <- classify w query ;;
     if PyVal.eq_str (PyVal.get "intent" intent_data) "error" then
       error <- lift (Builtins.get_default
                        (PyVal.get_default "parameters" (PDict []) intent_data)
                        "error" (PStr "Unknown error")) ;;
       console_print w ("[bold red]Error:[/bold red] " ++ PyVal.str error)
     else
       console_print w ("[blue]Detected intent:[/blue] "
                      ++ PyVal.str (PyVal.get_default "intent" (PStr "unknown") intent_data)) ;;
       history_append (Turn "user" query) ;;
       let intent := PyVal.get "intent" intent_data in
       params <- validate_and_complete_params w intent
                   (PyVal.get_default "parameters" (PDict []) intent_data) ;;
       let intent_data := PyVal.set "parameters" (PDict params) intent_data in
       result <- execute_intent w gh intent_data ;;
       match result with
       | [] => ret tt
       | _ =>
           try_except
             (response <- lift (llm_generate_response w result query) ;;
              console_print w ("[bold green]Response:[/bold green] " ++ response) ;;
              history_append (Turn "assistant" response))
             (fun e =>
                console_print w ("[bold yellow]Could not generate response: " ++ exn_str e
                               ++ "[/bold yellow]") ;;
                console_print w "[green]Data was processed successfully but couldn't generate a narrative response.[/green]")
       end)
    (fun e =>
       console_print w ("[bold red]Error processing query:[/bold red] " ++ exn_str e) ;;
       print_exc).

(* ================================================================= *)
(** ** Parameter completion on objects

    The same [validate_and_complete_params], with the identity of the
    dictionaries kept: a variable holds the address of an object and the store
    gives every address the current value of its object. [params.copy()]
    makes a new object; [updated_params[param_name] = param_value] writes to
    the object [updated_params] names. *)

Module Objects.

Definition addr : Type := nat.

Record Store : Type := mkStore {
  cli : State;            (* console, input, history, requests *)
  heap : list pyval       (* the object at each address *)
}.

(** A computation of the CLI, run on the [cli] part. *)
Definition on_cli {A} (m : M A) : ST Store A :=
  fun st => let (r, s') := m (cli st) in (r, mkStore s' (heap st)).

(** The value of the object at [a]. *)
Definition read (a : addr) : ST Store pyval :=
  fun st => (Ret (nth a (heap st) PNone), st).

(** A new object, at the first free address. *)
Definition alloc (v : pyval) : ST Store addr :=
  fun st => (Ret (List.length (heap st)), mkStore (cli st) (heap st ++ [v])).

Fixpoint update (a : addr) (v : pyval) (h : list pyval) : list pyval :=
  match h, a with
  | [], _ => []
  | _ :: h', O => v :: h'
  | x :: h', S a' => x :: update a' v h'
  end.

(** The object at [a] takes the value [v]. *)
Definition write (a : addr) (v : pyval) : ST Store unit :=
  fun st => (Ret tt, mkStore (cli st) (update a v (heap st))).

(** The dictionary at [a]; the addresses the loop reads hold one. *)
Definition read_dict (a : addr) : ST Store dict :=
  obj <- read a ;;
  match obj with
  | PDict d => ret d
  | _ => raise (Exn "TypeError" ("'" ++ PyVal.type_name obj ++ "' object is no dict"))
  end.

(** [updated_params[k] = v] *)
Definition setitem (a : addr) (k : string) (v : pyval) : ST Store unit :=
  d <- read_dict a ;;
  write a (PDict (PyVal.set k v d)).

(** The [for] loop over [required_params.items()]; [updated_params] is the
    address of the dictionary being completed. *)
Fixpoint complete_params (w : World) (required : list (string * string))
                         (updated_params : addr) : ST Store unit :=
  match required with
  | [] => ret tt
  | (param_name, param_desc) :: rest =>
      d <- read_dict updated_params ;;
      if negb (PyVal.mem param_name d)
         || negb (PyVal.truthy (PyVal.get param_name d)) then
        on_cli (console_print w ("[bold yellow]Missing required parameter:[/bold yellow] "
                               ++ param_desc)) ;;
        param_value <- on_cli (console_input w ("Please provide the " ++ param_name ++ " ("
                                              ++ param_desc ++ "): ")) ;;
        setitem updated_params param_name (PStr param_value) ;;
        on_cli (history_append (Turn "assistant"
                                  ("Could you please provide the " ++ param_name ++ " ("
                                   ++ param_desc ++ ")?"))) ;;
        on_cli (history_append (Turn "user" param_value)) ;;
        complete_params w rest updated_params
      else complete_params w rest updated_params
  end.

(** [validate_and_complete_params(intent, params)], [params] and the result
    being addresses. *)
Definition validate_and_complete_params (w : World) (intent : pyval) (params : addr)
  : ST Store addr :=
  required_params <- lift (get_required_params intent) ;;
  obj <- read params ;;
  updated_params <-
    match obj with
    | PDict d => alloc (PDict d)
    | _ =>
        on_cli (console_print w ("[bold yellow]Warning:[/bold yellow] Expected parameters as dictionary but got "
                               ++ PyVal.type_str obj ++ ". Converting to empty dict.")) ;;
        alloc (PDict [])
    end ;;
  complete_params w required_params updated_params ;;
  ret updated_params.

End Objects.

(* ================================================================= *)
(** ** Vocabulary of the statements *)

(** The two patterns the fallback recognises, on the lowercased query. *)
Definition listing_pattern (query : string) : bool :=
  any_in action_terms (lower query) && any_in repo_terms (lower query).

Definition search_pattern (query : string) : bool :=
  any_in ["search"; "find"] (lower query) && any_in repo_terms (lower query).

Definition unknown_record : dict :=
  [("intent", PStr "unknown"); ("parameters", PDict [])].

(** The record has an intent, and it is a non-empty string. *)
Definition has_intent (d : dict) : Prop :=
  exists i, PyVal.lookup "intent" d = Some (PStr i) /\ i <> "".

(** A state with the given input lines and nothing done yet. *)
Definition initial_state (lines : list string) : State := mkState [] lines [] [].

(** Collaborators for the examples: a transport and a completion client of
    one's choice, transforms that hand the data over as the table handle, a
    renderer that succeeds, and a console library that knows no style but
    those of [Markup.cli_styles] (an unknown style is normalised to its
    stripped, lowercased name) and accepts all parameters of [@] tags. *)
Definition sample_world (http : list request -> request -> outcome pyval)
                        (llm : string -> list turn -> outcome pyval) : World :=
  mkWorld http llm
          (fun _ _ => Ret "done")
          (fun data => Ret data) (fun data => Ret data) (fun data => Ret data)
          (fun items _ => Ret items)
          (fun rows => Ret (PList (map PDict rows)))
          (fun _ _ => Ret tt)
          (fun style => Ret (PyStr.lower (PyStr.strip style)))
          (fun _ => None).

(** A transport that is down. *)
Definition no_network : list request -> request -> outcome pyval :=
  fun _ _ => Raise (Exn "ConnectionError" "connection refused").

(** The mapping has a truthy value for [name]. *)
Definition answered (d : dict) (name : string) : bool :=
  PyVal.mem name d && PyVal.truthy (PyVal.get name d).

(** Every required parameter has a truthy value. *)
Definition fully_specified (required : list (string * string)) (d : dict) : bool :=
  forallb (fun p => answered d (fst p)) required.

(** The mapping the completion starts from: the parameters, or the empty
    mapping when they are no mapping. *)
Definition mapping_of (params : pyval) : dict :=
  match params with PDict d => d | _ => [] end.

(** The required parameters the mapping leaves open. *)
Definition asked (required : list (string * string)) (d : dict)
  : list (string * string) :=
  filter (fun p => negb (answered d (fst p))) required.

(** The warning for parameters that are no mapping. *)
Definition not_a_dict_warning (params : pyval) : string :=
  "[bold yellow]Warning:[/bold yellow] Expected parameters as dictionary but got "
  ++ PyVal.type_str params ++ ". Converting to empty dict.".

(** [st'] has the objects of [st], each with its value, the one at [u]
    apart. *)
Definition frame_ok (u : Objects.addr) (st st' : Objects.Store) : Prop :=
  List.length (Objects.heap st') = List.length (Objects.heap st)
  /\ forall a, a <> u ->
       nth a (Objects.heap st') PNone = nth a (Objects.heap st) PNone.

(** A computation that writes to no object but [u] and makes none. *)
Definition preserves {A} (u : Objects.addr) (m : ST Objects.Store A) : Prop :=
  forall st, frame_ok u st (snd (m st)).

(** [s] after the events [evs] have reached the terminal. *)
Definition printed (s : State) (evs : list event) : State :=
  mkState (console s ++ evs) (stdin s) (conversation_history s) (http_log s).


(** The test [if pr.get('merged_at')] of [get_recent_merged_prs], on an
    item of the page. *)
Definition merged_on_page (pr : pyval) : bool :=
  match Builtins.get pr "merged_at" with
  | Ret merged_at => PyVal.truthy merged_at
  | Raise _ => false
  end.



(** A transport with one merged and one unmerged pull request that answers
    alike on the page and in the full records. *)
Definition steady_transport : list request -> request -> outcome pyval :=
  fun _ req =>
    if String.eqb (endpoint req) "/repos/octocat/hello/pulls"
    then Ret (PList [PDict [("number", PInt 1);
                            ("merged_at", PStr "2024-01-01T00:00:00Z")];
                     PDict [("number", PInt 2); ("merged_at", PNone)]])
    else Ret (PDict [("number", PInt 1); ("title", PStr "Fix");
                     ("merged_at", PStr "2024-01-01T00:00:00Z")]).

(** A record with the given intent and parameters. *)
Definition intent_record (intent : string) (parameters : pyval) : dict :=
  [("intent", PStr intent); ("parameters", parameters)].

(** A client that answers every call with the same data, without a request. *)
Definition constant_client (data : pyval) : GitHubClient :=
  mkClient (fun _ _ => ret data) (fun _ _ _ _ => ret data) (fun _ _ _ => ret data)
           (fun _ => ret data) (fun _ _ => ret data).

(** The handler of the [try] block of [execute_intent]. *)
Definition dispatch_handler (w : World) (e : exn) : M dict :=
  (console_print w ("[bold red]Error executing intent:[/bold red] " ++ exn_str e) ;;
   print_exc ;;
   ret [("error", PStr (exn_str e))])%py.

(** The branch for "get_commit_history" from the point where [count] is an
    integer. *)
Definition commit_history_with (w : World) (gh : GitHubClient) (p : dict) (count : Z)
  : M dict :=
  (let owner := PyVal.get "owner" p in
   let repo := PyVal.get "repo" p in
   data <- get_commit_history gh owner repo
             (PyVal.get_default "branch" (PStr "main") p) count ;;
   df <- lift (commits_to_dataframe w data) ;;
   show_console_table w df ("Commit history for " ++ owner_slash_repo owner repo) ;;
   ret [("commits", data)])%py.

(** The branch for "get_recent_merged_prs" from the same point. *)
Definition merged_prs_with (w : World) (gh : GitHubClient) (p : dict) (count : Z)
  : M dict :=
  (let owner := PyVal.get "owner" p in
   let repo := PyVal.get "repo" p in
   data <- get_recent_merged_prs gh owner repo count ;;
   df <- lift (pull_requests_to_dataframe w data) ;;
   show_console_table w df ("Recent merged PRs for " ++ owner_slash_repo owner repo) ;;
   ret [("pull_requests", data)])%py.

(** The branch of the two intents that take a [count]. *)
Definition counted_branch (w : World) (gh : GitHubClient) (intent : string)
                          (p : dict) (count : Z) : M dict :=
  if String.eqb intent "get_commit_history"
  then commit_history_with w gh p count
  else merged_prs_with w gh p count.

(** A client that notes the page size it is asked for. *)
Definition echo_count_client : GitHubClient :=
  mkClient (fun _ _ => ret PNone) (fun _ _ _ count => ret (PInt count))
           (fun _ _ count => ret (PInt count)) (fun _ => ret PNone)
           (fun _ _ => ret PNone).

(* ================================================================= *)
(** ** More of Python's strings and comparisons *)

Module PyText.

(** [s.startswith(p)] *)
Definition startswith (p s : string) : bool := prefix p s.

(** [s.endswith(suffix)] *)
Definition endswith (suffix s : string) : bool :=
  (String.length suffix <=? String.length s)%nat
  && String.eqb (PyStr.drop (String.length s - String.length suffix) s) suffix.

(** [s[:-n]] *)
Definition drop_last (n : nat) (s : string) : string :=
  PyStr.take (String.length s - n) s.

(** Scan for [s.replace(old, new, count)] with a non-empty [old]: [count]
    replacements are still allowed, [skip] characters of a match are still to
    be passed over. *)
Fixpoint replace_count_from (old new : string) (count skip : nat) (s : string)
  : string :=
  match s with
  | EmptyString => EmptyString
  | String c s' =>
      match skip with
      | S k => replace_count_from old new count k s'
      | O =>
          match count with
          | O => s
          | S count' =>
              if prefix old s
              then (new ++ replace_count_from old new count'
                             (String.length old - 1) s')%string
              else String c (replace_count_from old new count 0 s')
          end
      end
  end.

Fixpoint interleave_count (new : string) (count : nat) (s : string) : string :=
  match count with
  | O => s
  | S count' =>
      match s with
      | EmptyString => new
      | String c s' => (new ++ String c (interleave_count new count' s'))%string
      end
  end.

(** [s.replace(old, new, count)] for a [count] that is not negative. *)
Definition replace_count (old new : string) (count : nat) (s : string) : string :=
  match old with
  | EmptyString => interleave_count new count s
  | _ => replace_count_from old new count 0 s
  end.


End PyText.

Module PyCmp.

(** The number a [bool] or an [int] stands for. *)
Definition as_number (v : pyval) : option Z :=
  match v with
  | PInt z => Some z
  | PBool b => Some (if b then 1 else 0)%Z
  | _ => None
  end.

(** [a == b] *)
Fixpoint eq (a b : pyval) : bool :=
  match a with
  | PNone => match b with PNone => true | _ => false end
  | PBool x =>
      match as_number b with
      | Some y => Z.eqb (if x then 1 else 0) y
      | None => false
      end
  | PInt x =>
      match as_number b with
      | Some y => Z.eqb x y
      | None => false
      end
  | PStr s => match b with PStr t => String.eqb s t | _ => false end
  | PList l =>
      match b with
      | PList l' =>
          (fix items (l l' : list pyval) : bool :=
             match l, l' with
             | [], [] => true
             | x :: r, y :: r' => eq x y && items r r'
             | _, _ => false
             end) l l'
      | _ => false
      end
  | PDict d =>
      match b with
      | PDict d' =>
          Nat.eqb (List.length d) (List.length d')
          && (fix items (d : list (string * pyval)) : bool :=
                match d with
                | [] => true
                | (k, v) :: r =>
                    match PyVal.lookup k d' with
                    | Some v' => eq v v'
                    | None => false
                    end && items r
                end) d
      | _ => false
      end
  end.

Definition not_supported (op : string) (a b : pyval) : exn :=
  Exn "TypeError"
      ("'" ++ op ++ "' not supported between instances of '" ++ PyVal.type_name a
       ++ "' and '" ++ PyVal.type_name b ++ "'").

(** [a > b]: numbers by value, strings by code points, lists by their first
    unequal items; nothing else is ordered. *)
Fixpoint gt (a b : pyval) : outcome bool :=
  match a with
  | PBool _ | PInt _ =>
      match as_number a, as_number b with
      | Some x, Some y => Ret (Z.ltb y x)
      | _, _ => Raise (not_supported ">" a b)
      end
  | PStr s =>
      match b with
      | PStr t => Ret (String.ltb t s)
      | _ => Raise (not_supported ">" a b)
      end
  | PList l =>
      match b with
      | PList l' =>
          (fix items (l l' : list pyval) : outcome bool :=
             match l, l' with
             | [], _ => Ret false
             | _ :: _, [] => Ret true
             | x :: r, y :: r' => if eq x y then items r r' else gt x y
             end) l l'
      | _ => Raise (not_supported ">" a b)
      end
  | _ => Raise (not_supported ">" a b)
  end.

(** [v[i]] for an index that is not negative. *)
Definition getitem_int (v : pyval) (i : nat) : outcome pyval :=
  match v with
  | PList l =>
      match nth_error l i with
      | Some x => Ret x
      | None => Raise (Exn "IndexError" "list index out of range")
      end
  | PStr s =>
      match String.get i s with
      | Some c => Ret (PStr (String c EmptyString))
      | None => Raise (Exn "IndexError" "string index out of range")
      end
  | PDict d => Raise (Exn "KeyError" (PyVal.repr_Z (Z.of_nat i)))
  | _ => Raise (Exn "TypeError"
                    ("'" ++ PyVal.type_name v ++ "' object is not subscriptable"))
  end.

(** [len(v)] *)
Definition len (v : pyval) : outcome Z :=
  match v with
  | PList l => Ret (Z.of_nat (List.length l))
  | PDict d => Ret (Z.of_nat (List.length d))
  | PStr s => Ret (Z.of_nat (String.length s))
  | _ => Raise (Exn "TypeError"
                    ("object of type '" ++ PyVal.type_name v ++ "' has no len()"))
  end.

End PyCmp.

(* ================================================================= *)
(** ** The other operations of [GitHubAPIClient] *)

Module Fetch.

Definition repo_path (owner repo : pyval) : string :=
  "/repos/" ++ PyVal.str owner ++ "/" ++ PyVal.str repo.

(** [get_repository] *)
Definition get_repository (w : World) (owner repo : pyval) : M pyval :=
  GitHubAPIClient._get w (repo_path owner repo) [].

(** [get_repository_branches] *)
Definition get_repository_branches (w : World) (owner repo : pyval) : M pyval :=
  GitHubAPIClient._get w (repo_path owner repo ++ "/branches") [].

(** The [for branch in branches] loop of [get_latest_branch], with the
    values of [latest_branch] and [latest_date] so far. *)
Fixpoint latest_loop (w : World) (owner repo : pyval) (branches : list pyval)
                     (latest_branch latest_date : pyval) : M pyval :=
  match branches with
  | [] => ret latest_branch
  | branch :: rest =>
      commit <- lift (Builtins.getitem branch "commit") ;;
      sha <- lift (Builtins.getitem commit "sha") ;;
      commit_info <- GitHubAPIClient._get w (repo_path owner repo ++ "/commits/"
                                             ++ PyVal.str sha) [] ;;
      info <- lift (Builtins.getitem commit_info "commit") ;;
      author <- lift (Builtins.getitem info "author") ;;
      commit_date <- lift (Builtins.getitem author "date") ;;
      later <- match latest_date with
               | PNone => ret true
               | _ => lift (PyCmp.gt commit_date latest_date)
               end ;;
      if later then latest_loop w owner repo rest branch commit_date
      else latest_loop w owner repo rest latest_branch latest_date
  end.

(** [get_latest_branch] *)
Definition get_latest_branch (w : World) (owner repo : pyval) : M pyval :=
  branches <- get_repository_branches w owner repo ;;
  items <- lift (Builtins.iter branches) ;;
  latest_loop w owner repo items PNone PNone.

(** [get_weekly_commits] *)
Definition get_weekly_commits (w : World) (owner repo : pyval) : M pyval :=
  commit_activity <- GitHubAPIClient._get w (repo_path owner repo
                                             ++ "/stats/commit_activity") [] ;;
  if PyVal.truthy commit_activity then
    first <- lift (PyCmp.getitem_int commit_activity 0) ;;
    lift (Builtins.getitem first "total")
  else ret (PInt 0).

(** [get_pull_requests(owner, repo, state, count)] *)
Definition get_pull_requests (w : World) (owner repo state : pyval) (count : Z)
  : M pyval :=
  GitHubAPIClient._get w (repo_path owner repo ++ "/pulls")
                       [("state", state); ("per_page", PInt count)].

(** [get_contributor_stats] *)
Definition get_contributor_stats (w : World) (owner repo : pyval) : M pyval :=
  GitHubAPIClient._get w (repo_path owner repo ++ "/stats/contributors") [].

(** [get_issues(owner, repo, state, count)] *)
Definition get_issues (w : World) (owner repo state : pyval) (count : Z) : M pyval :=
  GitHubAPIClient._get w (repo_path owner repo ++ "/issues")
                       [("state", state); ("per_page", PInt count)].

(** [count_issues(owner, repo, state)]: [get_issues] with its default
    [count] of 100. *)
Definition count_issues (w : World) (owner repo state : pyval) : M Z :=
  issues <- get_issues w owner repo state 100 ;;
  lift (PyCmp.len issues).

(** [get_workflow_runs(owner, repo, workflow_id, count)] *)
Definition get_workflow_runs (w : World) (owner repo workflow_id : pyval) (count : Z)
  : M pyval :=
  GitHubAPIClient._get w (repo_path owner repo ++ "/actions/workflows/"
                          ++ PyVal.str workflow_id ++ "/runs")
                       [("per_page", PInt count)].

(** [get_workflow_run_details] *)
Definition get_workflow_run_details (w : World) (owner repo run_id : pyval) : M pyval :=
  GitHubAPIClient._get w (repo_path owner repo ++ "/actions/runs/"
                          ++ PyVal.str run_id) [].

End Fetch.

(* ================================================================= *)
(** ** The completion client ([LLMClient.process_query], llm_client.py) *)

Module LLMClient.

(** What [chat.completions.create] answers: the [message.content] of each
    choice, [None] where there is none, and [str(response)]. *)
Record completion : Type := mkCompletion {
  choices : list (option string);
  completion_str : string
}.

Definition system_prompt : string := "
        You are an AI assistant named Lakshmi that helps interpret natural language queries about GitHub repositories.
        Your task is to:
        1. Identify the intent of the query (e.g., get_contributors, get_commits, search_repositories)
        2. Extract relevant parameters (repository name, owner, branch, etc.)
        3. Format the response as a JSON object with 'intent' and 'parameters' fields
        
        Available intents:
        - get_contributors: Get contributors for a repository
        - get_latest_branch: Get the latest branch in a repository
        - get_commit_history: Get recent commit history
        - get_weekly_commits: Count commits from the past week
        - get_recent_merged_prs: Get recently merged pull requests
        - get_contributor_stats: Get detailed contribution statistics
        - count_issues: Count issues in a repository by state
        - search_repositories: Search for repositories across GitHub
        - search_issues: Search for issues across GitHub
        
        Return ONLY the JSON response without any additional text.
        ".

Definition fence : string := "```".

Definition json_fence : string := "```json".

(** The text handed to [json.loads]: an opening fence and a closing fence
    are cut off, and the rest is stripped. *)
Definition fenced_payload (response_text : string) : string :=
  let response_text :=
    if PyText.startswith json_fence response_text then
      let response_text := PyText.replace_count json_fence "" 1 response_text in
      if PyText.endswith fence response_text
      then PyText.drop_last 3 response_text else response_text
    else if PyText.startswith fence response_text then
      let response_text := PyText.replace_count fence "" 1 response_text in
      if PyText.endswith fence response_text
      then PyText.drop_last 3 response_text else response_text
    else response_text in
  PyStr.strip response_text.

(** [except (json.JSONDecodeError, IndexError, AttributeError)] *)
Definition caught (e : exn) : bool :=
  let 'Exn cls _ := e in
  String.eqb cls "JSONDecodeError" || String.eqb cls "IndexError"
  || String.eqb cls "AttributeError".

(** The [try] block: the first choice's text, cleaned and parsed. *)
Definition parse_response (json_loads : string -> outcome pyval)
                          (response : completion) : outcome pyval :=
  match choices response with
  | [] => Raise (Exn "IndexError" "list index out of range")
  | None :: _ =>
      Raise (Exn "AttributeError" "'NoneType' object has no attribute 'startswith'")
  | Some response_text :: _ => json_loads (fenced_payload response_text)
  end.

(** [LLMClient.process_query(query, conversation_history)]; [create] is the
    call of the chat completion with the messages, [json_loads] is
    [json.loads]. *)
Definition process_query (create : list turn -> outcome completion)
                         (json_loads : string -> outcome pyval)
                         (query : string) (conversation_history : list turn)
  : outcome pyval :=
  let messages := (Turn "system" system_prompt :: conversation_history
                   ++ [Turn "user" query])%list in
  match create messages with
  | Raise e => Raise e
  | Ret response =>
      match parse_response json_loads response with
      | Ret v => Ret v
      | Raise e =>
          if caught e then
            Ret (PDict [("intent", PStr "error");
                        ("parameters",
                         PDict [("error", PStr (exn_str e));
                                ("raw_response", PStr (completion_str response))])])
          else Raise e
      end
  end.

End LLMClient.

(* ================================================================= *)
(** ** The table of pull requests ([DataProcessor], data_processing.py) *)

Module DataProcessor.

(** The dictionary [pull_requests_to_dataframe] appends for one record. *)
Definition pr_row (pr : pyval) : M dict :=
  number <- lift (Builtins.getitem pr "number") ;;
  title <- lift (Builtins.getitem pr "title") ;;
  user <- lift (Builtins.getitem pr "user") ;;
  author <- lift (Builtins.getitem user "login") ;;
  merged_at <- lift (Builtins.get pr "merged_at") ;;
  merged_by <-
    (if PyVal.truthy merged_at then
       merger <- lift (Builtins.get_default pr "merged_by" (PDict [])) ;;
       lift (Builtins.get_default merger "login" (PStr "N/A"))
     else ret (PStr "N/A")) ;;
  created_at <- lift (Builtins.getitem pr "created_at") ;;
  merged <- lift (Builtins.get_default pr "merged_at" (PStr "N/A")) ;;
  url <- lift (Builtins.getitem pr "html_url") ;;
  ret [("Number", number); ("Title", title); ("Author", author);
       ("Merged By", merged_by); ("Created At", created_at);
       ("Merged At", merged); ("URL", url)].

(** The [for pr in prs] loop, [data] being the rows so far. *)
Fixpoint pr_rows (prs : list pyval) (data : list dict) : M (list dict) :=
  match prs with
  | [] => ret data
  | pr :: rest =>
      row <- pr_row pr ;;
      pr_rows rest (data ++ [row])
  end.

(** [DataProcessor.pull_requests_to_dataframe] *)
Definition pull_requests_to_dataframe (w : World) (prs : pyval) : M DataFrame :=
  items <- lift (Builtins.iter prs) ;;
  data <- pr_rows items [] ;;
  lift (pd_DataFrame w data).

End DataProcessor.

(* ================================================================= *)
(** ** The entry point ([main], cli.py) *)






(* ================================================================= *)
(** ** More vocabulary *)

(** From [s] to [s'] the terminal, the history and the request log have
    only been added to, and the input has only been read from. *)
Definition extends (s s' : State) : Prop :=
  (exists evs, console s' = (console s ++ evs)%list)
  /\ (exists used, stdin s = (used ++ stdin s')%list)
  /\ (exists turns, conversation_history s' = (conversation_history s ++ turns)%list)
  /\ (exists reqs, http_log s' = (http_log s ++ reqs)%list).

(** A computation that only adds and reads in this way. *)
Definition grows {A} (m : M A) : Prop := forall s, extends s (snd (m s)).


(** The keys a result envelope of [execute_intent] can start with. *)
Definition envelope_keys : list string :=
  ["contributors"; "commits"; "pull_requests"; "repositories"; "search_results";
   "error"].

(** The intents [execute_intent] has a branch for. *)
Definition handled_intents : list string :=
  ["get_repositories"; "get_repos"; "get_contributors"; "get_commit_history";
   "get_recent_merged_prs"; "list_user_repositories"; "get_user_repositories";
   "search_repositories"; "unknown"].


(** An envelope that starts with one of the keys of [envelope_keys]. *)
Definition is_envelope (d : dict) : Prop :=
  exists key v rest, d = (key, v) :: rest /\ In key envelope_keys.

(** The collaborators of [w], with the completion client of llm_client.py
    on top of a chat completion [create] and a JSON parser [json_loads]. *)
Definition with_llm (w : World) (create : list turn -> outcome LLMClient.completion)
                    (json_loads : string -> outcome pyval) : World :=
  mkWorld (http_get w) (LLMClient.process_query create json_loads)
          (llm_generate_response w) (contributors_to_dataframe w)
          (commits_to_dataframe w) (pull_requests_to_dataframe w)
          (search_results_to_dataframe w) (pd_DataFrame w) (render_table w)
          (style_normalize w) (meta_parameters_error w).

(** The text after the leftmost "of " of the lowercased query, stripped. *)
Definition text_after_of (query : string) : string :=
  PyStr.strip (nth 1 (PyStr.split_1 "of " (PyStr.lower query)) "").

(** A client whose operations only add and read. *)
Definition client_grows (gh : GitHubClient) : Prop :=
  (forall owner repo, grows (get_repository_contributors gh owner repo))
  /\ (forall owner repo branch count, grows (get_commit_history gh owner repo branch count))
  /\ (forall owner repo count, grows (get_recent_merged_prs gh owner repo count))
  /\ (forall username, grows (get_user_repositories gh username))
  /\ (forall query sort, grows (search_repositories gh query sort)).

(** [date] is the commit date the transport gave for the head commit of
    [branch]: the value of [commit_info['commit']['author']['date']] in the
    answer to the request for [branch['commit']['sha']]. *)
Definition dated (w : World) (owner repo : pyval) (branch date : pyval) : Prop :=
  exists commit sha log commit_info info author,
    Builtins.getitem branch "commit" = Ret commit
    /\ Builtins.getitem commit "sha" = Ret sha
    /\ http_get w log (Request (Fetch.repo_path owner repo ++ "/commits/"
                                ++ PyVal.str sha) [])
       = Ret commit_info
    /\ Builtins.getitem commit_info "commit" = Ret info
    /\ Builtins.getitem info "author" = Ret author
    /\ Builtins.getitem author "date" = Ret date.

(** The choice [get_latest_branch] makes among branches paired with their
    dates, from the values of [latest_branch] and [latest_date] so far. *)
Fixpoint select_latest (pairs : list (pyval * pyval)) (latest_branch latest_date : pyval)
  : outcome pyval :=
  match pairs with
  | [] => Ret latest_branch
  | (branch, commit_date) :: rest =>
      match (match latest_date with
             | PNone => Ret true
             | _ => PyCmp.gt commit_date latest_date
             end) with
      | Ret true => select_latest rest branch commit_date
      | Ret false => select_latest rest latest_branch latest_date
      | Raise e => Raise e
      end
  end.

(** A date that is a string and sorts before [d]. *)
Definition before_date (d : string) (v : pyval) : Prop :=
  exists e, v = PStr e /\ String.ltb e d = true.

(** A date that is a string and does not sort after [d]. *)
Definition not_after_date (d : string) (v : pyval) : Prop :=
  exists e, v = PStr e /\ String.ltb d e = false.

Definition is_str (v : pyval) : Prop := exists e, v = PStr e.

(** A transport with the branches "main" and "dev", whose head commits are
    dated the first and the second of March. *)
Definition two_branch_transport : list request -> request -> outcome pyval :=
  fun _ req =>
    let dated_commit (date : string) :=
      Ret (PDict [("commit", PDict [("author", PDict [("date", PStr date)])])]) in
    if String.eqb (endpoint req) "/repos/octocat/hello/branches"
    then Ret (PList [PDict [("name", PStr "main");
                            ("commit", PDict [("sha", PStr "aaa")])];
                     PDict [("name", PStr "dev");
                            ("commit", PDict [("sha", PStr "bbb")])]])
    else if String.eqb (endpoint req) "/repos/octocat/hello/commits/aaa"
    then dated_commit "2024-03-01T10:00:00Z"
    else dated_commit "2024-03-02T09:00:00Z".

(** The columns of the table of pull requests. *)
Definition pr_columns : list string :=
  ["Number"; "Title"; "Author"; "Merged By"; "Created At"; "Merged At"; "URL"].

(** [row] is the row of the record [pr]: it has the columns of the table,
    the record's number, and "N/A" as the merger of a record that is not
    merged. *)
Definition row_of (pr : pyval) (row : dict) : Prop :=
  map fst row = pr_columns
  /\ Builtins.getitem pr "number" = Ret (PyVal.get "Number" row)
  /\ (merged_on_page pr = false -> PyVal.get "Merged By" row = PStr "N/A").

(** The turns the completion appends for the parameters it asks for and
    the lines entered for them: the question, then the answer. *)
Definition prompt_turns (questions : list (string * string)) (entered : list string)
  : list turn :=
  flat_map (fun qa : (string * string) * string =>
              let '((param_name, param_desc), param_value) := qa in
              [Turn "assistant" ("Could you please provide the " ++ param_name ++ " ("
                                 ++ param_desc ++ ")?");
               Turn "user" param_value])
           (combine questions entered).


(** A text without an opening bracket: console markup finds no tag in
    it. *)
Definition plain (text : string) : bool := negb (PyStr.isin "[" text).

(** The collaborators of [w], with a completion client that gives the same
    answer to every query. *)
Definition answering (w : World) (answer : outcome pyval) : World :=
  mkWorld (http_get w) (fun _ _ => answer)
          (llm_generate_response w) (contributors_to_dataframe w)
          (commits_to_dataframe w) (pull_requests_to_dataframe w)
          (search_results_to_dataframe w) (pd_DataFrame w) (render_table w)
          (style_normalize w) (meta_parameters_error w).

(** The value of the decimal numeral [d] read after digits whose value is
    [acc]. *)
Fixpoint uint_value (acc : Z) (d : Decimal.uint) : Z :=
  match d with
  | Decimal.Nil => acc
  | Decimal.D0 d => uint_value (10 * acc + 0) d
  | Decimal.D1 d => uint_value (10 * acc + 1) d
  | Decimal.D2 d => uint_value (10 * acc + 2) d
  | Decimal.D3 d => uint_value (10 * acc + 3) d
  | Decimal.D4 d => uint_value (10 * acc + 4) d
  | Decimal.D5 d => uint_value (10 * acc + 5) d
  | Decimal.D6 d => uint_value (10 * acc + 6) d
  | Decimal.D7 d => uint_value (10 * acc + 7) d
  | Decimal.D8 d => uint_value (10 * acc + 8) d
  | Decimal.D9 d => uint_value (10 * acc + 9) d
  end.

(** The number of digits of the decimal numeral of [z]. *)
Definition decimal_digits (z : Z) : nat :=
  match Z.to_int z with
  | Decimal.Pos d | Decimal.Neg d => Decimal.nb_digits d
  end.

(** The lines of the terminal for a parameter that is asked: the notice,
    then the prompt. *)
Definition prompt_events (questions : list (string * string)) : list event :=
  flat_map (fun q : string * string =>
              let '(param_name, param_desc) := q in
              [Print ("[bold yellow]Missing required parameter:[/bold yellow] "
                      ++ param_desc);
               Input ("Please provide the " ++ param_name ++ " (" ++ param_desc
                      ++ "): ")])
           questions.

(* ================================================================= *)
(** * Properties *)

(** ** Console markup *)

Lemma isin_bracket_cons (c : ascii) (s : string) :
  PyStr.isin "[" (String c s) = Ascii.eqb c "[" || PyStr.isin "[" s.
Proof.
  cbn [PyStr.isin prefix].
  destruct (ascii_dec "[" c) as [<-|H].
  - now destruct s.
  - rewrite (proj2 (Ascii.eqb_neq c "[")) by congruence. reflexivity.
Qed.

Lemma plain_cons (c : ascii) (s : string) :
  plain (String c s) = negb (Ascii.eqb c "[") && plain s.
Proof. unfold plain. rewrite isin_bracket_cons. now destruct (Ascii.eqb c "["). Qed.

Lemma plain_app (a b : string) : plain (a ++ b) = plain a && plain b.
Proof.
  induction a as [|c a IH].
  - reflexivity.
  - cbn [append]. rewrite !plain_cons, IH. now rewrite andb_assoc.
Qed.

(** Without an opening bracket there is no tag. *)
Lemma parse_from_plain (s : string) :
  plain s = true -> forall skip escapes position,
    Markup.parse_from skip escapes position s = [].
Proof.
  induction s as [|c s IH]; intros H skip escapes position; [reflexivity|].
  rewrite plain_cons in H. apply andb_true_iff in H as [Hc Hs].
  cbn [Markup.parse_from]. destruct skip; [|now apply IH].
  destruct (Ascii.eqb c "\"); [now apply IH|].
  destruct (Ascii.eqb c "["); [discriminate|now apply IH].
Qed.

Lemma render_plain (w : World) (text : string) :
  plain text = true -> Markup.render w text = None.
Proof.
  unfold plain, Markup.render. intros H. apply negb_true_iff in H. now rewrite H.
Qed.

(** The scan passes over a text without an opening bracket; only the
    backslashes at its end matter to what follows. *)
Lemma parse_from_plain_app (body rest : string) :
  plain body = true -> forall escapes position,
    exists escapes',
      Markup.parse_from 0 escapes position (body ++ rest)
      = Markup.parse_from 0 escapes' (position + String.length body) rest.
Proof.
  induction body as [|c body IH]; intros H escapes position.
  - exists escapes. now rewrite Nat.add_0_r.
  - rewrite plain_cons in H. apply andb_true_iff in H as [Hc Hs].
    cbn [append Markup.parse_from String.length].
    rewrite Nat.add_succ_r.
    destruct (Ascii.eqb c "\"); [apply (IH Hs)|].
    destruct (Ascii.eqb c "["); [discriminate|apply (IH Hs)].
Qed.

Lemma parse_open_tag (style rest : string) :
  In style Markup.cli_styles ->
  Markup.parse_from 0 0 0 ("[" ++ style ++ "]" ++ rest)
  = (0, Markup.Tag style None)
    :: Markup.parse_from 0 0 (2 + String.length style) rest.
Proof.
  intros H. simpl in H.
  repeat (destruct H as [<-|H]; [reflexivity|]). contradiction.
Qed.

Lemma parse_close_tag (style rest : string) (escapes position : nat) :
  In style Markup.cli_styles ->
  Markup.parse_from 0 escapes position ("[/" ++ style ++ "]" ++ rest)
  = if Nat.odd escapes
    then Markup.parse_from 0 0 (3 + String.length style + position) rest
    else (position, Markup.Tag ("/" ++ style) None)
         :: Markup.parse_from 0 0 (3 + String.length style + position) rest.
Proof.
  intros H. simpl in H.
  repeat (destruct H as [<-|H]; [reflexivity|]). contradiction.
Qed.

Lemma render_open_close (w : World) (style : string) (position : nat) :
  In style Markup.cli_styles ->
  Markup.render_from w [] [(0, Markup.Tag style None)] = None
  /\ Markup.render_from w [] [(0, Markup.Tag style None);
                              (position, Markup.Tag ("/" ++ style) None)] = None.
Proof.
  intros H. simpl in H.
  repeat (destruct H as [<-|H]; [split; reflexivity|]). contradiction.
Qed.

(** A text in one of the styles of the CLI renders, with whatever comes
    inside the tags and after them, as long as that has no opening bracket
    of its own. A backslash at the end of the inside escapes the closing
    tag, which is then text. *)
Lemma render_wrapped (w : World) (style body tail : string) :
  In style Markup.cli_styles -> plain body = true -> plain tail = true ->
  Markup.render w ("[" ++ style ++ "]" ++ body ++ "[/" ++ style ++ "]" ++ tail) = None.
Proof.
  intros Hs Hb Ht. unfold Markup.render, Markup._parse.
  rewrite (isin_bracket_cons "[" (style ++ "]" ++ body ++ "[/" ++ style ++ "]" ++ tail)
           : PyStr.isin "[" ("[" ++ style ++ "]" ++ body ++ "[/" ++ style ++ "]" ++ tail)
             = true).
  rewrite parse_open_tag by exact Hs.
  destruct (parse_from_plain_app body ("[/" ++ style ++ "]" ++ tail) Hb 0
                                 (2 + String.length style)) as [e ->].
  rewrite parse_close_tag by exact Hs.
  rewrite (parse_from_plain tail Ht).
  destruct (Nat.odd e); now apply render_open_close.
Qed.

Lemma console_print_run (w : World) (text : string) (s : State) :
  Markup.render w text = None ->
  console_print w text s = (Ret tt, printed s [Print text]).
Proof. intros H. unfold console_print. now rewrite H. Qed.

Lemma console_print_raises (w : World) (text : string) (e : exn) (s : State) :
  Markup.render w text = Some e -> console_print w text s = (Raise e, s).
Proof. intros H. unfold console_print. now rewrite H. Qed.

Lemma console_input_run (w : World) (prompt line : string) (s : State) (rest : list string) :
  Markup.render w prompt = None ->
  stdin s = line :: rest ->
  console_input w prompt s
  = (Ret line, mkState (console s ++ [Input prompt]) rest
                       (conversation_history s) (http_log s)).
Proof. intros H E. unfold console_input. now rewrite H, E. Qed.

Lemma type_str_plain (v : pyval) : plain (PyVal.type_str v) = true.
Proof. now destruct v. Qed.

Lemma render_not_a_dict_warning (w : World) (params : pyval) :
  Markup.render w (not_a_dict_warning params) = None.
Proof.
  apply (render_wrapped w "bold yellow" "Warning:"
           (" Expected parameters as dictionary but got " ++ PyVal.type_str params
            ++ ". Converting to empty dict."));
    [simpl; tauto|reflexivity|].
  now rewrite !plain_app, type_str_plain.
Qed.

Lemma render_missing_parameter (w : World) (param_desc : string) :
  plain param_desc = true ->
  Markup.render w ("[bold yellow]Missing required parameter:[/bold yellow] "
                   ++ param_desc) = None.
Proof.
  intros H.
  apply (render_wrapped w "bold yellow" "Missing required parameter:" (" " ++ param_desc));
    [simpl; tauto|reflexivity|exact H].
Qed.

Lemma render_prompt (w : World) (param_name param_desc : string) :
  plain param_name = true -> plain param_desc = true ->
  Markup.render w ("Please provide the " ++ param_name ++ " (" ++ param_desc ++ "): ")
  = None.
Proof.
  intros Hn Hd. apply render_plain. now rewrite !plain_app, Hn, Hd.
Qed.

Lemma render_processing_query (w : World) (query : string) :
  plain query = true ->
  Markup.render w ("[bold blue]Processing query:[/bold blue] " ++ query) = None.
Proof.
  intros H.
  apply (render_wrapped w "bold blue" "Processing query:" (" " ++ query));
    [simpl; tauto|reflexivity|exact H].
Qed.

Lemma render_detected_intent (w : World) (intent : string) :
  plain intent = true ->
  Markup.render w ("[blue]Detected intent:[/blue] " ++ intent) = None.
Proof.
  intros H.
  apply (render_wrapped w "blue" "Detected intent:" (" " ++ intent));
    [simpl; tauto|reflexivity|exact H].
Qed.

Lemma render_error (w : World) (message : string) :
  plain message = true ->
  Markup.render w ("[bold red]Error:[/bold red] " ++ message) = None.
Proof.
  intros H.
  apply (render_wrapped w "bold red" "Error:" (" " ++ message));
    [simpl; tauto|reflexivity|exact H].
Qed.

Lemma render_unhandled_intent (w : World) (intent : string) :
  plain intent = true ->
  Markup.render w ("[bold yellow]Unhandled intent:[/bold yellow] " ++ intent) = None.
Proof.
  intros H.
  apply (render_wrapped w "bold yellow" "Unhandled intent:" (" " ++ intent));
    [simpl; tauto|reflexivity|exact H].
Qed.

Lemma render_error_executing (w : World) (message : string) :
  plain message = true ->
  Markup.render w ("[bold red]Error executing intent:[/bold red] " ++ message) = None.
Proof.
  intros H.
  apply (render_wrapped w "bold red" "Error executing intent:" (" " ++ message));
    [simpl; tauto|reflexivity|exact H].
Qed.

Lemma render_fetching (w : World) (username : string) :
  plain username = true ->
  Markup.render w ("[blue]Fetching repositories for user: " ++ username ++ "[/blue]")
  = None.
Proof.
  intros H.
  apply (render_wrapped w "blue" ("Fetching repositories for user: " ++ username) "");
    [simpl; tauto|exact H|reflexivity].
Qed.

Lemma render_no_repositories (w : World) (username : string) :
  plain username = true ->
  Markup.render w ("[yellow]No repositories found for user: " ++ username ++ "[/yellow]")
  = None.
Proof.
  intros H.
  apply (render_wrapped w "yellow" ("No repositories found for user: " ++ username) "");
    [simpl; tauto|exact H|reflexivity].
Qed.



(** ** Dictionaries *)

Lemma lookup_set_same (k : string) (v : pyval) (d : dict) :
  PyVal.lookup k (PyVal.set k v d) = Some v.
Proof.
  induction d as [|[k' v'] d IH]; simpl.
  - now rewrite String.eqb_refl.
  - destruct (String.eqb k k') eqn:E; simpl; rewrite E; auto.
Qed.

Lemma lookup_set_other (k k' : string) (v : pyval) (d : dict) :
  k <> k' -> PyVal.lookup k' (PyVal.set k v d) = PyVal.lookup k' d.
Proof.
  intros Hne. induction d as [|[k0 v0] d IH]; simpl.
  - destruct (String.eqb k' k) eqn:E; auto.
    apply String.eqb_eq in E. congruence.
  - destruct (String.eqb k k0) eqn:E; simpl.
    + apply String.eqb_eq in E. subst k0.
      destruct (String.eqb k' k) eqn:E'; auto.
      apply String.eqb_eq in E'. congruence.
    + now rewrite IH.
Qed.

Lemma mem_set_same (k : string) (v : pyval) (d : dict) :
  PyVal.mem k (PyVal.set k v d) = true.
Proof. unfold PyVal.mem. now rewrite lookup_set_same. Qed.

Lemma mem_set_other (k k' : string) (v : pyval) (d : dict) :
  k <> k' -> PyVal.mem k' (PyVal.set k v d) = PyVal.mem k' d.
Proof. intros H. unfold PyVal.mem. now rewrite lookup_set_other. Qed.

Lemma mem_set_mono (k k' : string) (v : pyval) (d : dict) :
  PyVal.mem k' d = true -> PyVal.mem k' (PyVal.set k v d) = true.
Proof.
  intros H. destruct (String.eqb k k') eqn:E.
  - apply String.eqb_eq in E. subst. apply mem_set_same.
  - apply String.eqb_neq in E. now rewrite mem_set_other.
Qed.

(** ** The intent classifier *)

(** The fallback answers with one of three intents, chosen by the patterns. *)
Lemma fallback_intent_cases (query : string) :
  (listing_pattern query = true
   /\ PyVal.lookup "intent" (fallback_intent_detection query)
      = Some (PStr "list_user_repositories"))
  \/ (listing_pattern query = false /\ search_pattern query = true
      /\ PyVal.lookup "intent" (fallback_intent_detection query)
         = Some (PStr "search_repositories"))
  \/ (listing_pattern query = false /\ search_pattern query = false
      /\ fallback_intent_detection query = unknown_record).
Proof.
  unfold listing_pattern, search_pattern, fallback_intent_detection, action_terms.
  destruct (any_in _ (lower query) && any_in repo_terms (lower query)) eqn:L.
  - left. split; [reflexivity|].
    match goal with |- context [if PyVal.truthy ?u then _ else _] =>
      destruct (PyVal.truthy u) end; reflexivity.
  - right.
    destruct (any_in ["search"; "find"] (lower query)
              && any_in repo_terms (lower query)) eqn:S.
    + left. auto.
    + right. auto.
Qed.

(** A query on the fast path never reaches the completion client: the
    result is the fallback's, whatever the collaborators would answer. *)
Lemma classify_fast_path (w : World) (query : string) (s : State) :
  is_list_repos_query query = true ->
  classify w query s
  = (Ret (fallback_intent_detection query),
     mkState (console s ++ [Print "[blue]Using direct pattern matching for repository listing query[/blue]"])
             (stdin s) (conversation_history s) (http_log s)).
Proof. intros H. unfold classify. rewrite H. reflexivity. Qed.

(** With an action term and a repo term the fast path does produce
    [list_user_repositories]. *)
Lemma classify_listing_pattern (w : World) (query : string) (s : State) :
  listing_pattern query = true ->
  is_list_repos_query query = true
  /\ exists d s', classify w query s = (Ret d, s')
       /\ PyVal.lookup "intent" d = Some (PStr "list_user_repositories").
Proof.
  intros H.
  assert (F : is_list_repos_query query = true).
  { unfold is_list_repos_query. unfold listing_pattern in H.
    apply andb_true_iff in H as [Ha Hr]. rewrite Ha, Hr. reflexivity. }
  split; [exact F|].
  rewrite (classify_fast_path w query s F). eexists _, _. split; [reflexivity|].
  destruct (fallback_intent_cases query) as [[_ E]|[[E _]|[E _]]]; congruence.
Qed.

(** C1, at the failing input: "repos of octocat" has a repo term and "of "
    and no action term; it is on the fast path, the completion client is
    not consulted, and the intent produced is "unknown", not
    "list_user_repositories". *)
Theorem fast_path_of_pattern_yields_unknown :
  forall (w : World) (s : State),
    is_list_repos_query "repos of octocat" = true
    /\ listing_pattern "repos of octocat" = false
    /\ classify w "repos of octocat" s
       = (Ret [("intent", PStr "unknown"); ("parameters", PDict [])],
          mkState (console s ++ [Print "[blue]Using direct pattern matching for repository listing query[/blue]"])
                  (stdin s) (conversation_history s) (http_log s)).
Proof.
  intros w s. split; [reflexivity|]. split; [reflexivity|].
  rewrite classify_fast_path by reflexivity. reflexivity.
Qed.

(** C6, at the failing input: the fallback strips "repos" before
    "repositories", so "search repositories machine learning" leaves
    "itories machine learning" as the search term, not "machine learning". *)
Theorem fallback_search_repositories_residue :
  is_list_repos_query "search repositories machine learning" = false
  /\ fallback_intent_detection "search repositories machine learning"
     = [("intent", PStr "search_repositories");
        ("parameters", PDict [("query", PStr "itories machine learning")])].
Proof. split; reflexivity. Qed.

(** A mapping the completion client returns is passed on as it is, with
    nothing printed. *)
Lemma classify_mapping (w : World) (query : string) (s : State) (d : dict) :
  is_list_repos_query query = false ->
  llm_process_query w query (conversation_history s) = Ret (PDict d) ->
  classify w query s = (Ret d, s).
Proof.
  intros F L. unfold classify. rewrite F.
  unfold try_except, bind, get_history, lift. now rewrite L.
Qed.

(** ** The parameter completion loop *)

Lemma required_params_nodup (intent : pyval) (required : list (string * string)) :
  get_required_params intent = Ret required -> NoDup (map fst required).
Proof.
  unfold get_required_params. intros H.
  destruct intent; try (injection H as <-; constructor); try discriminate.
  injection H as <-. unfold intent_params. simpl.
  repeat (match goal with
          | |- context [String.eqb ?a ?b] => destruct (String.eqb a b)
          end;
          [repeat constructor; simpl; intuition discriminate|]).
  constructor.
Qed.

Lemma required_params_plain (intent : pyval) (required : list (string * string)) :
  get_required_params intent = Ret required ->
  Forall (fun q => plain (fst q) = true /\ plain (snd q) = true) required.
Proof.
  unfold get_required_params. intros H.
  destruct intent; try (injection H as <-; constructor); try discriminate.
  injection H as <-. unfold intent_params. simpl.
  repeat (match goal with
          | |- context [String.eqb ?a ?b] => destruct (String.eqb a b)
          end;
          [repeat constructor|]).
  constructor.
Qed.

Lemma complete_params_fully_specified (w : World)
      (required : list (string * string)) (d : dict) (s : State) :
  fully_specified required d = true -> complete_params w required d s = (Ret d, s).
Proof.
  induction required as [|[name desc] rest IH]; simpl; intros H.
  - reflexivity.
  - apply andb_true_iff in H as [Ha Hr].
    unfold answered in Ha. apply andb_true_iff in Ha as [Hm Ht].
    rewrite Hm, Ht. simpl. auto.
Qed.

(** C3: on a mapping that has a truthy value for every required parameter
    the completion prints nothing, asks nothing, appends nothing to the
    history (the state is the same) and returns the mapping it was given;
    so running it on its own result changes nothing more. *)
Theorem validate_and_complete_params_idempotent :
  forall (w : World) (intent : pyval) (required : list (string * string)) (d : dict)
         (s : State),
    get_required_params intent = Ret required ->
    fully_specified required d = true ->
    validate_and_complete_params w intent (PDict d) s = (Ret d, s)
    /\ (d' <- validate_and_complete_params w intent (PDict d) ;;
        validate_and_complete_params w intent (PDict d')) s
       = validate_and_complete_params w intent (PDict d) s.
Proof.
  intros w intent required d s Hreq Hfull.
  assert (E : forall s0, validate_and_complete_params w intent (PDict d) s0 = (Ret d, s0)).
  { intros s0. unfold validate_and_complete_params, bind, lift, ret.
    rewrite Hreq. now apply complete_params_fully_specified. }
  split; [apply E|].
  unfold bind at 1. rewrite (E s). apply E.
Qed.

Lemma validate_and_complete_params_idempotent_witness :
  validate_and_complete_params (sample_world no_network (fun _ _ => Ret PNone))
    (PStr "get_contributors")
    (PDict [("owner", PStr "octocat"); ("repo", PStr "hello-world")])
    (initial_state ["unused"])
  = (Ret [("owner", PStr "octocat"); ("repo", PStr "hello-world")],
     initial_state ["unused"]).
Proof.
  exact (proj1 (validate_and_complete_params_idempotent
                  (sample_world no_network (fun _ _ => Ret PNone))
                  (PStr "get_contributors") _
                  [("owner", PStr "octocat"); ("repo", PStr "hello-world")]
                  (initial_state ["unused"]) eq_refl eq_refl)).
Defined.

Lemma missing_or_falsy (d : dict) (name : string) :
  negb (PyVal.mem name d) || negb (PyVal.truthy (PyVal.get name d))
  = negb (answered d name).
Proof. unfold answered. now destruct (PyVal.mem name d), (PyVal.truthy _). Qed.

Lemma answered_set_other (k k' : string) (v : pyval) (d : dict) :
  k <> k' -> answered (PyVal.set k v d) k' = answered d k'.
Proof.
  intros H. unfold answered, PyVal.mem, PyVal.get, PyVal.get_default.
  now rewrite lookup_set_other.
Qed.

Lemma asked_set_other (required : list (string * string)) (k : string) (v : pyval)
      (d : dict) :
  ~ In k (map fst required) -> asked required (PyVal.set k v d) = asked required d.
Proof.
  intros H. unfold asked. apply filter_ext_in. intros [n desc] Hin. simpl.
  rewrite answered_set_other; [reflexivity|].
  intros ->. apply H. now apply (in_map fst) in Hin.
Qed.

Lemma answered_mem (d : dict) (name : string) :
  answered d name = true -> PyVal.mem name d = true.
Proof. unfold answered. intros H. now apply andb_true_iff in H. Qed.


Lemma asked_cons (name desc : string) (rest : list (string * string)) (d : dict) :
  asked ((name, desc) :: rest) d
  = if answered d name then asked rest d else (name, desc) :: asked rest d.
Proof. unfold asked. simpl. now destruct (answered d name). Qed.

(** One round of the loop for a parameter that is open, a line being there
    to read. *)
Lemma complete_params_ask (w : World) (name desc line : string)
      (rest : list (string * string)) (d0 : dict) (s : State) (lines : list string) :
  plain name = true -> plain desc = true ->
  answered d0 name = false ->
  stdin s = line :: lines ->
  complete_params w ((name, desc) :: rest) d0 s
  = complete_params w rest (PyVal.set name (PStr line) d0)
      (mkState (console s ++ prompt_events [(name, desc)]) lines
               (conversation_history s ++ prompt_turns [(name, desc)] [line])
               (http_log s)).
Proof.
  intros Hn Hd A E.
  cbn [complete_params]. rewrite missing_or_falsy, A. cbn [negb].
  unfold bind at 1.
  rewrite console_print_run by (now apply render_missing_parameter).
  unfold bind at 1.
  rewrite (console_input_run w _ line _ lines) by (first [now apply render_prompt|exact E]).
  unfold bind, history_append, printed. cbn. now rewrite <- !app_assoc.
Qed.

(** What the loop leaves behind, when the user has a line for every
    question: the parameters that are open, in the order of the table, take
    the lines of the input one by one. *)
Lemma complete_params_post (w : World) (required : list (string * string)) :
  forall (d0 : dict) (s : State),
    NoDup (map fst required) ->
    Forall (fun q => plain (fst q) = true /\ plain (snd q) = true) required ->
    List.length (asked required d0) <= List.length (stdin s) ->
    exists d s' entered,
      complete_params w required d0 s = (Ret d, s')
      /\ stdin s = (entered ++ stdin s')%list
      /\ Forall2 (fun q line => PyVal.lookup (fst q) d = Some (PStr line))
                 (asked required d0) entered
      /\ (forall name, In name (map fst required) -> answered d0 name = true ->
            PyVal.lookup name d = PyVal.lookup name d0)
      /\ (forall name, ~ In name (map fst required) ->
            PyVal.lookup name d = PyVal.lookup name d0)
      /\ console s' = (console s ++ prompt_events (asked required d0))%list
      /\ conversation_history s'
         = (conversation_history s ++ prompt_turns (asked required d0) entered)%list
      /\ http_log s' = http_log s.
Proof.
  induction required as [|[name desc] rest IH]; intros d0 s Hnd Hpl Hlen.
  - exists d0, s, []. simpl. rewrite !app_nil_r. repeat split; auto.
  - inversion Hnd as [|? ? Hnotin Hnd']; subst. simpl in Hnotin.
    inversion Hpl as [|? ? [Hn Hd] Hpl']; subst. simpl in Hn, Hd.
    rewrite asked_cons in Hlen |- *.
    destruct (answered d0 name) eqn:A.
    + cbn [complete_params]. rewrite missing_or_falsy, A. cbn [negb].
      destruct (IH d0 s Hnd' Hpl' Hlen)
        as (d & s' & entered & Hrun & Hin & HF & Hkept & Hother & Hcon & Hh & Hlog).
      exists d, s', entered. split; [exact Hrun|]. split; [exact Hin|].
      split; [exact HF|]. split; [|split; [|auto]].
      * intros n Hn' An. simpl in Hn'.
        destruct Hn' as [<-|Hn']; [now apply Hother|now apply Hkept].
      * intros n Hn'. apply Hother. intros Hc. apply Hn'. now right.
    + destruct (stdin s) as [|line lines] eqn:E; [simpl in Hlen; lia|].
      rewrite (complete_params_ask w name desc line rest d0 s lines Hn Hd A E).
      match goal with
      | |- context [complete_params w rest ?d1 ?s1] =>
          destruct (IH d1 s1 Hnd' Hpl')
            as (d & s' & entered & Hrun & Hin & HF & Hkept & Hother & Hcon & Hh & Hlog)
      end.
      { rewrite asked_set_other by exact Hnotin. simpl in *. lia. }
      rewrite asked_set_other in HF, Hcon, Hh by exact Hnotin. simpl in Hin, Hcon, Hh, Hlog.
      exists d, s', (line :: entered). split; [exact Hrun|].
      split; [simpl; now rewrite Hin|]. split; [|split; [|split; [|split; [|split]]]].
      * constructor; [|exact HF]. simpl.
        rewrite (Hother name Hnotin). apply lookup_set_same.
      * intros n Hn' An. simpl in Hn'. destruct Hn' as [<-|Hn']; [congruence|].
        assert (Hne : name <> n) by (intros ->; contradiction).
        rewrite Hkept; [now apply lookup_set_other|exact Hn'|].
        now rewrite answered_set_other.
      * intros n Hn'.
        rewrite Hother by (intros Hc; apply Hn'; now right).
        apply lookup_set_other. intros ->. apply Hn'. now left.
      * rewrite Hcon, <- app_assoc. reflexivity.
      * rewrite Hh, <- app_assoc. reflexivity.
      * exact Hlog.
Qed.

(** Without a line to read for a parameter that is open, the loop ends in
    the [EOFError] of the prompt. *)
Lemma complete_params_eof (w : World) (required : list (string * string)) :
  forall (d0 : dict) (s : State),
    NoDup (map fst required) ->
    Forall (fun q => plain (fst q) = true /\ plain (snd q) = true) required ->
    List.length (stdin s) < List.length (asked required d0) ->
    exists s', complete_params w required d0 s
               = (Raise (Exn "EOFError" "EOF when reading a line"), s')
               /\ stdin s' = [].
Proof.
  induction required as [|[name desc] rest IH]; intros d0 s Hnd Hpl Hlen.
  - simpl in Hlen. lia.
  - inversion Hnd as [|? ? Hnotin Hnd']; subst. simpl in Hnotin.
    inversion Hpl as [|? ? [Hn Hd] Hpl']; subst. simpl in Hn, Hd.
    rewrite asked_cons in Hlen.
    destruct (answered d0 name) eqn:A.
    + cbn [complete_params]. rewrite missing_or_falsy, A. cbn [negb].
      now apply IH.
    + destruct (stdin s) as [|line lines] eqn:E.
      * cbn [complete_params]. rewrite missing_or_falsy, A. cbn [negb].
        unfold bind at 1.
        rewrite console_print_run by (now apply render_missing_parameter).
        unfold bind at 1, console_input.
        rewrite render_prompt by assumption. cbn [printed stdin]. rewrite E.
        eexists. split; reflexivity.
      * rewrite (complete_params_ask w name desc line rest d0 s lines Hn Hd A E).
        apply IH; [exact Hnd'|exact Hpl'|].
        rewrite asked_set_other by exact Hnotin. simpl in *. lia.
Qed.

(** The intent "unknown", and any intent the table does not list, requires
    nothing. *)
Lemma unknown_requires_nothing :
  get_required_params (PStr "unknown") = Ret []
  /\ get_required_params (PStr "get_repos") = Ret []
  /\ get_required_params PNone = Ret [].
Proof. repeat split. Qed.

Lemma validate_run (w : World) (intent params : pyval)
      (required : list (string * string)) (s : State) :
  get_required_params intent = Ret required ->
  validate_and_complete_params w intent params s
  = complete_params w required (mapping_of params)
      (if PyVal.is_dict params then s
       else printed s [Print (not_a_dict_warning params)]).
Proof.
  intros Hreq. unfold validate_and_complete_params, bind at 1, lift. rewrite Hreq.
  destruct params; try reflexivity;
    unfold bind at 1;
    (rewrite console_print_run
       by (match goal with
           | |- Markup.render w ?t = None =>
               exact (render_not_a_dict_warning w _)
           end));
    reflexivity.
Qed.

(** C7: with a line of input for every parameter that is open, the
    completion returns a mapping that has every required key of the intent.
    Parameters that are no mapping are replaced by the empty mapping after a
    warning. A required parameter that came with a truthy value keeps it.
    The parameters that were missing or falsy are asked for once each, in
    the order of the table, and each holds the line entered at its own
    prompt, empty or not: the lines read are the first lines of the input,
    one per open parameter, and the terminal shows the warning, if any,
    and then the notice and the prompt of each open parameter. Keys that
    are not required are as they came. With fewer lines than open
    parameters the call does not return: it ends in the [EOFError] of the
    prompt that finds no line. *)
Theorem validate_and_complete_params_postcondition :
  forall (w : World) (intent : pyval) (required : list (string * string))
         (params : pyval) (s : State),
    get_required_params intent = Ret required ->
    let d0 := mapping_of params in
    (List.length (asked required d0) <= List.length (stdin s) ->
     exists d s' entered,
       validate_and_complete_params w intent params s = (Ret d, s')
       /\ (forall name, In name (map fst required) -> PyVal.mem name d = true)
       /\ stdin s = (entered ++ stdin s')%list
       /\ Forall2 (fun q line => PyVal.lookup (fst q) d = Some (PStr line))
                  (asked required d0) entered
       /\ (forall name, In name (map fst required) -> answered d0 name = true ->
             PyVal.lookup name d = PyVal.lookup name d0)
       /\ (forall name, ~ In name (map fst required) ->
             PyVal.lookup name d = PyVal.lookup name d0)
       /\ console s'
          = (console s
             ++ (if PyVal.is_dict params then []
                 else [Print (not_a_dict_warning params)])
             ++ prompt_events (asked required d0))%list)
    /\ (List.length (stdin s) < List.length (asked required d0) ->
        exists s', validate_and_complete_params w intent params s
                   = (Raise (Exn "EOFError" "EOF when reading a line"), s')).
Proof.
  intros w intent required params s Hreq d0.
  pose proof (required_params_nodup _ _ Hreq) as Hnd.
  pose proof (required_params_plain _ _ Hreq) as Hpl.
  rewrite (validate_run w intent params required s Hreq). fold d0.
  set (s0 := if PyVal.is_dict params then s
             else printed s [Print (not_a_dict_warning params)]).
  assert (Hin0 : stdin s0 = stdin s) by (subst s0; now destruct (PyVal.is_dict params)).
  assert (Hc0 : console s0
                = (console s ++ (if PyVal.is_dict params then []
                                 else [Print (not_a_dict_warning params)]))%list).
  { subst s0. destruct (PyVal.is_dict params); simpl; now rewrite ?app_nil_r. }
  split.
  - intros Hlen.
    destruct (complete_params_post w required d0 s0 Hnd Hpl)
      as (d & s' & entered & Hrun & Hin & HF & Hkept & Hother & Hcon & _).
    { rewrite Hin0. exact Hlen. }
    exists d, s', entered. split; [exact Hrun|].
    rewrite Hin0 in Hin. rewrite Hc0, <- app_assoc in Hcon.
    split; [|repeat split; assumption].
    intros name Hname. destruct (answered d0 name) eqn:A.
    + unfold PyVal.mem. rewrite (Hkept name Hname A).
      exact (answered_mem d0 name A).
    + assert (Hq : exists desc, In (name, desc) (asked required d0)).
      { apply in_map_iff in Hname as [[n desc] [<- Hq]]. exists desc.
        simpl in A |- *. unfold asked. apply filter_In. simpl. now rewrite A. }
      destruct Hq as [desc Hq].
      clear - HF Hq. induction HF as [|q line qs ls Hq1 HF IH]; [contradiction|].
      destruct Hq as [->|Hq]; [|now apply IH].
      unfold PyVal.mem. simpl in Hq1. now rewrite Hq1.
  - intros Hlen.
    destruct (complete_params_eof w required d0 s0 Hnd Hpl) as (s' & Hrun & _).
    { rewrite Hin0. exact Hlen. }
    now exists s'.
Qed.

Lemma validate_and_complete_params_postcondition_witness :
  let w := sample_world no_network (fun _ _ => Ret PNone) in
  exists s',
    validate_and_complete_params w (PStr "get_contributors")
                                 (PDict [("repo", PStr "hello"); ("owner", PStr "")])
                                 (initial_state ["octocat"; "next query"])
    = (Ret [("repo", PStr "hello"); ("owner", PStr "octocat")], s')
    /\ stdin s' = ["next query"]
    /\ console s'
       = [Print "[bold yellow]Missing required parameter:[/bold yellow] repository owner/organization";
          Input "Please provide the owner (repository owner/organization): "].
Proof.
  intros w.
  destruct (proj1 (validate_and_complete_params_postcondition
                     w (PStr "get_contributors")
                     [("owner", "repository owner/organization");
                      ("repo", "repository name")]
                     (PDict [("repo", PStr "hello"); ("owner", PStr "")])
                     (initial_state ["octocat"; "next query"]) eq_refl)
                  (le_S _ _ (le_n 1)))
    as (d & s' & entered & Hrun & _).
  exists s'. vm_compute in Hrun. injection Hrun as <- <-.
  repeat split.
Defined.

(** ** Parameter completion on objects: what is written where *)

Lemma update_length (a : Objects.addr) (v : pyval) (h : list pyval) :
  List.length (Objects.update a v h) = List.length h.
Proof.
  revert a. induction h as [|x h IH]; intros [|a]; simpl; auto.
Qed.

Lemma nth_update_other (a a' : Objects.addr) (v : pyval) (h : list pyval) :
  a' <> a -> nth a' (Objects.update a v h) PNone = nth a' h PNone.
Proof.
  revert a a'. induction h as [|x h IH]; intros [|a] [|a'] H; simpl; auto;
    try congruence.
Qed.

Lemma nth_update_same (a : Objects.addr) (v : pyval) (h : list pyval) :
  a < List.length h -> nth a (Objects.update a v h) PNone = v.
Proof.
  revert a. induction h as [|x h IH]; intros [|a] H; simpl in *; try lia; auto.
  apply IH. lia.
Qed.

Lemma frame_ok_refl (u : Objects.addr) (st : Objects.Store) : frame_ok u st st.
Proof. split; auto. Qed.

Lemma frame_ok_trans (u : Objects.addr) (st1 st2 st3 : Objects.Store) :
  frame_ok u st1 st2 -> frame_ok u st2 st3 -> frame_ok u st1 st3.
Proof.
  intros [L1 N1] [L2 N2]. split; [congruence|].
  intros a Ha. rewrite N2, N1; auto.
Qed.

Lemma preserves_ret {A} (u : Objects.addr) (a : A) : preserves u (ret a).
Proof. intros st. apply frame_ok_refl. Qed.

Lemma preserves_raise {A} (u : Objects.addr) (e : exn) :
  preserves u (raise e : ST Objects.Store A).
Proof. intros st. apply frame_ok_refl. Qed.

Lemma preserves_bind {A B} (u : Objects.addr)
      (m : ST Objects.Store A) (k : A -> ST Objects.Store B) :
  preserves u m -> (forall a, preserves u (k a)) -> preserves u (bind m k).
Proof.
  intros Hm Hk st. unfold bind. specialize (Hm st).
  destruct (m st) as [[a|e] st1]; simpl in *.
  - eapply frame_ok_trans; [exact Hm|apply Hk].
  - exact Hm.
Qed.

Lemma preserves_on_cli {A} (u : Objects.addr) (m : M A) :
  preserves u (Objects.on_cli m).
Proof.
  intros st. unfold Objects.on_cli. destruct (m (Objects.cli st)). split; auto.
Qed.

Lemma preserves_read_dict (u a : Objects.addr) : preserves u (Objects.read_dict a).
Proof.
  intros st. unfold Objects.read_dict, Objects.read, bind.
  destruct (nth a (Objects.heap st) PNone); apply frame_ok_refl.
Qed.

Lemma preserves_setitem (u : Objects.addr) (k : string) (v : pyval) :
  preserves u (Objects.setitem u k v).
Proof.
  apply preserves_bind; [apply preserves_read_dict|].
  intros d st. split; simpl.
  - apply update_length.
  - intros a Ha. now apply nth_update_other.
Qed.

Lemma preserves_complete_params (w : World) (required : list (string * string))
      (u : Objects.addr) :
  preserves u (Objects.complete_params w required u).
Proof.
  induction required as [|[name desc] rest IH]; simpl.
  - apply preserves_ret.
  - apply preserves_bind; [apply preserves_read_dict|].
    intros d. destruct (negb _ || negb _); [|exact IH].
    repeat (apply preserves_bind;
            [first [apply preserves_on_cli | apply preserves_setitem]|intros ?]).
    exact IH.
Qed.

Lemma read_dict_ok (a : Objects.addr) (st : Objects.Store) (d : dict) :
  nth a (Objects.heap st) PNone = PDict d -> Objects.read_dict a st = (Ret d, st).
Proof. intros H. unfold Objects.read_dict, Objects.read, bind. now rewrite H. Qed.

Lemma bind_run {S A B} (m : ST S A) (k : A -> ST S B) (s : S) :
  bind m k s = match m s with
               | (Ret a, s') => k a s'
               | (Raise e, s') => (Raise e, s')
               end.
Proof. reflexivity. Qed.

Lemma on_cli_bind {A B} (m : M A) (k : A -> ST Objects.Store B) (st : Objects.Store) :
  bind (Objects.on_cli m) k st
  = match m (Objects.cli st) with
    | (Ret a, s') => k a (Objects.mkStore s' (Objects.heap st))
    | (Raise e, s') => (Raise e, Objects.mkStore s' (Objects.heap st))
    end.
Proof.
  unfold bind, Objects.on_cli. now destruct (m (Objects.cli st)) as [[a|e] s'].
Qed.

(** The loop on objects does to the object it completes, and to the
    terminal and the history, what the loop on values computes. *)
Lemma complete_params_agree (w : World) (required : list (string * string)) :
  forall (u : Objects.addr) (st : Objects.Store) (d : dict),
    u < List.length (Objects.heap st) ->
    nth u (Objects.heap st) PNone = PDict d ->
    match Objects.complete_params w required u st,
          complete_params w required d (Objects.cli st) with
    | (Ret _, st'), (Ret d', s') =>
        Objects.cli st' = s' /\ nth u (Objects.heap st') PNone = PDict d'
    | (Raise e, st'), (Raise e', s') => Objects.cli st' = s' /\ e = e'
    | _, _ => False
    end.
Proof.
  induction required as [|[name desc] rest IH]; intros u st d Hu Hd.
  - simpl. auto.
  - cbn [Objects.complete_params complete_params].
    unfold bind at 1. rewrite (read_dict_ok _ _ _ Hd).
    destruct (negb (PyVal.mem name d) || negb (PyVal.truthy (PyVal.get name d))).
    2: now apply IH.
    rewrite on_cli_bind, (bind_run (console_print w _)).
    destruct (console_print w _ (Objects.cli st)) as [[[]|e] s1]; [|simpl; auto].
    rewrite on_cli_bind, (bind_run (console_input w _)). cbn [Objects.cli Objects.heap].
    destruct (console_input w _ s1) as [[line|e] s2]; [|simpl; auto].
    unfold bind at 1, Objects.setitem. unfold bind at 1.
    rewrite (read_dict_ok u _ d) by exact Hd. unfold Objects.write.
    cbn [Objects.cli Objects.heap].
    rewrite !on_cli_bind. cbn [Objects.cli Objects.heap].
    rewrite !(bind_run (history_append _)).
    unfold history_append.
    apply IH; cbn [Objects.cli Objects.heap].
    + now rewrite update_length.
    + now apply nth_update_same.
Qed.

Lemma validate_dict_run (w : World) (intent : pyval) (required : list (string * string))
      (d : dict) (s : State) :
  get_required_params intent = Ret required ->
  validate_and_complete_params w intent (PDict d) s = complete_params w required d s.
Proof.
  intros H. unfold validate_and_complete_params, bind, lift, ret. now rewrite H.
Qed.

Lemma validate_raise_run (w : World) (intent params : pyval) (e : exn) (s : State) :
  get_required_params intent = Raise e ->
  validate_and_complete_params w intent params s = (Raise e, s).
Proof.
  intros H. unfold validate_and_complete_params, bind, lift. now rewrite H.
Qed.

(** C10: the completion writes to no object that was there before the
    call. The dictionary it is given keeps its value, and so does every
    other object; the result is a new object, at an address that was free,
    and it holds the mapping that the completion computes from the value of
    the argument. What is printed, read and appended is the same, whether
    the call returns or an exception ends it. *)
Theorem validate_and_complete_params_leaves_argument :
  forall (w : World) (intent : pyval) (params : Objects.addr) (st : Objects.Store)
         (d : dict) (r : outcome Objects.addr) (st' : Objects.Store),
    params < List.length (Objects.heap st) ->
    nth params (Objects.heap st) PNone = PDict d ->
    Objects.validate_and_complete_params w intent params st = (r, st') ->
    nth params (Objects.heap st') PNone = PDict d
    /\ (forall a, a < List.length (Objects.heap st) ->
          nth a (Objects.heap st') PNone = nth a (Objects.heap st) PNone)
    /\ Objects.cli st'
       = snd (validate_and_complete_params w intent (PDict d) (Objects.cli st))
    /\ match r, fst (validate_and_complete_params w intent (PDict d) (Objects.cli st)) with
       | Ret updated, Ret d' =>
           updated = List.length (Objects.heap st)
           /\ updated <> params
           /\ nth updated (Objects.heap st') PNone = PDict d'
       | Raise e, Raise e' => e = e'
       | _, _ => False
       end.
Proof.
  intros w intent params st d r st' Hlt Hd Hrun.
  assert (Hframe : forall a, a < List.length (Objects.heap st) ->
            nth a (Objects.heap st') PNone = nth a (Objects.heap st) PNone
          /\ (Objects.cli st'
              = snd (validate_and_complete_params w intent (PDict d) (Objects.cli st))
              /\ match r, fst (validate_and_complete_params w intent (PDict d)
                                                            (Objects.cli st)) with
                 | Ret updated, Ret d' =>
                     updated = List.length (Objects.heap st)
                     /\ updated <> params
                     /\ nth updated (Objects.heap st') PNone = PDict d'
                 | Raise e, Raise e' => e = e'
                 | _, _ => False
                 end)).
  { intros a Ha.
    unfold Objects.validate_and_complete_params in Hrun.
    unfold bind at 1 in Hrun. unfold lift in Hrun.
    destruct (get_required_params intent) as [required|e] eqn:Hreq.
    - rewrite (validate_dict_run _ _ _ _ _ Hreq).
      unfold bind at 1, Objects.read in Hrun. rewrite Hd in Hrun.
      unfold bind at 1, Objects.alloc in Hrun. simpl in Hrun.
      set (u := List.length (Objects.heap st)) in *.
      set (st1 := Objects.mkStore (Objects.cli st) (Objects.heap st ++ [PDict d])) in *.
      assert (Hu : u < List.length (Objects.heap st1)).
      { subst st1 u. simpl. rewrite length_app. simpl. lia. }
      assert (Hud : nth u (Objects.heap st1) PNone = PDict d).
      { subst st1 u. simpl. now rewrite nth_middle. }
      pose proof (preserves_complete_params w required u st1) as [_ Hsame].
      pose proof (complete_params_agree w required u st1 d Hu Hud) as Hagree.
      unfold bind at 1 in Hrun.
      change (Objects.cli st1) with (Objects.cli st) in Hagree.
      destruct (Objects.complete_params w required u st1) as [[[]|e] st2];
        destruct (complete_params w required d (Objects.cli st)) as [[d'|e'] s'];
        simpl in *; try contradiction;
        injection Hrun as <- <-; destruct Hagree as [Hc Hv].
      + split; [|split; [exact Hc|split; [reflexivity|split; [subst u; lia|exact Hv]]]].
        rewrite Hsame by lia. now apply app_nth1.
      + split; [|split; [exact Hc|exact Hv]].
        rewrite Hsame by lia. now apply app_nth1.
    - rewrite (validate_raise_run _ _ _ _ _ Hreq).
      injection Hrun as <- <-. simpl. auto. }
  split; [|split; [intros a Ha; now apply Hframe|now apply (Hframe params)]].
  rewrite <- Hd. now apply Hframe.
Qed.

Lemma validate_and_complete_params_leaves_argument_witness :
  let w := sample_world no_network (fun _ _ => Ret PNone) in
  let st := Objects.mkStore (initial_state ["octocat"])
                            [PDict [("intent", PStr "list_user_repositories")];
                             PDict [("username", PStr "")]] in
  nth 1 (Objects.heap
           (snd (Objects.validate_and_complete_params
                   w (PStr "list_user_repositories") 1 st))) PNone
  = PDict [("username", PStr "")]
  /\ Objects.validate_and_complete_params w (PStr "list_user_repositories") 1 st
     = (Ret 2,
        Objects.mkStore
          (snd (validate_and_complete_params w (PStr "list_user_repositories")
                  (PDict [("username", PStr "")]) (initial_state ["octocat"])))
          [PDict [("intent", PStr "list_user_repositories")];
           PDict [("username", PStr "")];
           PDict [("username", PStr "octocat")]]).
Proof.
  intros w st. split; [|reflexivity].
  exact (proj1 (validate_and_complete_params_leaves_argument
                  w (PStr "list_user_repositories") 1 st
                  [("username", PStr "")] _ _
                  (le_n 2) eq_refl
                  (surjective_pairing _))).
Defined.

(** ** The merged pull requests *)






(** ** Integer literals *)

Lemma of_uint_acc_value (d : Decimal.uint) :
  forall p : positive, Z.pos (Pos.of_uint_acc d p) = uint_value (Z.pos p) d.
Proof.
  induction d; intros p; cbn [Pos.of_uint_acc uint_value];
    try reflexivity; rewrite IHd; f_equal; lia.
Qed.

Lemma of_uint_value (d : Decimal.uint) : Z.of_uint d = uint_value 0 d.
Proof.
  unfold Z.of_uint.
  induction d; cbn [Pos.of_uint uint_value]; try reflexivity;
    try (exact IHd); cbn [Z.of_N]; now rewrite of_uint_acc_value.
Qed.

Lemma scan_digits_digit (c : ascii) (v : Z) :
  Builtins.digit_value c = Some v ->
  forall (acc : Z) (digits : nat) (prev : Builtins.scanned) (s : string),
    Builtins.scan_digits acc digits prev (String c s)
    = Builtins.scan_digits (10 * acc + v) (S digits) Builtins.AfterDigit s.
Proof. intros H acc digits prev s. cbn [Builtins.scan_digits]. now rewrite H. Qed.

(** The scan of a numeral: all its digits are read. *)
Lemma scan_digits_numeral (d : Decimal.uint) :
  forall (acc : Z) (digits : nat) (prev : Builtins.scanned),
    Builtins.scan_digits acc digits prev (NilEmpty.string_of_uint d)
    = Builtins.scan_digits (uint_value acc d) (digits + Decimal.nb_digits d)
                           (match d with Decimal.Nil => prev | _ => Builtins.AfterDigit end)
                           EmptyString.
Proof.
  induction d; intros acc digits prev;
    cbn [NilEmpty.string_of_uint uint_value Decimal.nb_digits];
    [now rewrite Nat.add_0_r|..];
    match goal with
    | |- Builtins.scan_digits _ _ _ (String ?c _) = _ =>
        rewrite (scan_digits_digit c _ eq_refl)
    end;
    rewrite IHd, Nat.add_succ_r; destruct d; reflexivity.
Qed.

Lemma parse_int_numeral (d : Decimal.uint) :
  d <> Decimal.Nil ->
  Builtins.parse_int (NilEmpty.string_of_uint d)
  = Builtins.scan_digits 0 0 Builtins.AtStart (NilEmpty.string_of_uint d).
Proof. destruct d; [congruence|..]; reflexivity. Qed.

Lemma scan_digits_end (acc : Z) (digits : nat) :
  Builtins.scan_digits acc (S digits) Builtins.AfterDigit EmptyString
  = if (Builtins.int_max_str_digits <? S digits)%nat then Builtins.TooLong (S digits)
    else Builtins.Literal acc.
Proof. reflexivity. Qed.

Lemma nb_digits_positive (d : Decimal.uint) :
  d <> Decimal.Nil -> exists n, Decimal.nb_digits d = S n.
Proof. destruct d; [congruence|..]; intros _; eexists; reflexivity. Qed.

(** The literal of the numeral of a positive number. *)
Lemma parse_int_pos (p : positive) :
  Builtins.parse_int (NilEmpty.string_of_uint (Pos.to_uint p))
  = if (Builtins.int_max_str_digits <? Decimal.nb_digits (Pos.to_uint p))%nat
    then Builtins.TooLong (Decimal.nb_digits (Pos.to_uint p))
    else Builtins.Literal (Z.pos p).
Proof.
  pose proof (DecimalPos.Unsigned.to_uint_nonnil p) as Hn.
  rewrite parse_int_numeral by exact Hn.
  rewrite scan_digits_numeral. cbn [Nat.add].
  destruct (nb_digits_positive _ Hn) as [n E]. rewrite E.
  destruct (Pos.to_uint p) eqn:Ed; [congruence|..];
    rewrite scan_digits_end, <- Ed, <- of_uint_value;
    unfold Z.of_uint; now rewrite DecimalPos.Unsigned.of_to.
Qed.

Lemma repr_Z_pos (p : positive) :
  PyVal.repr_Z (Z.pos p) = NilEmpty.string_of_uint (Pos.to_uint p).
Proof.
  unfold PyVal.repr_Z. cbn [Z.to_int NilZero.string_of_int NilZero.string_of_uint].
  pose proof (DecimalPos.Unsigned.to_uint_nonnil p).
  now destruct (Pos.to_uint p).
Qed.

Lemma repr_Z_neg (p : positive) :
  PyVal.repr_Z (Z.neg p) = String "-" (NilEmpty.string_of_uint (Pos.to_uint p)).
Proof.
  unfold PyVal.repr_Z. cbn [Z.to_int NilZero.string_of_int NilZero.string_of_uint].
  pose proof (DecimalPos.Unsigned.to_uint_nonnil p).
  now destruct (Pos.to_uint p).
Qed.

Lemma parse_int_neg (p : positive) :
  Builtins.parse_int (String "-" (NilEmpty.string_of_uint (Pos.to_uint p)))
  = match Builtins.parse_int (NilEmpty.string_of_uint (Pos.to_uint p)) with
    | Builtins.Literal z => Builtins.Literal (- z)
    | other => other
    end.
Proof.
  rewrite (parse_int_numeral (Pos.to_uint p))
    by apply DecimalPos.Unsigned.to_uint_nonnil.
  reflexivity.
Qed.

(** [int] reads the decimal numeral of every integer back, up to the limit
    on the digits, and rejects the numerals beyond it. *)
Lemma int_of_numeral (z : Z) :
  Builtins.int (PStr (PyVal.repr_Z z))
  = if (Builtins.int_max_str_digits <? decimal_digits z)%nat
    then Raise (Exn "ValueError"
                    ("Exceeds the limit (4300 digits) for integer string conversion: value has "
                     ++ PyVal.repr_Z (Z.of_nat (decimal_digits z))
                     ++ " digits; use sys.set_int_max_str_digits() to increase the limit"))
    else Ret z.
Proof.
  destruct z as [|p|p]; [reflexivity| |].
  - unfold Builtins.int. rewrite repr_Z_pos, parse_int_pos.
    change (decimal_digits (Z.pos p)) with (Decimal.nb_digits (Pos.to_uint p)).
    now destruct (_ <? _)%nat.
  - unfold Builtins.int. rewrite repr_Z_neg, parse_int_neg, parse_int_pos.
    change (decimal_digits (Z.neg p)) with (Decimal.nb_digits (Pos.to_uint p)).
    now destruct (_ <? _)%nat.
Qed.

(** ** The dispatch table *)

Lemma get_intent_set (v : pyval) (d : dict) :
  PyVal.get "intent" (PyVal.set "intent" v d) = v.
Proof. unfold PyVal.get, PyVal.get_default. now rewrite lookup_set_same. Qed.

Lemma get_parameters_set_intent (v default : pyval) (d : dict) :
  PyVal.get_default "parameters" default (PyVal.set "intent" v d)
  = PyVal.get_default "parameters" default d.
Proof.
  unfold PyVal.get_default. rewrite lookup_set_other; [reflexivity|discriminate].
Qed.

(** What [execute_intent] does once the intent is known to be one of the
    four names of the repository listing. *)
Lemma execute_intent_listing (w : World) (gh : GitHubClient) (d : dict) (s : State) :
  PyVal.get "intent" d = PStr "list_user_repositories"
  \/ PyVal.get "intent" d = PStr "get_user_repositories"
  \/ PyVal.get "intent" d = PStr "get_repositories"
  \/ PyVal.get "intent" d = PStr "get_repos" ->
  execute_intent w gh d s
  = try_except
      (list_user_repositories w gh (PyVal.get_default "parameters" (PDict []) d))
      (dispatch_handler w) s.
Proof.
  intros H. unfold execute_intent.
  destruct H as [E|[E|[E|E]]]; rewrite E; reflexivity.
Qed.

(** C5: a record with the intent "get_repositories", "get_repos" or
    "get_user_repositories" is dispatched as the same record with the intent
    "list_user_repositories": the same envelope, the same output, the same
    calls, whatever the parameters, the client and the state. *)
Theorem execute_intent_aliases :
  forall (w : World) (gh : GitHubClient) (d : dict) (s : State),
    execute_intent w gh (PyVal.set "intent" (PStr "get_repositories") d) s
    = execute_intent w gh (PyVal.set "intent" (PStr "list_user_repositories") d) s
    /\ execute_intent w gh (PyVal.set "intent" (PStr "get_repos") d) s
       = execute_intent w gh (PyVal.set "intent" (PStr "list_user_repositories") d) s
    /\ execute_intent w gh (PyVal.set "intent" (PStr "get_user_repositories") d) s
       = execute_intent w gh (PyVal.set "intent" (PStr "list_user_repositories") d) s.
Proof.
  intros w gh d s.
  repeat split;
    rewrite !execute_intent_listing by (rewrite get_intent_set; tauto);
    now rewrite !get_parameters_set_intent.
Qed.

(** The handler of the dispatch prints the message of the exception, and
    returns it in an envelope when the message renders; the exception of
    the print, when it does not, leaves [execute_intent]. *)
Lemma dispatch_handler_cases (w : World) (e : exn) (s : State) :
  (Markup.render w ("[bold red]Error executing intent:[/bold red] " ++ exn_str e) = None
   /\ dispatch_handler w e s
      = (Ret [("error", PStr (exn_str e))],
         printed s [Print ("[bold red]Error executing intent:[/bold red] "
                           ++ exn_str e);
                    Traceback]))
  \/ (exists e',
        Markup.render w ("[bold red]Error executing intent:[/bold red] " ++ exn_str e)
        = Some e'
        /\ dispatch_handler w e s = (Raise e', s)).
Proof.
  unfold dispatch_handler, bind at 1, console_print.
  destruct (Markup.render w _) as [e'|].
  - right. exists e'. split; reflexivity.
  - left. split; [reflexivity|].
    unfold bind, print_exc, emit, ret, printed. simpl. now rewrite <- app_assoc.
Qed.

Lemma dispatch_handler_run (w : World) (e : exn) (s : State) :
  plain (exn_str e) = true ->
  dispatch_handler w e s
  = (Ret [("error", PStr (exn_str e))],
     printed s [Print ("[bold red]Error executing intent:[/bold red] " ++ exn_str e);
                Traceback]).
Proof.
  intros H. destruct (dispatch_handler_cases w e s) as [[_ E]|(e' & R & _)]; [exact E|].
  rewrite render_error_executing in R by exact H. discriminate.
Qed.

(** The branch of the listing with the client the CLI creates: the method
    it calls is not there. *)
Lemma list_user_repositories_shipped_client (w : World) (p : dict) (s : State) :
  PyVal.truthy (PyVal.get "username" p) = true ->
  list_user_repositories w (GitHubAPIClient.client w) (PDict p) s
  = match Markup.render w ("[blue]Fetching repositories for user: "
                           ++ PyVal.str (PyVal.get "username" p) ++ "[/blue]") with
    | Some e => (Raise e, s)
    | None =>
        (Ret [("error",
               PStr "'GitHubAPIClient' object has no attribute 'get_user_repositories'")],
         printed s [Print ("[blue]Fetching repositories for user: "
                           ++ PyVal.str (PyVal.get "username" p) ++ "[/blue]");
                    Print "[bold red]Error fetching repositories:[/bold red] 'GitHubAPIClient' object has no attribute 'get_user_repositories'"])
    end.
Proof.
  intros Hu. unfold list_user_repositories.
  change (Builtins.get (PDict p) "username") with (Ret (PyVal.get "username" p)).
  unfold bind at 1, lift. rewrite Hu. cbn [negb].
  unfold bind at 1, console_print at 1.
  destruct (Markup.render w _) as [e|]; [reflexivity|].
  unfold try_except, emit.
  cbn [GitHubAPIClient.client get_user_repositories
       GitHubAPIClient.get_user_repositories bind raise exn_str].
  unfold bind. rewrite console_print_run by reflexivity.
  unfold ret, printed. cbn [console stdin conversation_history http_log].
  now rewrite <- app_assoc.
Qed.

(** C8: the intent "unknown" is answered with the envelope "Unknown intent"
    and the record's query; a repository listing whose username is missing
    or empty is answered with "No username provided". Either way the state
    afterwards is the state before with one more line on the terminal: no
    client call, no request. A listing with a username, dispatched with the
    client the CLI creates, never comes to the answer of the data source:
    [GitHubAPIClient] has no [get_user_repositories], the call ends in the
    envelope of that error, and an empty list of repositories cannot be
    reported; whatever the username, what is returned is an error envelope
    and no request has been sent. *)
Theorem execute_intent_short_circuits :
  forall (w : World) (gh : GitHubClient) (d : dict) (s : State),
    (PyVal.get "intent" d = PStr "unknown" ->
     execute_intent w gh d s
     = (Ret [("error", PStr "Unknown intent");
             ("query", PyVal.get_default "query" (PStr "") d)],
        printed s [Print "[bold yellow]Could not determine specific intent. Please try rephrasing your query.[/bold yellow]"]))
    /\ (forall p : dict,
          PyVal.get "intent" d = PStr "list_user_repositories"
          \/ PyVal.get "intent" d = PStr "get_user_repositories" ->
          PyVal.get_default "parameters" (PDict []) d = PDict p ->
          PyVal.truthy (PyVal.get "username" p) = false ->
          execute_intent w gh d s
          = (Ret [("error", PStr "No username provided")],
             printed s [Print "[bold red]Error: No username provided for repository listing[/bold red]"]))
    /\ (forall p : dict,
          PyVal.get "intent" d = PStr "list_user_repositories"
          \/ PyVal.get "intent" d = PStr "get_user_repositories" ->
          PyVal.get_default "parameters" (PDict []) d = PDict p ->
          PyVal.truthy (PyVal.get "username" p) = true ->
          (plain (PyVal.str (PyVal.get "username" p)) = true ->
           execute_intent w (GitHubAPIClient.client w) d s
           = (Ret [("error",
                    PStr "'GitHubAPIClient' object has no attribute 'get_user_repositories'")],
              printed s [Print ("[blue]Fetching repositories for user: "
                                ++ PyVal.str (PyVal.get "username" p) ++ "[/blue]");
                         Print "[bold red]Error fetching repositories:[/bold red] 'GitHubAPIClient' object has no attribute 'get_user_repositories'"]))
          /\ (forall (envelope : dict) (s' : State),
                execute_intent w (GitHubAPIClient.client w) d s = (Ret envelope, s') ->
                (exists message, envelope = [("error", PStr message)])
                /\ http_log s' = http_log s)).
Proof.
  intros w gh d s. split; [|split].
  - intros H. unfold execute_intent. rewrite H. reflexivity.
  - intros p Hi Hp Hu.
    rewrite execute_intent_listing by tauto. rewrite Hp.
    unfold list_user_repositories.
    change (Builtins.get (PDict p) "username") with (Ret (PyVal.get "username" p)).
    unfold try_except, bind at 1, lift. rewrite Hu. reflexivity.
  - intros p Hi Hp Hu.
    rewrite execute_intent_listing by tauto. rewrite Hp.
    unfold try_except. rewrite list_user_repositories_shipped_client by exact Hu.
    split.
    + intros Hplain. now rewrite render_fetching.
    + intros envelope s' Hrun.
      destruct (Markup.render w _) as [e|].
      * destruct (dispatch_handler_cases w e s) as [[_ E]|(e' & _ & E)];
          rewrite E in Hrun; [|discriminate].
        injection Hrun as <- <-. split; [now eexists|reflexivity].
      * injection Hrun as <- <-. split; [now eexists|reflexivity].
Qed.

Lemma execute_intent_short_circuits_witness :
  let w := sample_world no_network (fun _ _ => Ret PNone) in
  execute_intent w (GitHubAPIClient.client w)
                 [("intent", PStr "unknown"); ("parameters", PDict []);
                  ("query", PStr "what is the weather")]
                 (initial_state [])
  = (Ret [("error", PStr "Unknown intent"); ("query", PStr "what is the weather")],
     printed (initial_state [])
             [Print "[bold yellow]Could not determine specific intent. Please try rephrasing your query.[/bold yellow]"])
  /\ execute_intent w (GitHubAPIClient.client w)
                    (intent_record "list_user_repositories" (PDict [("username", PStr "")]))
                    (initial_state [])
     = (Ret [("error", PStr "No username provided")],
        printed (initial_state [])
                [Print "[bold red]Error: No username provided for repository listing[/bold red]"])
  /\ execute_intent w (GitHubAPIClient.client w)
                    (intent_record "get_user_repositories"
                                   (PDict [("username", PStr "octocat")]))
                    (initial_state [])
     = (Ret [("error",
              PStr "'GitHubAPIClient' object has no attribute 'get_user_repositories'")],
        printed (initial_state [])
                [Print "[blue]Fetching repositories for user: octocat[/blue]";
                 Print "[bold red]Error fetching repositories:[/bold red] 'GitHubAPIClient' object has no attribute 'get_user_repositories'"]).
Proof.
  intros w. split; [|split].
  - exact (proj1 (execute_intent_short_circuits
                    w (GitHubAPIClient.client w)
                    [("intent", PStr "unknown"); ("parameters", PDict []);
                     ("query", PStr "what is the weather")]
                    (initial_state [])) eq_refl).
  - exact (proj1 (proj2 (execute_intent_short_circuits w (GitHubAPIClient.client w)
                           (intent_record "list_user_repositories"
                                          (PDict [("username", PStr "")]))
                           (initial_state [])))
                 [("username", PStr "")] (or_introl eq_refl) eq_refl eq_refl).
  - exact (proj1 (proj2 (proj2 (execute_intent_short_circuits
                                  w (GitHubAPIClient.client w)
                                  (intent_record "get_user_repositories"
                                                 (PDict [("username", PStr "octocat")]))
                                  (initial_state [])))
                        [("username", PStr "octocat")]
                        (or_intror eq_refl) eq_refl eq_refl)
                 eq_refl).
Defined.

Lemma execute_intent_counted (w : World) (gh : GitHubClient) (intent : string)
      (d p : dict) (s : State) :
  intent = "get_commit_history" \/ intent = "get_recent_merged_prs" ->
  PyVal.get "intent" d = PStr intent ->
  PyVal.get_default "parameters" (PDict []) d = PDict p ->
  execute_intent w gh d s
  = try_except
      (count <- lift (Builtins.int (PyVal.get_default "count" (PInt 10) p)) ;;
       counted_branch w gh intent p count)
      (dispatch_handler w) s.
Proof.
  intros Hi Hd Hp. unfold execute_intent. rewrite Hd, Hp.
  destruct Hi as [-> | ->]; reflexivity.
Qed.

Lemma hex_digit_plain (n : nat) :
  n < 16 -> Ascii.eqb (PyVal.hex_digit n) "[" = false.
Proof.
  intros H. do 16 (destruct n as [|n]; [reflexivity|]). lia.
Qed.

Lemma repr_char_plain (quote c : ascii) :
  Ascii.eqb c "[" = false -> plain (PyVal.repr_char quote c) = true.
Proof.
  intros H. unfold PyVal.repr_char.
  destruct (Ascii.eqb c quote || Ascii.eqb c "\").
  - rewrite !plain_cons, H. reflexivity.
  - repeat match goal with
           | |- context [if ?b then _ else _] => destruct b
           end; try reflexivity.
    + now rewrite !plain_cons, H.
    + unfold PyVal.hex_escape. rewrite !plain_cons.
      pose proof (nat_ascii_bounded c) as Hb. unfold PyStr.ord.
      rewrite !hex_digit_plain; [reflexivity| |].
      * apply Nat.mod_upper_bound. discriminate.
      * apply Nat.Div0.div_lt_upper_bound. exact Hb.
Qed.

Lemma repr_chars_plain (quote : ascii) (s : string) :
  plain s = true -> plain (PyVal.repr_chars quote s) = true.
Proof.
  induction s as [|c s IH]; intros H; [reflexivity|].
  rewrite plain_cons in H. apply andb_true_iff in H as [Hc Hs].
  cbn [PyVal.repr_chars]. rewrite plain_app, IH by exact Hs.
  rewrite repr_char_plain; [reflexivity|]. now apply negb_true_iff.
Qed.

Lemma repr_str_plain (s : string) : plain s = true -> plain (PyVal.repr_str s) = true.
Proof.
  intros H. unfold PyVal.repr_str.
  match goal with
  | |- context [if ?b then PyVal.double_quote else _] =>
      set (quote := if b then PyVal.double_quote else "'"%char)
  end.
  assert (Hq : Ascii.eqb quote "[" = false)
    by (subst quote;
        now destruct (PyStr.isin "'" s
                      && negb (PyStr.isin (String PyVal.double_quote EmptyString) s))).
  rewrite plain_cons, plain_app, repr_chars_plain by exact H.
  now rewrite plain_cons, Hq.
Qed.

Lemma take_plain (n : nat) (s : string) : plain s = true -> plain (PyStr.take n s) = true.
Proof.
  revert n. induction s as [|c s IH]; intros [|n] H; try reflexivity.
  rewrite plain_cons in H. apply andb_true_iff in H as [Hc Hs].
  cbn [PyStr.take]. now rewrite plain_cons, Hc, IH.
Qed.

(** The message of [int] for a string that is no literal has no bracket
    unless the string has one. *)
Lemma invalid_literal_plain (c : string) :
  plain c = true ->
  plain ("invalid literal for int() with base 10: "
         ++ PyStr.take 200 (PyVal.repr_str c)) = true.
Proof.
  intros H. rewrite plain_app, take_plain; [reflexivity|]. now apply repr_str_plain.
Qed.

(** C9: for "get_commit_history" and "get_recent_merged_prs", a record
    without [count] is dispatched with the count 10, and a [count] that
    [int] accepts is dispatched with its integer value: an integer with
    itself, and a string that is the decimal numeral of an integer [n],
    of no more digits than [int] admits, with [n]. A [count] that [int]
    rejects is never replaced by the default: the conversion error is
    caught, and when its message has no opening bracket (as for every
    string without one that is no literal) the call returns the envelope
    with that message, nothing but the error line and the traceback being
    printed. At the failing input, the count "[/]", the message carries
    the text of the count into the markup of the error line: the print in
    the handler raises [MarkupError], which leaves [execute_intent] with
    nothing printed. *)
Theorem execute_intent_count :
  forall (w : World) (gh : GitHubClient) (intent : string) (d p : dict) (s : State),
    intent = "get_commit_history" \/ intent = "get_recent_merged_prs" ->
    PyVal.get "intent" d = PStr intent ->
    PyVal.get_default "parameters" (PDict []) d = PDict p ->
    (PyVal.lookup "count" p = None ->
     execute_intent w gh d s
     = try_except (counted_branch w gh intent p 10) (dispatch_handler w) s)
    /\ (forall z, Builtins.int (PyVal.get_default "count" (PInt 10) p) = Ret z ->
          execute_intent w gh d s
          = try_except (counted_branch w gh intent p z) (dispatch_handler w) s)
    /\ (forall n, PyVal.lookup "count" p = Some (PInt n) ->
          execute_intent w gh d s
          = try_except (counted_branch w gh intent p n) (dispatch_handler w) s)
    /\ (forall n, PyVal.lookup "count" p = Some (PStr (PyVal.repr_Z n)) ->
          decimal_digits n <= Builtins.int_max_str_digits ->
          execute_intent w gh d s
          = try_except (counted_branch w gh intent p n) (dispatch_handler w) s)
    /\ (forall e, Builtins.int (PyVal.get_default "count" (PInt 10) p) = Raise e ->
          plain (exn_str e) = true ->
          execute_intent w gh d s
          = (Ret [("error", PStr (exn_str e))],
             printed s [Print ("[bold red]Error executing intent:[/bold red] "
                               ++ exn_str e);
                        Traceback]))
    /\ (forall c, PyVal.lookup "count" p = Some (PStr c) ->
          Builtins.parse_int c = Builtins.Invalid ->
          plain c = true ->
          execute_intent w gh d s
          = (Ret [("error", PStr ("invalid literal for int() with base 10: "
                                  ++ PyStr.take 200 (PyVal.repr_str c)))],
             printed s [Print ("[bold red]Error executing intent:[/bold red] "
                               ++ "invalid literal for int() with base 10: "
                               ++ PyStr.take 200 (PyVal.repr_str c));
                        Traceback]))
    /\ (PyVal.lookup "count" p = Some (PStr "[/]") ->
        execute_intent w gh d s
        = (Raise (Exn "MarkupError"
                      "closing tag '[/]' at position 86 has nothing to close"),
           s)).
Proof.
  intros w gh intent d p s Hi Hd Hp.
  pose proof (execute_intent_counted w gh intent d p s Hi Hd Hp) as Hrun.
  assert (Hret : forall z, Builtins.int (PyVal.get_default "count" (PInt 10) p) = Ret z ->
            execute_intent w gh d s
            = try_except (counted_branch w gh intent p z) (dispatch_handler w) s).
  { intros z Hz. rewrite Hrun. unfold try_except, bind at 1, lift. now rewrite Hz. }
  assert (Hraise : forall e, Builtins.int (PyVal.get_default "count" (PInt 10) p) = Raise e ->
            execute_intent w gh d s = dispatch_handler w e s).
  { intros e He. rewrite Hrun. unfold try_except, bind at 1, lift. now rewrite He. }
  split; [|split; [exact Hret|split; [|split; [|split; [|split]]]]].
  - intros Hnone. apply Hret. unfold PyVal.get_default. now rewrite Hnone.
  - intros n Hn. apply Hret. unfold PyVal.get_default. now rewrite Hn.
  - intros n Hn Hdigits. apply Hret. unfold PyVal.get_default. rewrite Hn.
    rewrite int_of_numeral.
    now rewrite (proj2 (Nat.ltb_ge _ _) Hdigits).
  - intros e He Hplain. rewrite (Hraise e He). now apply dispatch_handler_run.
  - intros c Hc Hparse Hplain.
    assert (He : Builtins.int (PyVal.get_default "count" (PInt 10) p)
                 = Raise (Exn "ValueError"
                              ("invalid literal for int() with base 10: "
                               ++ PyStr.take 200 (PyVal.repr_str c)))).
    { unfold PyVal.get_default. rewrite Hc. unfold Builtins.int. now rewrite Hparse. }
    rewrite (Hraise _ He).
    apply dispatch_handler_run. now apply invalid_literal_plain.
  - intros Hc.
    assert (He : Builtins.int (PyVal.get_default "count" (PInt 10) p)
                 = Raise (Exn "ValueError" "invalid literal for int() with base 10: '[/]'")).
    { unfold PyVal.get_default. now rewrite Hc. }
    rewrite (Hraise _ He). reflexivity.
Qed.

Lemma execute_intent_count_witness :
  let w := sample_world no_network (fun _ _ => Ret PNone) in
  execute_intent w echo_count_client
                 (intent_record "get_commit_history"
                    (PDict [("owner", PStr "octocat"); ("repo", PStr "hello")]))
                 (initial_state [])
  = (Ret [("commits", PInt 10)],
     printed (initial_state []) [Table "Commit history for octocat/hello"])
  /\ execute_intent w echo_count_client
                    (intent_record "get_commit_history"
                       (PDict [("owner", PStr "octocat"); ("repo", PStr "hello");
                               ("count", PStr "25")]))
                    (initial_state [])
     = (Ret [("commits", PInt 25)],
        printed (initial_state []) [Table "Commit history for octocat/hello"])
  /\ execute_intent w echo_count_client
                    (intent_record "get_recent_merged_prs"
                       (PDict [("owner", PStr "octocat"); ("repo", PStr "hello");
                               ("count", PStr "many")]))
                    (initial_state [])
     = (Ret [("error", PStr "invalid literal for int() with base 10: 'many'")],
        printed (initial_state [])
                [Print "[bold red]Error executing intent:[/bold red] invalid literal for int() with base 10: 'many'";
                 Traceback])
  /\ execute_intent w echo_count_client
                    (intent_record "get_recent_merged_prs"
                       (PDict [("owner", PStr "octocat"); ("repo", PStr "hello");
                               ("count", PStr "[/]")]))
                    (initial_state [])
     = (Raise (Exn "MarkupError" "closing tag '[/]' at position 86 has nothing to close"),
        initial_state []).
Proof.
  intros w.
  pose proof (fun p => execute_intent_count
                         w echo_count_client "get_commit_history"
                         (intent_record "get_commit_history" (PDict p)) p
                         (initial_state []) (or_introl eq_refl) eq_refl eq_refl) as Hc.
  pose proof (fun p => execute_intent_count
                         w echo_count_client "get_recent_merged_prs"
                         (intent_record "get_recent_merged_prs" (PDict p)) p
                         (initial_state []) (or_intror eq_refl) eq_refl eq_refl) as Hm.
  split; [|split; [|split]].
  - exact (proj1 (Hc [("owner", PStr "octocat"); ("repo", PStr "hello")]) eq_refl).
  - apply (proj1 (proj2 (proj2 (proj2
             (Hc [("owner", PStr "octocat"); ("repo", PStr "hello");
                  ("count", PStr "25")]))))
                 25%Z eq_refl).
    change (decimal_digits 25) with 2. unfold Builtins.int_max_str_digits. lia.
  - exact (proj1 (proj2 (proj2 (proj2 (proj2 (proj2
             (Hm [("owner", PStr "octocat"); ("repo", PStr "hello");
                  ("count", PStr "many")]))))))
                 "many" eq_refl eq_refl eq_refl).
  - exact (proj2 (proj2 (proj2 (proj2 (proj2 (proj2
             (Hm [("owner", PStr "octocat"); ("repo", PStr "hello");
                  ("count", PStr "[/]")]))))))
                 eq_refl).
Defined.

(* ================================================================= *)
(** * Further properties *)

(** ** Strings *)

Lemma prefix_app_l (a b s : string) :
  prefix (a ++ b) s = true -> prefix a s = true.
Proof.
  revert s. induction a as [|c a IH]; intros s H; simpl in *.
  - now destruct s.
  - destruct s as [|c' s]; [discriminate|]. simpl in *.
    destruct (ascii_dec c c'); [now apply IH|discriminate].
Qed.

Lemma isin_app_l (a b s : string) :
  isin (a ++ b) s = true -> isin a s = true.
Proof.
  induction s as [|c s IH]; cbn [isin]; intros H.
  - destruct (prefix (a ++ b) "") eqn:E; [|discriminate].
    now rewrite (prefix_app_l _ _ _ E).
  - destruct (prefix (a ++ b) (String c s)) eqn:E.
    + now rewrite (prefix_app_l _ _ _ E).
    + destruct (prefix a (String c s)); auto.
Qed.

Lemma any_in_repo_terms (q : string) : any_in repo_terms q = isin "repo" q.
Proof.
  unfold any_in, repo_terms, existsb.
  destruct (isin "repo" q) eqn:E; [reflexivity|]. simpl.
  destruct (isin "repos" q) eqn:E1.
  { apply (isin_app_l "repo" "s") in E1. congruence. }
  destruct (isin "repositories" q) eqn:E2.
  { apply (isin_app_l "repo" "sitories") in E2. congruence. }
  destruct (isin "repository" q) eqn:E3.
  { apply (isin_app_l "repo" "sitory") in E3. congruence. }
  reflexivity.
Qed.

(** X1: the repo-term test looks for four words that all begin with
    "repo", so it holds exactly when the lowercased query has the letters
    "repo" somewhere; the fast path is taken exactly when it has them and,
    besides, an action term or "of ". *)
Theorem repo_terms_reduce_to_repo :
  forall query : string,
    any_in repo_terms query = isin "repo" query
    /\ is_list_repos_query query
       = isin "repo" (lower query)
         && (any_in action_terms (lower query) || isin "of " (lower query)).
Proof.
  intros query. split; [apply any_in_repo_terms|].
  unfold is_list_repos_query. rewrite any_in_repo_terms.
  destruct (isin "repo" (lower query)), (any_in action_terms (lower query)),
    (isin "of " (lower query)); reflexivity.
Qed.

(** ** The fallback *)

(** X2: a query that is not on the fast path never gets
    "list_user_repositories" from the fallback: after a failure of the
    completion client the record is a repository search or "unknown". *)
Theorem fallback_outside_fast_path :
  forall query : string,
    is_list_repos_query query = false ->
    PyVal.lookup "intent" (fallback_intent_detection query)
    <> Some (PStr "list_user_repositories")
    /\ (PyVal.lookup "intent" (fallback_intent_detection query)
        = Some (PStr "search_repositories")
        \/ fallback_intent_detection query = unknown_record).
Proof.
  intros query Hfast.
  assert (Hl : listing_pattern query = false).
  { destruct (listing_pattern query) eqn:L; [|reflexivity].
    unfold listing_pattern in L. apply andb_true_iff in L as [La Lr].
    unfold is_list_repos_query in Hfast. rewrite La, Lr in Hfast. discriminate. }
  destruct (fallback_intent_cases query) as [[L _]|[[_ [_ E]]|[_ [_ E]]]].
  - congruence.
  - rewrite E. split; [discriminate|now left].
  - rewrite E. split; [discriminate|now right].
Qed.

Lemma fallback_outside_fast_path_witness :
  fallback_intent_detection "search the repos about parsers"
  = [("intent", PStr "search_repositories");
     ("parameters", PDict [("query", PStr "the  about parsers")])]
  /\ PyVal.lookup "intent" (fallback_intent_detection "search the repos about parsers")
     <> Some (PStr "list_user_repositories").
Proof.
  split; [reflexivity|].
  exact (proj1 (fallback_outside_fast_path "search the repos about parsers" eq_refl)).
Defined.

(** X3: the fallback answers "search_repositories" only for a query that
    has "search" and "repo" in it and none of the action terms. "find" is
    an action term, so a query with "find" and a repo term is a listing and
    the "find" of the search test never decides. *)
Theorem fallback_search_needs_search :
  forall query : string,
    PyVal.lookup "intent" (fallback_intent_detection query)
    = Some (PStr "search_repositories") ->
    isin "search" (lower query) = true
    /\ isin "repo" (lower query) = true
    /\ any_in action_terms (lower query) = false
    /\ isin "find" (lower query) = false.
Proof.
  intros query H.
  destruct (fallback_intent_cases query) as [[_ E]|[[L [S _]]|[_ [_ E]]]].
  - rewrite E in H. discriminate.
  - unfold listing_pattern in L. unfold search_pattern in S.
    apply andb_true_iff in S as [Ss Sr]. rewrite Sr in L.
    rewrite andb_true_r in L.
    rewrite any_in_repo_terms in Sr.
    assert (Hfind : isin "find" (lower query) = false).
    { unfold any_in, action_terms in L. simpl in L.
      repeat (apply orb_false_iff in L as [? L]). assumption. }
    unfold any_in in Ss. simpl in Ss. rewrite Hfind in Ss.
    rewrite !orb_false_r in Ss. auto.
  - rewrite E in H. discriminate.
Qed.

Lemma fallback_search_needs_search_witness :
  isin "search" (lower "Search repos for parsers") = true
  /\ isin "find" (lower "Search repos for parsers") = false.
Proof.
  destruct (fallback_search_needs_search "Search repos for parsers" eq_refl)
    as (Hs & _ & _ & Hf).
  split; [exact Hs|exact Hf].
Defined.

Lemma lower_char_idem (c : ascii) : lower_char (lower_char c) = lower_char c.
Proof. destruct c as [[] [] [] [] [] [] [] []]; reflexivity. Qed.

Lemma isspace_not_upper (c : ascii) : isspace c = true -> lower_char c = c.
Proof. destruct c as [[] [] [] [] [] [] [] []]; intros H; try reflexivity; discriminate H. Qed.

Lemma lower_idem (s : string) : lower (lower s) = lower s.
Proof.
  induction s as [|c s IH]; simpl; [reflexivity|].
  now rewrite lower_char_idem, IH.
Qed.

Lemma lower_cons (c : ascii) (s : string) :
  lower (String c s) = String c s -> lower_char c = c /\ lower s = s.
Proof. simpl. intros H. injection H as Hc Hs. auto. Qed.

Lemma lower_lstrip (s : string) : lower s = s -> lower (lstrip s) = lstrip s.
Proof.
  induction s as [|c s IH]; intros H; [reflexivity|].
  destruct (lower_cons _ _ H) as [Hc Hs]. simpl lstrip.
  destruct (isspace c); [now apply IH|exact H].
Qed.

Lemma lower_rstrip (s : string) : lower s = s -> lower (rstrip s) = rstrip s.
Proof.
  induction s as [|c s IH]; intros H; [reflexivity|].
  destruct (lower_cons _ _ H) as [Hc Hs]. specialize (IH Hs). simpl rstrip.
  destruct (rstrip s) as [|c' r].
  - destruct (isspace c); [reflexivity|]. simpl. now rewrite Hc.
  - change (lower (String c (String c' r))) with
      (String (lower_char c) (lower (String c' r))).
    now rewrite Hc, IH.
Qed.

Lemma lower_drop (n : nat) (s : string) : lower s = s -> lower (drop n s) = drop n s.
Proof.
  revert s. induction n as [|n IH]; intros s H; [now destruct s|].
  destruct s as [|c s]; [reflexivity|].
  destruct (lower_cons _ _ H) as [_ Hs]. simpl. now apply IH.
Qed.

Lemma lower_split_1 (sep s : string) :
  lower s = s -> lower (nth 1 (split_1 sep s) "") = nth 1 (split_1 sep s) "".
Proof.
  induction s as [|c s IH]; intros H.
  - destruct sep; reflexivity.
  - destruct (lower_cons _ _ H) as [_ Hs]. specialize (IH Hs).
    cbn [split_1]. destruct (prefix sep (String c s)).
    + cbn [nth]. now apply lower_drop.
    + destruct (split_1 sep s) as [|a [|b rest]]; try reflexivity.
      exact IH.
Qed.

Lemma rstrip_idem (s : string) : rstrip (rstrip s) = rstrip s.
Proof.
  induction s as [|c s IH]; [reflexivity|]. simpl.
  destruct (rstrip s) as [|c' r] eqn:E.
  - destruct (isspace c) eqn:Ec; [reflexivity|]. simpl. now rewrite Ec.
  - change (rstrip (String c (String c' r)))
      with (match rstrip (String c' r) with
            | EmptyString => if isspace c then EmptyString else String c EmptyString
            | r0 => String c r0
            end).
    now rewrite IH.
Qed.

(** A text with nothing to strip on the left. *)
Lemma lstrip_fixed (s : string) :
  lstrip s = s <-> match s with
                   | EmptyString => True
                   | String c _ => isspace c = false
                   end.
Proof.
  destruct s as [|c s]; simpl; [tauto|].
  destruct (isspace c) eqn:E; split; auto; try discriminate.
  intros H. exfalso.
  assert (L : forall t, String.length (lstrip t) <= String.length t).
  { induction t as [|c0 t IHt]; simpl; [lia|].
    destruct (isspace c0); simpl; lia. }
  specialize (L s). rewrite H in L. simpl in L. lia.
Qed.

Lemma lstrip_idem (s : string) : lstrip (lstrip s) = lstrip s.
Proof.
  induction s as [|c s IH]; [reflexivity|]. simpl.
  destruct (isspace c) eqn:E; [exact IH|]. simpl. now rewrite E.
Qed.

Lemma lstrip_rstrip_fixed (s : string) : lstrip s = s -> lstrip (rstrip s) = rstrip s.
Proof.
  intros H. apply lstrip_fixed in H. apply lstrip_fixed.
  destruct s as [|c s]; [exact I|]. simpl.
  destruct (rstrip s); [rewrite H|]; exact H.
Qed.

Lemma strip_idem (s : string) : strip (strip s) = strip s.
Proof.
  unfold strip. rewrite lstrip_rstrip_fixed by apply lstrip_idem.
  apply rstrip_idem.
Qed.

(** X4: the username the fallback extracts is the text after the leftmost
    "of " of the lowercased query, stripped; it is never empty, has no white
    space at either end, and has no capital letter: the case the user typed
    is lost. *)
Theorem fallback_username_normal_form :
  forall (query : string) (parameters : dict) (username : pyval),
    PyVal.lookup "parameters" (fallback_intent_detection query)
    = Some (PDict parameters) ->
    PyVal.lookup "username" parameters = Some username ->
    exists u,
      username = PStr u
      /\ u = text_after_of query
      /\ u <> ""
      /\ strip u = u
      /\ lower u = u
      /\ PyVal.lookup "intent" (fallback_intent_detection query)
         = Some (PStr "list_user_repositories").
Proof.
  intros query parameters username Hp Hu.
  unfold fallback_intent_detection in *.
  destruct (any_in _ (lower query) && any_in repo_terms (lower query)).
  - destruct (isin "of " (lower query)) eqn:Hof.
    + destruct (1 <? List.length (split_1 "of " (lower query)))%nat.
      * fold (text_after_of query) in *.
        simpl PyVal.truthy in *.
        destruct (String.eqb (text_after_of query) "") eqn:En; simpl negb in *;
          cbv iota in *.
        -- injection Hp as <-. discriminate Hu.
        -- injection Hp as <-. injection Hu as <-.
           exists (text_after_of query).
           apply String.eqb_neq in En.
           repeat split; auto.
           ++ apply strip_idem.
           ++ unfold text_after_of, strip.
              apply lower_rstrip, lower_lstrip, lower_split_1, lower_idem.
      * simpl in Hp. injection Hp as <-. discriminate Hu.
    + simpl in Hp. injection Hp as <-. discriminate Hu.
  - destruct (any_in ["search"; "find"] (lower query)
              && any_in repo_terms (lower query)).
    + injection Hp as <-. discriminate Hu.
    + injection Hp as <-. discriminate Hu.
Qed.

Lemma fallback_username_normal_form_witness :
  exists u,
    PyVal.lookup "username" [("username", PStr "octocat")] = Some (PStr u)
    /\ u = text_after_of "List the repos of  OctoCat " /\ lower u = u.
Proof.
  destruct (fallback_username_normal_form
              "List the repos of  OctoCat " [("username", PStr "octocat")]
              (PStr "octocat") eq_refl eq_refl)
    as (u & Hu & Ht & _ & _ & Hl & _).
  exists u. rewrite <- Hu. repeat split; auto.
Defined.

(** ** What comes out of the dispatch *)




Lemma is_envelope_cons (key : string) (v : pyval) (rest : dict) :
  In key envelope_keys -> is_envelope ((key, v) :: rest).
Proof. intros H. now exists key, v, rest. Qed.

Ltac envelope := apply is_envelope_cons; simpl; tauto.







(** The dispatch of a record whose intent has no branch, when the text of
    the intent has no opening bracket. *)
Lemma execute_intent_no_branch (w : World) (gh : GitHubClient) (intent_data : dict)
      (s : State) :
  (forall name, In name handled_intents ->
                PyVal.eq_str (PyVal.get "intent" intent_data) name = false) ->
  plain (PyVal.str (PyVal.get "intent" intent_data)) = true ->
  execute_intent w gh intent_data s
  = (Ret [("error", PStr ("Unhandled intent: "
                          ++ PyVal.str (PyVal.get "intent" intent_data)))],
     printed s [Print ("[bold yellow]Unhandled intent:[/bold yellow] "
                       ++ PyVal.str (PyVal.get "intent" intent_data))]).
Proof.
  intros H Hplain. unfold execute_intent.
  cbv zeta.
  rewrite (H "get_repositories"), (H "get_repos") by (simpl; tauto).
  simpl orb. cbv iota.
  repeat match goal with
         | |- context [PyVal.eq_str (PyVal.get "intent" intent_data) ?n] =>
             rewrite (H n) by (simpl; tauto)
         end.
  simpl orb. cbv iota.
  unfold try_except, bind.
  now rewrite console_print_run by (now apply render_unhandled_intent).
Qed.

(** X7: an intent that has no branch in [execute_intent], and also a record
    without an intent or with an intent that is no string, is answered with
    the envelope "Unhandled intent: ..." and one line on the terminal, when
    the text of the intent has no opening bracket; no client is called and
    nothing else changes. *)
Theorem execute_intent_unhandled :
  forall (w : World) (gh : GitHubClient) (intent_data : dict) (s : State),
    (forall name, In name handled_intents ->
                  PyVal.eq_str (PyVal.get "intent" intent_data) name = false) ->
    plain (PyVal.str (PyVal.get "intent" intent_data)) = true ->
    execute_intent w gh intent_data s
    = (Ret [("error", PStr ("Unhandled intent: "
                            ++ PyVal.str (PyVal.get "intent" intent_data)))],
       printed s [Print ("[bold yellow]Unhandled intent:[/bold yellow] "
                         ++ PyVal.str (PyVal.get "intent" intent_data))]).
Proof.
  intros w gh intent_data s H Hplain. now apply execute_intent_no_branch.
Qed.

Lemma execute_intent_unhandled_witness :
  execute_intent (sample_world no_network (fun _ _ => Ret PNone))
                 (constant_client PNone)
                 (intent_record "get_latest_branch"
                                (PDict [("owner", PStr "octocat"); ("repo", PStr "hello")]))
                 (initial_state [])
  = (Ret [("error", PStr "Unhandled intent: get_latest_branch")],
     printed (initial_state [])
             [Print "[bold yellow]Unhandled intent:[/bold yellow] get_latest_branch"])
  /\ execute_intent (sample_world no_network (fun _ _ => Ret PNone))
                    (constant_client PNone)
                    [("parameters", PDict [])]
                    (initial_state [])
     = (Ret [("error", PStr "Unhandled intent: None")],
        printed (initial_state [])
                [Print "[bold yellow]Unhandled intent:[/bold yellow] None"]).
Proof.
  split.
  - apply (execute_intent_unhandled
             (sample_world no_network (fun _ _ => Ret PNone)) (constant_client PNone)
             (intent_record "get_latest_branch"
                            (PDict [("owner", PStr "octocat"); ("repo", PStr "hello")]))
             (initial_state [])); [|reflexivity].
    intros name Hn. simpl in Hn.
    repeat (destruct Hn as [<-|Hn]; [reflexivity|]). contradiction.
  - apply (execute_intent_unhandled
             (sample_world no_network (fun _ _ => Ret PNone)) (constant_client PNone)
             [("parameters", PDict [])] (initial_state [])); [|reflexivity].
    intros name Hn. reflexivity.
Defined.

(** X8: for every intent that reads parameters, a record whose parameters
    are no mapping is answered with the error envelope of the failed
    [params.get]; the error and the traceback are printed, and no client is
    called. *)
Theorem execute_intent_parameters_not_a_mapping :
  forall (w : World) (gh : GitHubClient) (intent_data : dict) (intent : string)
         (s : State),
    In intent ["get_repositories"; "get_repos"; "get_contributors";
               "get_commit_history"; "get_recent_merged_prs";
               "list_user_repositories"; "get_user_repositories";
               "search_repositories"] ->
    PyVal.get "intent" intent_data = PStr intent ->
    PyVal.is_dict (PyVal.get_default "parameters" (PDict []) intent_data) = false ->
    let message :=
      "'" ++ PyVal.type_name (PyVal.get_default "parameters" (PDict []) intent_data)
      ++ "' object has no attribute 'get'" in
    execute_intent w gh intent_data s
    = (Ret [("error", PStr message)],
       printed s [Print ("[bold red]Error executing intent:[/bold red] " ++ message);
                  Traceback]).
Proof.
  intros w gh intent_data intent s Hin Hi Hp message. subst message.
  unfold execute_intent. rewrite Hi.
  destruct (PyVal.get_default "parameters" (PDict []) intent_data) as [| | | | |d];
    try discriminate Hp;
    simpl in Hin;
    repeat (destruct Hin as [<-|Hin];
            [match goal with
             | |- _ = (Ret [("error", PStr ?msg)], _) =>
                 transitivity (dispatch_handler w (Exn "AttributeError" msg) s);
                 [reflexivity
                 |apply (dispatch_handler_run w (Exn "AttributeError" msg));
                  reflexivity]
             end|]);
    contradiction.
Qed.

Lemma execute_intent_parameters_not_a_mapping_witness :
  execute_intent (sample_world no_network (fun _ _ => Ret PNone))
                 (constant_client (PList []))
                 (intent_record "search_repositories" (PList [PStr "parsers"]))
                 (initial_state [])
  = (Ret [("error", PStr "'list' object has no attribute 'get'")],
     printed (initial_state [])
             [Print "[bold red]Error executing intent:[/bold red] 'list' object has no attribute 'get'";
              Traceback]).
Proof.
  exact (execute_intent_parameters_not_a_mapping
           (sample_world no_network (fun _ _ => Ret PNone)) (constant_client (PList []))
           (intent_record "search_repositories" (PList [PStr "parsers"]))
           "search_repositories" (initial_state [])
           (or_intror (or_intror (or_intror (or_intror (or_intror (or_intror
              (or_intror (or_introl eq_refl))))))))
           eq_refl eq_refl).
Defined.

(** ** What a query may do to the session *)

Lemma extends_refl (s : State) : extends s s.
Proof. repeat split; exists []; now rewrite ?app_nil_r. Qed.

Lemma extends_trans (s1 s2 s3 : State) : extends s1 s2 -> extends s2 s3 -> extends s1 s3.
Proof.
  intros ((c1 & C1) & (i1 & I1) & (h1 & H1) & (l1 & L1))
         ((c2 & C2) & (i2 & I2) & (h2 & H2) & (l2 & L2)).
  repeat split.
  - exists (c1 ++ c2)%list. now rewrite C2, C1, app_assoc.
  - exists (i1 ++ i2)%list. now rewrite I1, I2, app_assoc.
  - exists (h1 ++ h2)%list. now rewrite H2, H1, app_assoc.
  - exists (l1 ++ l2)%list. now rewrite L2, L1, app_assoc.
Qed.

Lemma grows_ret {A} (a : A) : grows (ret a).
Proof. intros s. apply extends_refl. Qed.

Lemma grows_raise {A} (e : exn) : grows (raise e : M A).
Proof. intros s. apply extends_refl. Qed.

Lemma grows_lift {A} (o : outcome A) : grows (lift o).
Proof. intros s. apply extends_refl. Qed.

Lemma grows_bind {A B} (m : M A) (k : A -> M B) :
  grows m -> (forall a, grows (k a)) -> grows (bind m k).
Proof.
  intros Hm Hk s. unfold bind. specialize (Hm s).
  destruct (m s) as [[a|e] s1]; simpl in *; [|exact Hm].
  eapply extends_trans; [exact Hm|apply Hk].
Qed.

Lemma grows_try {A} (m : M A) (h : exn -> M A) :
  grows m -> (forall e, grows (h e)) -> grows (try_except m h).
Proof.
  intros Hm Hh s. unfold try_except. specialize (Hm s).
  destruct (m s) as [[a|e] s1]; simpl in *; [exact Hm|].
  eapply extends_trans; [exact Hm|apply Hh].
Qed.

Lemma grows_emit (e : event) : grows (emit e).
Proof.
  intros s. repeat split; simpl.
  - now exists [e].
  - now exists [].
  - exists []. now rewrite app_nil_r.
  - exists []. now rewrite app_nil_r.
Qed.

Lemma grows_console_print (w : World) (text : string) : grows (console_print w text).
Proof.
  unfold console_print. destruct (Markup.render w text);
    [apply grows_raise|apply grows_emit].
Qed.

Lemma grows_console_input (w : World) (prompt : string) :
  grows (console_input w prompt).
Proof.
  unfold console_input. destruct (Markup.render w prompt); [apply grows_raise|].
  intros s.
  destruct (stdin s) as [|line rest] eqn:E; repeat split; simpl.
  - now exists [Input prompt].
  - exists []. now rewrite E.
  - exists []. now rewrite app_nil_r.
  - exists []. now rewrite app_nil_r.
  - now exists [Input prompt].
  - exists [line]. now rewrite E.
  - exists []. now rewrite app_nil_r.
  - exists []. now rewrite app_nil_r.
Qed.

Lemma grows_history_append (t : turn) : grows (history_append t).
Proof.
  intros s. repeat split; simpl.
  - exists []. now rewrite app_nil_r.
  - now exists [].
  - now exists [t].
  - exists []. now rewrite app_nil_r.
Qed.

Lemma grows_get_history : grows get_history.
Proof. intros s. apply extends_refl. Qed.

Lemma grows_get (w : World) (endpoint : string) (params : dict) :
  grows (GitHubAPIClient._get w endpoint params).
Proof.
  intros s. repeat split; simpl.
  - exists []. now rewrite app_nil_r.
  - now exists [].
  - exists []. now rewrite app_nil_r.
  - now eexists.
Qed.

Ltac grow :=
  repeat match goal with
         | |- grows (bind _ _) => apply grows_bind; [|intros]
         | |- grows (try_except _ _) => apply grows_try; [|intros]
         | |- grows (ret _) => apply grows_ret
         | |- grows (raise _) => apply grows_raise
         | |- grows (lift _) => apply grows_lift
         | |- grows (console_print _ _) => apply grows_console_print
         | |- grows print_exc => apply grows_emit
         | |- grows (emit _) => apply grows_emit
         | |- grows (console_input _ _) => apply grows_console_input
         | |- grows (history_append _) => apply grows_history_append
         | |- grows get_history => apply grows_get_history
         | |- grows (GitHubAPIClient._get _ _ _) => apply grows_get
         | |- grows (if ?c then _ else _) => destruct c
         | |- grows (match ?x with _ => _ end) => destruct x
         end.

Lemma grows_classify (w : World) (query : string) : grows (classify w query).
Proof. unfold classify. grow. Qed.

Lemma grows_complete_params (w : World) (required : list (string * string)) :
  forall d, grows (complete_params w required d).
Proof.
  induction required as [|[name desc] rest IH]; intros d; simpl; grow; apply IH.
Qed.

Lemma grows_validate (w : World) (intent params : pyval) :
  grows (validate_and_complete_params w intent params).
Proof.
  unfold validate_and_complete_params. grow; apply grows_complete_params.
Qed.

Lemma grows_merged_loop (w : World) (owner repo : pyval) (prs : list pyval) :
  forall merged, grows (GitHubAPIClient.merged_loop w owner repo prs merged).
Proof.
  induction prs as [|pr rest IH]; intros merged; simpl; grow; apply IH.
Qed.

Lemma shipped_client_grows (w : World) : client_grows (GitHubAPIClient.client w).
Proof.
  unfold client_grows. simpl.
  split; [|split; [|split; [|split]]]; intros.
  - apply grows_get.
  - apply grows_get.
  - unfold GitHubAPIClient.get_recent_merged_prs. grow. apply grows_merged_loop.
  - apply grows_raise.
  - apply grows_get.
Qed.

Lemma grows_execute_intent (w : World) (gh : GitHubClient) (intent_data : dict) :
  client_grows gh -> grows (execute_intent w gh intent_data).
Proof.
  intros (Hc & Hh & Hm & Hu & Hs).
  unfold execute_intent, list_user_repositories, show_console_table.
  grow; auto.
Qed.

Lemma grows_process_query (w : World) (gh : GitHubClient) (query : string) :
  client_grows gh -> grows (process_query w gh query).
Proof.
  intros Hgh. unfold process_query.
  grow; auto using grows_classify, grows_validate, grows_execute_intent.
Qed.

(** X9: with the client the CLI creates, a query only adds to the
    session: what was on the terminal, in the conversation history and in
    the list of requests sent is still there, in place, when
    [process_query] returns, and of the input only lines from the front
    have been read. *)
Theorem process_query_only_adds :
  forall (w : World) (query : string) (s : State),
    let s' := snd (process_query w (GitHubAPIClient.client w) query s) in
    (exists evs, console s' = (console s ++ evs)%list)
    /\ (exists used, stdin s = (used ++ stdin s')%list)
    /\ (exists turns, conversation_history s' = (conversation_history s ++ turns)%list)
    /\ (exists reqs, http_log s' = (http_log s ++ reqs)%list).
Proof.
  intros w query s.
  exact (grows_process_query w _ query (shipped_client_grows w) s).
Qed.

(** ** The requests of the data source client *)

Lemma merged_loop_requests (w : World) (owner repo : pyval) (prs : list pyval) :
  forall (merged : list pyval) (s : State) (r : list pyval) (s' : State),
    GitHubAPIClient.merged_loop w owner repo prs merged s = (Ret r, s') ->
    console s' = console s /\ stdin s' = stdin s
    /\ conversation_history s' = conversation_history s
    /\ exists reqs, http_log s' = (http_log s ++ reqs)%list
                    /\ List.length r = List.length merged + List.length reqs
                    /\ Forall (fun req => params req = []) reqs.
Proof.
  induction prs as [|pr rest IH]; intros merged s r s' Hrun.
  - simpl in Hrun. injection Hrun as <- <-. repeat split; auto.
    exists []. rewrite app_nil_r. repeat split; auto.
  - cbn [GitHubAPIClient.merged_loop] in Hrun. unfold bind at 1, lift in Hrun.
    destruct (Builtins.get pr "merged_at") as [merged_at|e]; [|discriminate].
    destruct (PyVal.truthy merged_at).
    + unfold bind at 1 in Hrun.
      destruct (Builtins.getitem pr "number") as [number|e]; [|discriminate].
      unfold bind at 1, GitHubAPIClient._get in Hrun.
      match type of Hrun with
      | context [http_get w ?log ?req] =>
          destruct (http_get w log req) as [pr_details|e]; [|discriminate];
          set (request := req) in *
      end.
      apply IH in Hrun as (Hc & Hi & Hh & reqs & Hl & Hn & Hf). simpl in *.
      repeat split; auto.
      exists (request :: reqs). split; [|split].
      * now rewrite Hl, <- app_assoc.
      * rewrite Hn, length_app. simpl. lia.
      * constructor; [reflexivity|exact Hf].
    + now apply IH in Hrun.
Qed.

(** X10: a call of [get_recent_merged_prs] that returns has sent the
    request for the page and then one request without parameters for every
    record it returns, so one request more than records; it prints nothing,
    reads nothing and leaves the history alone. *)
Theorem get_recent_merged_prs_requests :
  forall (w : World) (owner repo : pyval) (count : Z) (s : State)
         (r : pyval) (s' : State),
    GitHubAPIClient.get_recent_merged_prs w owner repo count s = (Ret r, s') ->
    exists records reqs,
      r = PList records
      /\ http_log s'
         = (http_log s
            ++ Request ("/repos/" ++ PyVal.str owner ++ "/" ++ PyVal.str repo ++ "/pulls")
                       [("state", PStr "closed"); ("per_page", PInt count)]
               :: reqs)%list
      /\ List.length reqs = List.length records
      /\ Forall (fun req => params req = []) reqs
      /\ console s' = console s /\ stdin s' = stdin s
      /\ conversation_history s' = conversation_history s.
Proof.
  intros w owner repo count s r s' Hrun.
  unfold GitHubAPIClient.get_recent_merged_prs in Hrun.
  unfold bind at 1, GitHubAPIClient._get in Hrun.
  match type of Hrun with
  | context [http_get w ?log ?req] =>
      destruct (http_get w log req) as [page|e]; [|discriminate]
  end.
  unfold bind at 1, lift in Hrun.
  destruct (Builtins.iter page) as [items|e]; [|discriminate].
  unfold bind at 1 in Hrun.
  match type of Hrun with
  | context [GitHubAPIClient.merged_loop ?w ?o ?r ?l ?acc ?st] =>
      destruct (GitHubAPIClient.merged_loop w o r l acc st) as [[merged|e] s1] eqn:Hloop;
      [|discriminate]
  end.
  injection Hrun as <- <-.
  apply merged_loop_requests in Hloop as (Hc & Hi & Hh & reqs & Hl & Hn & Hf).
  simpl in *. exists merged, reqs. repeat split; auto.
  now rewrite Hl, <- app_assoc.
Qed.

Lemma get_recent_merged_prs_requests_witness :
  let w := sample_world steady_transport (fun _ _ => Ret PNone) in
  exists reqs,
    http_log (snd (GitHubAPIClient.get_recent_merged_prs
                     w (PStr "octocat") (PStr "hello") 5 (initial_state [])))
    = Request "/repos/octocat/hello/pulls"
              [("state", PStr "closed"); ("per_page", PInt 5)] :: reqs
    /\ List.length reqs = 1.
Proof.
  intros w.
  destruct (get_recent_merged_prs_requests
              w (PStr "octocat") (PStr "hello") 5 (initial_state []) _ _
              (surjective_pairing _))
    as (records & reqs & Hr & Hlog & Hn & _).
  exists reqs. split; [exact Hlog|].
  rewrite Hn. vm_compute in Hr. injection Hr as <-. reflexivity.
Defined.

(** ** The latest branch *)

Lemma ascii_compare_lt_trans (a b c : ascii) :
  Ascii.compare a b = Lt -> Ascii.compare b c = Lt -> Ascii.compare a c = Lt.
Proof.
  unfold Ascii.compare. rewrite !N.compare_lt_iff. lia.
Qed.

Lemma ascii_compare_eq (a b : ascii) : Ascii.compare a b = Eq -> a = b.
Proof.
  unfold Ascii.compare. intros H. apply N.compare_eq in H.
  rewrite <- (ascii_N_embedding a), <- (ascii_N_embedding b). now rewrite H.
Qed.

Lemma string_compare_lt_trans (a : string) :
  forall b c, String.compare a b = Lt -> String.compare b c = Lt ->
              String.compare a c = Lt.
Proof.
  induction a as [|x a IH]; intros [|y b] [|z c]; simpl; try discriminate; auto.
  destruct (Ascii.compare x y) eqn:Exy; try discriminate;
    destruct (Ascii.compare y z) eqn:Eyz; try discriminate; intros H1 H2.
  - apply ascii_compare_eq in Exy, Eyz. subst.
    assert (E : Ascii.compare z z = Eq) by (unfold Ascii.compare; apply N.compare_refl).
    rewrite E. now apply (IH b c).
  - apply ascii_compare_eq in Exy. subst. now rewrite Eyz.
  - apply ascii_compare_eq in Eyz. subst. now rewrite Exy.
  - now rewrite (ascii_compare_lt_trans _ _ _ Exy Eyz).
Qed.

Lemma ltb_trans (a b c : string) :
  String.ltb a b = true -> String.ltb b c = true -> String.ltb a c = true.
Proof.
  unfold String.ltb. intros H1 H2.
  destruct (String.compare a b) eqn:E1; try discriminate.
  destruct (String.compare b c) eqn:E2; try discriminate.
  now rewrite (string_compare_lt_trans _ _ _ E1 E2).
Qed.

(** [e] is not after [c], and [c] is before [d]: [e] is before [d]. *)
Lemma not_after_ltb_trans (c d e : string) :
  String.ltb c e = false -> String.ltb c d = true -> String.ltb e d = true.
Proof.
  unfold String.ltb. intros H1 H2.
  destruct (String.compare c d) eqn:Ecd; try discriminate.
  destruct (String.compare c e) eqn:Ece; try discriminate.
  - apply String.compare_eq_iff in Ece. subst. now rewrite Ecd.
  - assert (Eec : String.compare e c = Lt).
    { rewrite String.compare_antisym, Ece. reflexivity. }
    now rewrite (string_compare_lt_trans _ _ _ Eec Ecd).
Qed.

Lemma ltb_not_after (c d : string) : String.ltb c d = true -> String.ltb d c = false.
Proof.
  unfold String.ltb. rewrite (String.compare_antisym c d).
  destruct (String.compare d c); simpl; congruence.
Qed.

(** The loop fetches one date for every branch and chooses as
    [select_latest] does. *)
Lemma latest_loop_select (w : World) (owner repo : pyval) (branches : list pyval) :
  forall (latest_branch latest_date : pyval) (s : State) (latest : pyval) (s' : State),
    Fetch.latest_loop w owner repo branches latest_branch latest_date s
    = (Ret latest, s') ->
    exists dates,
      Forall2 (dated w owner repo) branches dates
      /\ select_latest (combine branches dates) latest_branch latest_date = Ret latest
      /\ List.length (http_log s') = List.length (http_log s) + List.length branches.
Proof.
  induction branches as [|branch rest IH]; intros lb ld s latest s' Hrun.
  - simpl in Hrun. injection Hrun as <- <-. exists [].
    split; [constructor|split; [reflexivity|simpl; lia]].
  - cbn [Fetch.latest_loop] in Hrun.
    unfold bind at 1, lift in Hrun.
    destruct (Builtins.getitem branch "commit") as [commit|e] eqn:H1; [|discriminate].
    unfold bind at 1 in Hrun.
    destruct (Builtins.getitem commit "sha") as [sha|e] eqn:H2; [|discriminate].
    unfold bind at 1, GitHubAPIClient._get in Hrun.
    match type of Hrun with
    | context [http_get w ?log ?req] =>
        destruct (http_get w log req) as [commit_info|e] eqn:H3; [|discriminate]
    end.
    unfold bind at 1 in Hrun.
    destruct (Builtins.getitem commit_info "commit") as [info|e] eqn:H4; [|discriminate].
    unfold bind at 1 in Hrun.
    destruct (Builtins.getitem info "author") as [author|e] eqn:H5; [|discriminate].
    unfold bind at 1 in Hrun.
    destruct (Builtins.getitem author "date") as [commit_date|e] eqn:H6; [|discriminate].
    assert (Hd : dated w owner repo branch commit_date).
    { exists commit, sha, (http_log s), commit_info, info, author. auto 10. }
    destruct ld; unfold bind at 1, lift, ret in Hrun;
      match type of Hrun with
      | context [PyCmp.gt ?a ?b] =>
          destruct (PyCmp.gt a b) as [[|]|e] eqn:Hcmp; [| |discriminate]
      | _ => idtac
      end;
      apply IH in Hrun as (dates & HF & Hsel & Hlen);
      exists (commit_date :: dates); cbn [combine select_latest];
      try rewrite Hcmp;
      (split; [now constructor|split; [exact Hsel|]]);
      rewrite Hlen; simpl; rewrite length_app; simpl; lia.
Qed.

Lemma select_latest_member (pairs : list (pyval * pyval)) :
  forall lb ld latest,
    select_latest pairs lb ld = Ret latest ->
    latest = lb \/ In latest (map fst pairs).
Proof.
  induction pairs as [|[b d] rest IH]; intros lb ld latest H; simpl in *.
  - injection H as <-. now left.
  - destruct (match ld with PNone => Ret true | _ => PyCmp.gt d ld end)
      as [[|]|e]; [| |discriminate].
    + apply IH in H as [->|H]; auto.
    + apply IH in H as [->|H]; auto.
Qed.

Lemma combine_fst {A B} (l : list A) (l' : list B) :
  List.length l = List.length l' -> map fst (combine l l') = l.
Proof.
  revert l'. induction l as [|a l IH]; intros [|b l'] H; simpl in *; try lia; auto.
  f_equal. apply IH. lia.
Qed.

Lemma combine_snd {A B} (l : list A) (l' : list B) :
  List.length l = List.length l' -> map snd (combine l l') = l'.
Proof.
  revert l'. induction l as [|a l IH]; intros [|b l'] H; simpl in *; try lia; auto.
  f_equal. apply IH. lia.
Qed.

Lemma get_latest_branch_run (w : World) (owner repo : pyval) (s : State)
      (latest : pyval) (s' : State) :
  Fetch.get_latest_branch w owner repo s = (Ret latest, s') ->
  exists page items dates,
    http_get w (http_log s) (Request (Fetch.repo_path owner repo ++ "/branches") [])
    = Ret page
    /\ Builtins.iter page = Ret items
    /\ Forall2 (dated w owner repo) items dates
    /\ select_latest (combine items dates) PNone PNone = Ret latest
    /\ List.length (http_log s') = S (List.length (http_log s) + List.length items).
Proof.
  intros Hrun. unfold Fetch.get_latest_branch, Fetch.get_repository_branches in Hrun.
  unfold bind at 1, GitHubAPIClient._get in Hrun.
  match type of Hrun with
  | context [http_get w ?log ?req] =>
      destruct (http_get w log req) as [page|e] eqn:Hpage; [|discriminate]
  end.
  unfold bind at 1, lift in Hrun.
  destruct (Builtins.iter page) as [items|e] eqn:Hiter; [|discriminate].
  apply latest_loop_select in Hrun as (dates & HF & Hsel & Hlen).
  exists page, items, dates. repeat split; auto.
  rewrite Hlen. simpl. rewrite length_app. simpl. lia.
Qed.

(** X11: a call of [get_latest_branch] that returns gives [None] when the
    repository has no branches and one of the listed branches otherwise,
    and it has sent the request for the branches and one request for every
    branch. *)
Theorem get_latest_branch_is_a_branch :
  forall (w : World) (owner repo : pyval) (s : State) (latest : pyval) (s' : State),
    Fetch.get_latest_branch w owner repo s = (Ret latest, s') ->
    exists page items,
      http_get w (http_log s) (Request (Fetch.repo_path owner repo ++ "/branches") [])
      = Ret page
      /\ Builtins.iter page = Ret items
      /\ (items = [] -> latest = PNone)
      /\ (items <> [] -> In latest items)
      /\ List.length (http_log s') = S (List.length (http_log s) + List.length items).
Proof.
  intros w owner repo s latest s' Hrun.
  apply get_latest_branch_run in Hrun
    as (page & items & dates & Hpage & Hiter & HF & Hsel & Hlen).
  exists page, items. repeat split; auto.
  - intros ->. inversion HF; subst. simpl in Hsel. now injection Hsel as <-.
  - intros Hne. destruct HF as [|branch date rest dates' Hd HF]; [congruence|].
    simpl in Hsel. apply select_latest_member in Hsel.
    rewrite combine_fst in Hsel by (eapply Forall2_length; exact HF).
    destruct Hsel as [->|Hin]; [now left|now right].
Qed.

Lemma get_latest_branch_is_a_branch_witness :
  let w := sample_world two_branch_transport (fun _ _ => Ret PNone) in
  let s' := snd (Fetch.get_latest_branch w (PStr "octocat") (PStr "hello")
                                         (initial_state [])) in
  Fetch.get_latest_branch w (PStr "octocat") (PStr "hello") (initial_state [])
  = (Ret (PDict [("name", PStr "dev"); ("commit", PDict [("sha", PStr "bbb")])]), s')
  /\ List.length (http_log s') = 3.
Proof.
  intros w s'. split; [reflexivity|].
  destruct (get_latest_branch_is_a_branch
              w (PStr "octocat") (PStr "hello") (initial_state [])
              (PDict [("name", PStr "dev"); ("commit", PDict [("sha", PStr "bbb")])])
              s' eq_refl)
    as (page & items & Hpage & Hiter & _ & _ & Hlen).
  rewrite Hlen. vm_compute in Hpage. injection Hpage as <-.
  vm_compute in Hiter. injection Hiter as <-. reflexivity.
Defined.

(** Among pairs with string dates, starting from a branch dated [c], the
    choice stays with that branch when no date is later than [c], and
    otherwise falls on the first pair with the greatest date. *)
Lemma select_latest_strings (pairs : list (pyval * pyval)) :
  Forall (fun p => is_str (snd p)) pairs ->
  forall (lb : pyval) (c : string) (latest : pyval),
    select_latest pairs lb (PStr c) = Ret latest ->
    (latest = lb /\ Forall (fun p => not_after_date c (snd p)) pairs)
    \/ (exists p1 p2 d,
          pairs = (p1 ++ (latest, PStr d) :: p2)%list
          /\ String.ltb c d = true
          /\ Forall (fun p => before_date d (snd p)) p1
          /\ Forall (fun p => not_after_date d (snd p)) p2).
Proof.
  induction 1 as [|[b v] rest [e Hv] Hrest IH]; intros lb c latest Hsel.
  - simpl in Hsel. injection Hsel as <-. left. split; [reflexivity|constructor].
  - simpl in Hv. subst v. simpl in Hsel.
    destruct (String.ltb c e) eqn:Hce.
    + apply IH in Hsel as [[-> Hall]|(p1 & p2 & d & -> & Hed & H1 & H2)].
      * right. exists [], rest, e. repeat split; auto.
      * right. exists ((b, PStr e) :: p1), p2, d. repeat split; auto.
        -- now apply (ltb_trans c e d).
        -- constructor; [|exact H1]. now exists e.
    + apply IH in Hsel as [[-> Hall]|(p1 & p2 & d & -> & Hcd & H1 & H2)].
      * left. split; [reflexivity|]. constructor; [|exact Hall]. now exists e.
      * right. exists ((b, PStr e) :: p1), p2, d. repeat split; auto.
        constructor; [|exact H1]. exists e. split; [reflexivity|].
        now apply (not_after_ltb_trans c d e).
Qed.

Lemma select_latest_first_greatest (pairs : list (pyval * pyval)) (latest : pyval) :
  Forall (fun p => is_str (snd p)) pairs ->
  pairs <> [] ->
  select_latest pairs PNone PNone = Ret latest ->
  exists p1 p2 d,
    pairs = (p1 ++ (latest, PStr d) :: p2)%list
    /\ Forall (fun p => before_date d (snd p)) p1
    /\ Forall (fun p => not_after_date d (snd p)) p2.
Proof.
  intros Hstr Hne Hsel. destruct pairs as [|[b v] rest]; [congruence|].
  inversion Hstr as [|? ? [e Hv] Hrest]; subst. simpl in Hv. subst v.
  simpl in Hsel.
  apply (select_latest_strings rest Hrest) in Hsel
    as [[-> Hall]|(p1 & p2 & d & -> & Hed & H1 & H2)].
  - exists [], rest, e. repeat split; auto.
  - exists ((b, PStr e) :: p1), p2, d. repeat split; auto.
    constructor; [|exact H1]. now exists e.
Qed.

Lemma Forall2_right {A B} (R : A -> B -> Prop) (P : B -> Prop)
      (xs : list A) (ys : list B) :
  Forall2 R xs ys -> (forall x y, R x y -> P y) -> Forall P ys.
Proof. induction 1; intros HP; constructor; eauto. Qed.

(** X12: when the commit dates the transport gives are strings and there
    is a branch, [get_latest_branch] returns the first branch with the
    greatest date: every branch listed before it has a date that sorts
    before its date, and none listed after it has a date that sorts
    after. *)
Theorem get_latest_branch_first_greatest :
  forall (w : World) (owner repo : pyval) (s : State) (latest : pyval) (s' : State),
    Fetch.get_latest_branch w owner repo s = (Ret latest, s') ->
    (forall branch date, dated w owner repo branch date -> is_str date) ->
    latest <> PNone ->
    exists page items dates before after dates_before dates_after d,
      http_get w (http_log s) (Request (Fetch.repo_path owner repo ++ "/branches") [])
      = Ret page
      /\ Builtins.iter page = Ret items
      /\ Forall2 (dated w owner repo) items dates
      /\ items = (before ++ latest :: after)%list
      /\ dates = (dates_before ++ PStr d :: dates_after)%list
      /\ List.length before = List.length dates_before
      /\ Forall (before_date d) dates_before
      /\ Forall (not_after_date d) dates_after.
Proof.
  intros w owner repo s latest s' Hrun Hstr Hsome.
  apply get_latest_branch_run in Hrun
    as (page & items & dates & Hpage & Hiter & HF & Hsel & _).
  pose proof (Forall2_length HF) as Hlen.
  assert (Hpairs : Forall (fun p => is_str (snd p)) (combine items dates)).
  { apply Forall_forall. intros [b v] Hin. simpl.
    assert (Hv : In v dates).
    { apply (in_map snd) in Hin. now rewrite combine_snd in Hin. }
    pose proof (Forall2_right _ is_str _ _ HF Hstr) as Hall.
    rewrite Forall_forall in Hall. now apply Hall. }
  assert (Hne : combine items dates <> []).
  { intros E. rewrite E in Hsel. simpl in Hsel. injection Hsel as <-. congruence. }
  destruct (select_latest_first_greatest _ _ Hpairs Hne Hsel)
    as (p1 & p2 & d & E & H1 & H2).
  exists page, items, dates, (map fst p1), (map fst p2), (map snd p1), (map snd p2), d.
  split; [exact Hpage|]. split; [exact Hiter|]. split; [exact HF|].
  split; [|split; [|split; [|split]]].
  - rewrite <- (combine_fst items dates Hlen), E, map_app. reflexivity.
  - rewrite <- (combine_snd items dates Hlen), E, map_app. reflexivity.
  - now rewrite !length_map.
  - apply Forall_map. exact H1.
  - apply Forall_map. exact H2.
Qed.

Lemma get_latest_branch_first_greatest_witness :
  let w := sample_world two_branch_transport (fun _ _ => Ret PNone) in
  let dev := PDict [("name", PStr "dev"); ("commit", PDict [("sha", PStr "bbb")])] in
  exists items before after dates_before d,
    items = (before ++ dev :: after)%list
    /\ List.length before = List.length dates_before
    /\ Forall (before_date d) dates_before.
Proof.
  intros w dev.
  destruct (get_latest_branch_first_greatest
              w (PStr "octocat") (PStr "hello") (initial_state []) dev
              (snd (Fetch.get_latest_branch w (PStr "octocat") (PStr "hello")
                                            (initial_state [])))
              eq_refl)
    as (page & items & dates & before & after & dbefore & dafter & d
        & _ & _ & _ & Hitems & _ & Hlen & Hbefore & _).
  - intros branch date (commit & sha & log & ci & info & author
                        & _ & _ & H3 & H4 & H5 & H6).
    unfold w, sample_world, two_branch_transport in H3. simpl in H3.
    repeat match type of H3 with
           | context [if ?c then _ else _] => destruct c
           end;
      injection H3 as <-; simpl in H4; try discriminate H4;
      injection H4 as <-; simpl in H5; injection H5 as <-;
      simpl in H6; injection H6 as <-; eexists; reflexivity.
  - discriminate.
  - exists items, before, after, dbefore, d. auto.
Defined.

(** ** The completion client *)

Lemma length_append (a b : string) :
  String.length (a ++ b) = String.length a + String.length b.
Proof. induction a as [|c a IH]; simpl; auto. Qed.

Lemma drop_append (a b : string) : drop (String.length a) (a ++ b) = b.
Proof. induction a as [|c a IH]; simpl; [now destruct b|exact IH]. Qed.

Lemma take_append (a b : string) : take (String.length a) (a ++ b) = a.
Proof.
  induction a as [|c a IH]; simpl; [now destruct b|now rewrite IH].
Qed.

Lemma endswith_append (p suffix : string) : PyText.endswith suffix (p ++ suffix) = true.
Proof.
  unfold PyText.endswith. rewrite length_append.
  replace (String.length p + String.length suffix - String.length suffix)
    with (String.length p) by lia.
  rewrite drop_append, String.eqb_refl, andb_true_r.
  apply Nat.leb_le. lia.
Qed.

Lemma drop_last_append (p suffix : string) :
  PyText.drop_last (String.length suffix) (p ++ suffix) = p.
Proof.
  unfold PyText.drop_last. rewrite length_append.
  replace (String.length p + String.length suffix - String.length suffix)
    with (String.length p) by lia.
  apply take_append.
Qed.

Lemma prefix_append_same (a b s : string) : prefix (a ++ b) (a ++ s) = prefix b s.
Proof.
  induction a as [|c a IH]; simpl; [reflexivity|].
  destruct (ascii_dec c c); [exact IH|congruence].
Qed.

Lemma prefix_append (a s : string) : prefix a (a ++ s) = true.
Proof.
  induction a as [|c a IH]; simpl; [now destruct s|].
  destruct (ascii_dec c c); [exact IH|congruence].
Qed.

Lemma replace_first_json_fence (p : string) :
  PyText.replace_count LLMClient.json_fence "" 1 (LLMClient.json_fence ++ p) = p.
Proof. destruct p; reflexivity. Qed.

Lemma replace_first_fence (p : string) :
  PyText.replace_count LLMClient.fence "" 1 (LLMClient.fence ++ p) = p.
Proof. destruct p; reflexivity. Qed.

Lemma not_json_after_fence (p : string) :
  prefix "json" p = false -> prefix "json" (p ++ LLMClient.fence) = false.
Proof.
  intros H. unfold LLMClient.fence.
  destruct p as [|c1 [|c2 [|c3 [|c4 p]]]]; cbn [prefix append] in *;
    repeat match goal with
           | |- context [ascii_dec ?a ?b] => destruct (ascii_dec a b)
           | H : context [ascii_dec ?a ?b] |- _ => destruct (ascii_dec a b)
           end;
    subst; try reflexivity; try discriminate.
  destruct p; discriminate.
Qed.

(** X13: the cleaning of the completion text before [json.loads]. A
    payload between "```json" and "```", and a payload between "```" and
    "```" that does not begin with "json", comes out stripped of the fences
    and of the white space around it; a text that does not begin with a
    fence is only stripped. *)
Theorem fenced_payload_unwraps :
  (forall p, LLMClient.fenced_payload (LLMClient.json_fence ++ p ++ LLMClient.fence)
             = strip p)
  /\ (forall p, prefix "json" p = false ->
                LLMClient.fenced_payload (LLMClient.fence ++ p ++ LLMClient.fence)
                = strip p)
  /\ (forall t, prefix LLMClient.fence t = false ->
                LLMClient.fenced_payload t = strip t).
Proof.
  split; [|split].
  - intros p. unfold LLMClient.fenced_payload, PyText.startswith.
    assert (E : prefix LLMClient.json_fence
                       (LLMClient.json_fence ++ p ++ LLMClient.fence) = true)
      by apply prefix_append.
    rewrite E, replace_first_json_fence, endswith_append.
    change 3 with (String.length LLMClient.fence).
    now rewrite drop_last_append.
  - intros p Hp. unfold LLMClient.fenced_payload, PyText.startswith.
    assert (E1 : prefix LLMClient.json_fence
                        (LLMClient.fence ++ p ++ LLMClient.fence) = false).
    { apply (not_json_after_fence p) in Hp.
      change LLMClient.json_fence with (LLMClient.fence ++ "json").
      now rewrite prefix_append_same. }
    assert (E2 : prefix LLMClient.fence
                        (LLMClient.fence ++ p ++ LLMClient.fence) = true)
      by apply prefix_append.
    rewrite E1, E2, replace_first_fence, endswith_append.
    change 3 with (String.length LLMClient.fence).
    now rewrite drop_last_append.
  - intros t Ht. unfold LLMClient.fenced_payload, PyText.startswith.
    rewrite Ht.
    destruct (prefix LLMClient.json_fence t) eqn:E; [|reflexivity].
    apply (prefix_app_l LLMClient.fence "json" t) in E. congruence.
Qed.

Lemma fenced_payload_unwraps_witness :
  LLMClient.fenced_payload "``` [1, 2] ```" = "[1, 2]"
  /\ LLMClient.fenced_payload " {} " = "{}".
Proof.
  split.
  - exact (proj1 (proj2 fenced_payload_unwraps) " [1, 2] " eq_refl).
  - exact (proj2 (proj2 fenced_payload_unwraps) " {} " eq_refl).
Defined.

(** A query whose record has the intent "error" ends with the print of the
    error, when the lines render. *)
Lemma process_query_error_record (w : World) (gh : GitHubClient) (query : string)
      (s s1 : State) (intent_data : dict) (error : pyval) :
  Markup.render w ("[bold blue]Processing query:[/bold blue] " ++ query) = None ->
  classify w query (printed s [Print ("[bold blue]Processing query:[/bold blue] "
                                      ++ query)])
  = (Ret intent_data, s1) ->
  PyVal.eq_str (PyVal.get "intent" intent_data) "error" = true ->
  Builtins.get_default (PyVal.get_default "parameters" (PDict []) intent_data)
                       "error" (PStr "Unknown error") = Ret error ->
  Markup.render w ("[bold red]Error:[/bold red] " ++ PyVal.str error) = None ->
  process_query w gh query s
  = (Ret tt, printed s1 [Print ("[bold red]Error:[/bold red] " ++ PyVal.str error)]).
Proof.
  intros Rq Hclass Hintent Hget Re.
  unfold process_query. unfold bind at 1. rewrite console_print_run by exact Rq.
  unfold try_except, bind at 1. rewrite Hclass, Hintent.
  unfold bind at 1, lift. rewrite Hget.
  now rewrite console_print_run by exact Re.
Qed.

(** X14: with the completion client of llm_client.py, a query off the fast
    path whose completion cannot be read (no choice, no text, or a text
    that [json.loads] rejects) ends there, when neither the query nor the
    message of the failure has an opening bracket: the message is printed
    as an error, and nothing is appended to the history, no parameter is
    asked for, no request is sent, no response is narrated. *)
Theorem process_query_unreadable_completion :
  forall (w : World) (gh : GitHubClient)
         (create : list turn -> outcome LLMClient.completion)
         (json_loads : string -> outcome pyval)
         (query : string) (s : State) (response : LLMClient.completion) (e : exn),
    is_list_repos_query query = false ->
    create (Turn "system" LLMClient.system_prompt
            :: conversation_history s ++ [Turn "user" query])%list
    = Ret response ->
    LLMClient.parse_response json_loads response = Raise e ->
    LLMClient.caught e = true ->
    plain query = true ->
    plain (exn_str e) = true ->
    process_query (with_llm w create json_loads) gh query s
    = (Ret tt,
       printed s [Print ("[bold blue]Processing query:[/bold blue] " ++ query);
                  Print ("[bold red]Error:[/bold red] " ++ exn_str e)]).
Proof.
  intros w gh create json_loads query s response e Hfast Hcreate Hparse Hcaught Hq He.
  rewrite (process_query_error_record
             (with_llm w create json_loads) gh query s
             (printed s [Print ("[bold blue]Processing query:[/bold blue] " ++ query)])
             [("intent", PStr "error");
              ("parameters",
               PDict [("error", PStr (exn_str e));
                      ("raw_response", PStr (LLMClient.completion_str response))])]
             (PStr (exn_str e))).
  - unfold printed. simpl. now rewrite <- app_assoc.
  - now apply render_processing_query.
  - apply classify_mapping; [exact Hfast|].
    cbn [printed conversation_history with_llm llm_process_query].
    unfold LLMClient.process_query. now rewrite Hcreate, Hparse, Hcaught.
  - reflexivity.
  - reflexivity.
  - now apply render_error.
Qed.

Lemma process_query_unreadable_completion_witness :
  process_query
    (with_llm (sample_world no_network (fun _ _ => Ret PNone))
              (fun _ => Ret (LLMClient.mkCompletion [Some "Sure! Here you go."] "<completion>"))
              (fun _ => Raise (Exn "JSONDecodeError"
                                   "Expecting value: line 1 column 1 (char 0)")))
    (constant_client PNone) "who wrote parsers" (initial_state ["unread"])
  = (Ret tt,
     printed (initial_state ["unread"])
             [Print "[bold blue]Processing query:[/bold blue] who wrote parsers";
              Print "[bold red]Error:[/bold red] Expecting value: line 1 column 1 (char 0)"]).
Proof.
  exact (process_query_unreadable_completion
           (sample_world no_network (fun _ _ => Ret PNone)) (constant_client PNone)
           (fun _ => Ret (LLMClient.mkCompletion [Some "Sure! Here you go."] "<completion>"))
           (fun _ => Raise (Exn "JSONDecodeError"
                                "Expecting value: line 1 column 1 (char 0)"))
           "who wrote parsers" (initial_state ["unread"])
           (LLMClient.mkCompletion [Some "Sure! Here you go."] "<completion>")
           (Exn "JSONDecodeError" "Expecting value: line 1 column 1 (char 0)")
           eq_refl eq_refl eq_refl eq_refl eq_refl eq_refl).
Defined.

(** ** The table of pull requests *)

Ltac run_step H :=
  first
    [ match type of H with
      | context [if PyVal.truthy ?v then _ else _] =>
          let E := fresh "Etruthy" in destruct (PyVal.truthy v) eqn:E
      end
    | match type of H with
      | context [match ?o with Ret _ => _ | Raise _ => _ end] =>
          let E := fresh "Eget" in destruct o eqn:E; [|discriminate H]
      end
    | progress (unfold bind at 1 in H; cbv beta iota in H)
    | progress (unfold lift at 1 in H; cbv beta iota in H)
    | progress (unfold ret at 1 in H; cbv beta iota in H) ].

Lemma pr_row_spec (pr : pyval) (s : State) (row : dict) (s' : State) :
  DataProcessor.pr_row pr s = (Ret row, s') -> s' = s /\ row_of pr row.
Proof.
  intros H. unfold DataProcessor.pr_row in H.
  repeat run_step H;
    injection H as <- <-;
    (split; [reflexivity|]); (split; [reflexivity|]);
    (split; [assumption|]);
    unfold merged_on_page;
    match goal with
    | Hg : Builtins.get pr "merged_at" = _ |- _ => rewrite Hg
    end;
    intros Hf; try reflexivity; congruence.
Qed.

Lemma pr_rows_spec (prs : list pyval) :
  forall (data : list dict) (s : State) (rows : list dict) (s' : State),
    DataProcessor.pr_rows prs data s = (Ret rows, s') ->
    s' = s /\ exists new, rows = (data ++ new)%list /\ Forall2 row_of prs new.
Proof.
  induction prs as [|pr rest IH]; intros data s rows s' H.
  - simpl in H. injection H as <- <-. split; [reflexivity|].
    exists []. rewrite app_nil_r. split; [reflexivity|constructor].
  - cbn [DataProcessor.pr_rows] in H. unfold bind at 1 in H.
    destruct (DataProcessor.pr_row pr s) as [[row|e] s1] eqn:Hrow; [|discriminate].
    apply pr_row_spec in Hrow as [-> Hrow].
    apply IH in H as [-> (new & -> & HF)]. split; [reflexivity|].
    exists (row :: new). rewrite <- app_assoc. split; [reflexivity|].
    now constructor.
Qed.

(** X15: when [pull_requests_to_dataframe] returns, the table is built from
    one row for every record, in the order of the records: each row has
    the seven columns of the table and the number of its record, and a
    record without a truthy merge timestamp has "N/A" as its merger. The
    transform prints, reads and sends nothing. *)
Theorem pull_requests_to_dataframe_rows :
  forall (w : World) (prs : pyval) (s : State) (df : DataFrame) (s' : State),
    DataProcessor.pull_requests_to_dataframe w prs s = (Ret df, s') ->
    s' = s
    /\ exists items rows,
         Builtins.iter prs = Ret items
         /\ pd_DataFrame w rows = Ret df
         /\ Forall2 row_of items rows
         /\ List.length rows = List.length items.
Proof.
  intros w prs s df s' H. unfold DataProcessor.pull_requests_to_dataframe in H.
  unfold bind at 1, lift at 1 in H.
  destruct (Builtins.iter prs) as [items|e] eqn:Hiter; [|discriminate].
  unfold bind at 1 in H.
  destruct (DataProcessor.pr_rows items [] s) as [[rows|e] s1] eqn:Hrows; [|discriminate].
  apply pr_rows_spec in Hrows as [-> (new & -> & HF)]. simpl in *.
  unfold lift in H.
  destruct (pd_DataFrame w new) as [df'|e] eqn:Hdf; [|discriminate].
  injection H as <- <-. split; [reflexivity|].
  exists items, new. repeat split; auto.
  symmetry. eapply Forall2_length. exact HF.
Qed.

Lemma pull_requests_to_dataframe_rows_witness :
  let w := sample_world no_network (fun _ _ => Ret PNone) in
  let record :=
    PDict [("number", PInt 7); ("title", PStr "Fix"); ("user", PDict [("login", PStr "ann")]);
           ("merged_at", PNone); ("created_at", PStr "2024-03-01T10:00:00Z");
           ("html_url", PStr "https://example.org/7")] in
  exists rows,
    pd_DataFrame w rows
    = fst (DataProcessor.pull_requests_to_dataframe w (PList [record]) (initial_state []))
    /\ List.length rows = 1.
Proof.
  intros w record.
  destruct (pull_requests_to_dataframe_rows
              w (PList [record]) (initial_state [])
              (PList [PDict [("Number", PInt 7); ("Title", PStr "Fix");
                             ("Author", PStr "ann"); ("Merged By", PStr "N/A");
                             ("Created At", PStr "2024-03-01T10:00:00Z");
                             ("Merged At", PNone);
                             ("URL", PStr "https://example.org/7")]])
              (initial_state []) eq_refl)
    as (_ & items & rows & Hiter & Hdf & _ & Hlen).
  exists rows. split; [rewrite Hdf; reflexivity|].
  rewrite Hlen. injection Hiter as <-. reflexivity.
Defined.

Lemma pr_row_null_merger (d : dict) (s : State) (row : dict) (s' : State) :
  PyVal.truthy (PyVal.get "merged_at" d) = true ->
  PyVal.lookup "merged_by" d = Some PNone ->
  DataProcessor.pr_row (PDict d) s <> (Ret row, s').
Proof.
  intros Hm Hby H. unfold DataProcessor.pr_row in H.
  repeat run_step H;
    match goal with
    | E : Builtins.get (PDict d) "merged_at" = Ret _ |- _ =>
        unfold Builtins.get, Builtins.get_default in E; injection E as <-
    end;
    unfold PyVal.get in Hm; try congruence;
    match goal with
    | E : Builtins.get_default (PDict d) "merged_by" _ = Ret _ |- _ =>
        unfold Builtins.get_default, PyVal.get_default in E; rewrite Hby in E;
        injection E as <-
    end;
    match goal with
    | E : Builtins.get_default PNone "login" _ = Ret _ |- _ => discriminate E
    end.
Qed.

Lemma pr_rows_all_return (prs : list pyval) :
  forall (data : list dict) (s : State) (rows : list dict) (s' : State),
    DataProcessor.pr_rows prs data s = (Ret rows, s') ->
    forall pr, In pr prs -> exists row, DataProcessor.pr_row pr s = (Ret row, s).
Proof.
  induction prs as [|pr0 rest IH]; intros data s rows s' H pr Hin; [contradiction|].
  cbn [DataProcessor.pr_rows] in H. unfold bind at 1 in H.
  destruct (DataProcessor.pr_row pr0 s) as [[row|e] s1] eqn:Hrow; [|discriminate].
  destruct (pr_row_spec _ _ _ _ Hrow) as [-> _].
  destruct Hin as [<-|Hin]; [now exists row|].
  now apply (IH _ _ _ _ H).
Qed.

(** X16: a record with a truthy merge timestamp whose "merged_by" is null
    makes [pull_requests_to_dataframe] raise: [pr.get('merged_by', {})]
    gives [None], the default being for a missing key only, and no table is
    built, for none of the records. *)
Theorem pull_requests_to_dataframe_null_merger :
  forall (w : World) (items : list pyval) (d : dict) (s : State),
    In (PDict d) items ->
    PyVal.truthy (PyVal.get "merged_at" d) = true ->
    PyVal.lookup "merged_by" d = Some PNone ->
    exists e s',
      DataProcessor.pull_requests_to_dataframe w (PList items) s = (Raise e, s').
Proof.
  intros w items d s Hin Hm Hby.
  unfold DataProcessor.pull_requests_to_dataframe.
  unfold bind at 1, lift at 1. simpl Builtins.iter. cbv iota.
  unfold bind at 1.
  destruct (DataProcessor.pr_rows items [] s) as [[rows|e] s1] eqn:Hrows.
  - exfalso. destruct (pr_rows_all_return _ _ _ _ _ Hrows _ Hin) as [row Hrow].
    exact (pr_row_null_merger d s row s Hm Hby Hrow).
  - now exists e, s1.
Qed.

Lemma pull_requests_to_dataframe_null_merger_witness :
  let w := sample_world no_network (fun _ _ => Ret PNone) in
  let record :=
    [("number", PInt 7); ("title", PStr "Fix"); ("user", PDict [("login", PStr "ann")]);
     ("merged_at", PStr "2024-03-02T09:00:00Z"); ("merged_by", PNone);
     ("created_at", PStr "2024-03-01T10:00:00Z");
     ("html_url", PStr "https://example.org/7")] in
  DataProcessor.pull_requests_to_dataframe w (PList [PDict record]) (initial_state [])
  = (Raise (Exn "AttributeError" "'NoneType' object has no attribute 'get'"),
     initial_state []).
Proof.
  intros w record.
  destruct (pull_requests_to_dataframe_null_merger
              w [PDict record] record (initial_state [])
              (or_introl eq_refl) eq_refl eq_refl) as (e & s' & H).
  reflexivity.
Defined.

(** ** The entry point *)








(** ** The history of a completion *)



(** ** The history of a query *)









(** ** The classification stage in a query *)

(** C2, at the failing inputs. The query "hello" is off the fast path.
    When the completion client answers it with the mapping
    [{"parameters": {}}], the classification passes the mapping on as it
    is, without an intent; [process_query] then prints "unknown" as the
    intent detected and dispatches the record with the intent [None], which
    is answered as "Unhandled intent: None". When the completion client
    answers with the string "[/]", the warning that quotes it is no valid
    markup, its print raises inside the [try] block, and the handler's print
    of that failure raises in turn: the classification ends in a
    [MarkupError], with nothing printed. *)
Theorem classify_yields_no_intent_and_raises :
  forall (w : World) (gh : GitHubClient) (s : State),
    let unchecked := answering w (Ret (PDict [("parameters", PDict [])])) in
    let quoting := answering w (Ret (PStr "[/]")) in
    is_list_repos_query "hello" = false
    /\ classify unchecked "hello" s = (Ret [("parameters", PDict [])], s)
    /\ ~ has_intent [("parameters", PDict [])]
    /\ (exists evs,
          console (snd (process_query unchecked gh "hello" s))
          = (console s
             ++ [Print "[bold blue]Processing query:[/bold blue] hello";
                 Print "[blue]Detected intent:[/blue] unknown";
                 Print "[bold yellow]Unhandled intent:[/bold yellow] None"]
             ++ evs)%list)
    /\ classify quoting "hello" s
       = (Raise (Exn "MarkupError"
                     "closing tag '[/bold yellow]' at position 89 doesn't match any open tag"),
          s).
Proof.
  intros w gh s unchecked quoting.
  split; [reflexivity|]. split; [reflexivity|].
  split; [intros [i [H _]]; discriminate H|]. split; [|reflexivity].
  set (h := fun e : exn =>
              bind (console_print unchecked
                      ("[bold red]Error processing query:[/bold red] " ++ exn_str e))
                   (fun _ => print_exc)).
  set (result := [("error", PStr "Unhandled intent: None")]).
  set (narrate :=
         try_except
           (bind (lift (llm_generate_response unchecked result "hello"))
                 (fun response =>
                    bind (console_print unchecked
                            ("[bold green]Response:[/bold green] " ++ response))
                         (fun _ => history_append (Turn "assistant" response))))
           (fun e =>
              bind (console_print unchecked
                      ("[bold yellow]Could not generate response: " ++ exn_str e
                       ++ "[/bold yellow]"))
                   (fun _ => console_print unchecked
                               "[green]Data was processed successfully but couldn't generate a narrative response.[/green]"))).
  set (s3 := mkState (console s
                      ++ [Print "[bold blue]Processing query:[/bold blue] hello";
                          Print "[blue]Detected intent:[/blue] unknown";
                          Print "[bold yellow]Unhandled intent:[/bold yellow] None"])
                     (stdin s)
                     (conversation_history s ++ [Turn "user" "hello"])
                     (http_log s)).
  assert (E : process_query unchecked gh "hello" s = try_except narrate h s3).
  { unfold process_query.
    unfold bind at 1. rewrite console_print_run by reflexivity.
    unfold try_except at 1, bind at 1.
    rewrite (classify_mapping unchecked "hello" _ [("parameters", PDict [])])
      by reflexivity.
    change (PyVal.eq_str (PyVal.get "intent" [("parameters", PDict [])]) "error")
      with false. cbv iota.
    unfold bind at 1. rewrite console_print_run by reflexivity.
    unfold bind at 1, history_append.
    unfold bind at 1.
    rewrite (validate_run unchecked PNone (PDict []) [] _ eq_refl).
    cbn [complete_params mapping_of PyVal.is_dict ret].
    unfold bind at 1.
    rewrite (execute_intent_no_branch unchecked gh) by (intros; reflexivity).
    subst s3 narrate h result. unfold try_except, printed.
    cbn [console stdin conversation_history http_log].
    rewrite <- !app_assoc. reflexivity. }
  rewrite E.
  assert (G : grows (try_except narrate h)) by (subst narrate h; grow).
  destruct (G s3) as ((evs & Hevs) & _).
  exists evs. rewrite Hevs. subst s3. cbn [console]. now rewrite <- app_assoc.
Qed.

